(** * Mutual-fund scraper and normalizer: a shallow embedding

    The development follows [webscraping.py] (discovery, per-fund
    extraction, fallback and retry) and [datapreprocess.py] (missing-value
    policy and validation).  Python strings are byte lists (UTF-8), Python
    floats are an interface with two instances: IEEE binary64 (Rocq's
    primitive floats) and exact rationals. *)

From Stdlib Require Import List Ascii String Bool Arith ZArith Lia.
From Stdlib Require Import QArith Qcanon Permutation Sorted.
From Stdlib Require PrimFloat.
From Stdlib Require Import DecimalString.
Import ListNotations.

Set Implicit Arguments.

(** ** Python strings *)

Module PyStr.

Definition pystr := list ascii.

Definition lit (s : string) : pystr := list_ascii_of_string s.

Definition str_eq_dec : forall a b : pystr, {a = b} + {a <> b} :=
  list_eq_dec ascii_dec.

Definition str_eqb (a b : pystr) : bool :=
  if str_eq_dec a b then true else false.

(** [s.startswith(p)] *)
Fixpoint startswith (p s : pystr) : bool :=
  match p, s with
  | [], _ => true
  | _ :: _, [] => false
  | a :: p', b :: s' => Ascii.eqb a b && startswith p' s'
  end.

(** [p in s] for strings *)
Fixpoint contains (p s : pystr) : bool :=
  startswith p s ||
  match s with
  | [] => false
  | _ :: s' => contains p s'
  end.

(** [s.replace(p, r)] for a non-empty [p]: the occurrences of [p] are
    found from the left and do not overlap.  [skip] counts the characters
    of a matched occurrence that are still to be dropped. *)
Fixpoint replace_from (skip : nat) (p r s : pystr) : pystr :=
  match s with
  | [] => []
  | c :: s' =>
      match skip with
      | S k => replace_from k p r s'
      | O =>
          if startswith p s
          then r ++ replace_from (Nat.pred (List.length p)) p r s'
          else c :: replace_from 0 p r s'
      end
  end.

Definition replace (p r s : pystr) : pystr :=
  match p with
  | [] => s
  | _ :: _ => replace_from 0 p r s
  end.

(** [s.split(sep)] for a non-empty [sep]; [cur] is the piece being read,
    reversed. *)
Fixpoint split_from (skip : nat) (sep cur s : pystr) : list pystr :=
  match s with
  | [] => [rev cur]
  | c :: s' =>
      match skip with
      | S k => split_from k sep cur s'
      | O =>
          if startswith sep s
          then rev cur :: split_from (Nat.pred (List.length sep)) sep [] s'
          else split_from 0 sep (c :: cur) s'
      end
  end.

Definition split (sep s : pystr) : list pystr :=
  match sep with
  | [] => [s]
  | _ :: _ => split_from 0 sep [] s
  end.

(** [sep.join(parts)] *)
Fixpoint join (sep : pystr) (parts : list pystr) : pystr :=
  match parts with
  | [] => []
  | [x] => x
  | x :: rest => x ++ sep ++ join sep rest
  end.

(** The characters [str.strip()] removes, among the one-byte ones; the
    white space of Unicode beyond them (the no-break space and the like)
    is not removed here. *)
Definition is_space (c : ascii) : bool :=
  let n := nat_of_ascii c in
  ((9 <=? n) && (n <=? 13)) || ((28 <=? n) && (n <=? 32)).

Fixpoint lstrip (s : pystr) : pystr :=
  match s with
  | [] => []
  | c :: s' => if is_space c then lstrip s' else s
  end.

Definition strip (s : pystr) : pystr := rev (lstrip (rev (lstrip s))).

Definition is_digit (c : ascii) : bool :=
  let n := nat_of_ascii c in (48 <=? n) && (n <=? 57).

(** Longest run of digits at the head of [s], and the rest. *)
Fixpoint span_digits (s : pystr) : pystr * pystr :=
  match s with
  | [] => ([], [])
  | c :: s' =>
      if is_digit c
      then let '(d, r) := span_digits s' in (c :: d, r)
      else ([], s)
  end.

(** [re.match(r'(\d+\.\d+)%', s)]: group 1 of a match at the head of [s]. *)
Definition match_percent (s : pystr) : option pystr :=
  match span_digits s with
  | ([], _) => None
  | (d1, dot :: r1) =>
      if Ascii.eqb dot "."%char then
        match span_digits r1 with
        | ([], _) => None
        | (d2, pc :: _) =>
            if Ascii.eqb pc "%"%char then Some (d1 ++ "."%char :: d2) else None
        | (_, []) => None
        end
      else None
  | (_, []) => None
  end.

(** [re.search(r'(\d+\.\d+)%', s)]: group 1 of the leftmost match. *)
Fixpoint search_percent (s : pystr) : option pystr :=
  match match_percent s with
  | Some g => Some g
  | None =>
      match s with
      | [] => None
      | _ :: s' => search_percent s'
      end
  end.

(** The suffixes of [p] that are neither empty nor [p] itself. *)
Fixpoint proper_suffixes (p : pystr) : list pystr :=
  match p with
  | [] => []
  | _ :: p' =>
      match p' with
      | [] => []
      | _ :: _ => p' :: proper_suffixes p'
      end
  end.

(** No occurrence of [p] can begin before [y] and end inside [y]. *)
Definition no_straddle (p y : pystr) : bool :=
  forallb (fun p2 => negb (startswith p2 y)) (proper_suffixes p).

(** No string occurs twice. *)
Fixpoint nodupb (l : list pystr) : bool :=
  match l with
  | [] => true
  | c :: l' => negb (existsb (str_eqb c) l') && nodupb l'
  end.

End PyStr.
Export PyStr.

Coercion lit : string >-> pystr.
Arguments lit : simpl never.

Open Scope string_scope.
Open Scope list_scope.

(** ** Python numbers *)

Module PyNum.

Local Open Scope Z_scope.

(** What the code needs of Python's [float]: the not-a-number value
    ([np.nan]), its test ([np.isnan], [pd.isna]), arithmetic, comparison
    and the conversion [float(s)] of a string ([None] stands for the
    [ValueError] it raises). *)
Class PyFloat (F : Type) := {
  nan : F;
  isnan : F -> bool;
  of_Z : Z -> F;
  fadd : F -> F -> F;
  fmul : F -> F -> F;
  fdiv : F -> F -> F;
  fltb : F -> F -> bool;
  feqb : F -> F -> bool;
  float_of_str : pystr -> option F
}.

(** [nan] is what [isnan] recognises. *)
Class NanLaw (F : Type) {PF : PyFloat F} : Prop := {
  isnan_nan : isnan nan = true
}.

(** What the proofs use of the comparison: a strict order, total on the
    numbers. *)
Class OrderLaws (F : Type) {PF : PyFloat F} : Prop := {
  fltb_asym : forall a b, fltb a b = true -> fltb b a = false;
  fltb_negtrans : forall a b c,
    isnan b = false -> fltb a b = false -> fltb b c = false -> fltb a c = false
}.

(** A decimal literal [[+-]digits[.digits]]: sign, all its digits read as
    one integer, and the number of digits after the point. *)
Record decimal := { dec_neg : bool; dec_digits : Z; dec_frac : nat }.

Definition digit_val (c : ascii) : Z := Z.of_nat (nat_of_ascii c) - 48.

Fixpoint digits_val (acc : Z) (s : pystr) : Z :=
  match s with
  | [] => acc
  | c :: s' => digits_val (10 * acc + digit_val c) s'
  end.

Definition is_nil {A} (l : list A) : bool :=
  match l with [] => true | _ => false end.

Definition parse_sign (s : pystr) : bool * pystr :=
  match s with
  | c :: r =>
      if Ascii.eqb c "-"%char then (true, r)
      else if Ascii.eqb c "+"%char then (false, r)
      else (false, s)
  | [] => (false, s)
  end.

Definition parse_decimal (s : pystr) : option decimal :=
  let '(neg, body) := parse_sign (strip s) in
  let '(ip, r) := span_digits body in
  match r with
  | [] =>
      if is_nil ip then None
      else Some {| dec_neg := neg; dec_digits := digits_val 0 ip; dec_frac := 0%nat |}
  | c :: r' =>
      if Ascii.eqb c "."%char then
        let '(fp, r'') := span_digits r' in
        if is_nil r'' && negb (is_nil ip && is_nil fp) then
          Some {| dec_neg := neg; dec_digits := digits_val 0 (ip ++ fp);
                  dec_frac := List.length fp |}
        else None
      else None
  end.

(** [int(s)] for a string; [None] stands for [ValueError].  Digit
    separators and the digits of Unicode, which [int()] also reads, are
    left out. *)
Definition int_of_str (s : pystr) : option Z :=
  let '(neg, body) := parse_sign (strip s) in
  let '(ip, r) := span_digits body in
  if is_nil r && negb (is_nil ip)
  then Some (if neg then - digits_val 0 ip else digits_val 0 ip)
  else None.

(** *** IEEE binary64 *)

Fixpoint float_of_pos (p : positive) : PrimFloat.float :=
  match p with
  | xH => PrimFloat.one
  | xO q => PrimFloat.mul PrimFloat.two (float_of_pos q)
  | xI q => PrimFloat.add (PrimFloat.mul PrimFloat.two (float_of_pos q)) PrimFloat.one
  end.

Definition float_of_Z (z : Z) : PrimFloat.float :=
  match z with
  | Z0 => PrimFloat.zero
  | Zpos p => float_of_pos p
  | Zneg p => PrimFloat.opp (float_of_pos p)
  end.

(** Exact for literals of at most 15 significant digits, where digits and
    power of ten are both representable and the one division rounds
    correctly, as [float()] does.  Exponents, [inf], [nan] and digit
    separators, which [float()] also reads, are left out. *)
Definition binary64_of_str (s : pystr) : option PrimFloat.float :=
  match parse_decimal s with
  | None => None
  | Some d =>
      let m := float_of_Z (dec_digits d) in
      let v := PrimFloat.div m (float_of_Z (10 ^ Z.of_nat (dec_frac d))) in
      Some (if dec_neg d then PrimFloat.opp v else v)
  end.

#[export] Instance binary64 : PyFloat PrimFloat.float := {|
  nan := PrimFloat.nan;
  isnan := PrimFloat.is_nan;
  of_Z := float_of_Z;
  fadd := PrimFloat.add;
  fmul := PrimFloat.mul;
  fdiv := PrimFloat.div;
  fltb := PrimFloat.ltb;
  feqb := PrimFloat.eqb;
  float_of_str := binary64_of_str
|}.

(** *** Exact arithmetic: a rational, or not-a-number *)

Definition exact := option Qc.

Definition exact_lift2 (f : Qc -> Qc -> Qc) (a b : exact) : exact :=
  match a, b with
  | Some x, Some y => Some (f x y)
  | _, _ => None
  end.

Definition exact_div (a b : exact) : exact :=
  match a, b with
  | Some x, Some y => if Qc_eq_dec y 0%Qc then None else Some (x / y)%Qc
  | _, _ => None
  end.

Definition exact_ltb (a b : exact) : bool :=
  match a, b with
  | Some x, Some y => match (x ?= y)%Qc with Lt => true | _ => false end
  | _, _ => false
  end.

Definition exact_eqb (a b : exact) : bool :=
  match a, b with
  | Some x, Some y => if Qc_eq_dec x y then true else false
  | _, _ => false
  end.

Definition exact_of_Z (z : Z) : exact := Some (Q2Qc (inject_Z z)).

Definition exact_of_str (s : pystr) : option exact :=
  match parse_decimal s with
  | None => None
  | Some d =>
      let m := if dec_neg d then - dec_digits d else dec_digits d in
      Some (Some (Q2Qc (m # Pos.of_nat (Nat.pow 10 (dec_frac d))%nat)))
  end.

#[export] Instance exact_float : PyFloat exact := {|
  nan := None;
  isnan := fun a => match a with None => true | Some _ => false end;
  of_Z := exact_of_Z;
  fadd := exact_lift2 Qcplus;
  fmul := exact_lift2 Qcmult;
  fdiv := exact_div;
  fltb := exact_ltb;
  feqb := exact_eqb;
  float_of_str := exact_of_str
|}.

End PyNum.
Export PyNum.

(** ** Effects of the scraper

    Outbound requests, sleeps and exceptions.  The sites are a [world]
    that answers the n-th request of a run; a computation threads the
    request counter and the trace of what it did. *)

Module Effects.

Inductive exn :=
| RequestException   (* network error, timeout, non-2xx status *)
| ValueError         (* body is not JSON, a number does not parse *)
| KeyError
| TypeError
| AttributeError
| EmptyDataError
| OtherError.

Definition exn_eqb (a b : exn) : bool :=
  match a, b with
  | RequestException, RequestException | ValueError, ValueError
  | KeyError, KeyError | TypeError, TypeError
  | AttributeError, AttributeError | EmptyDataError, EmptyDataError
  | OtherError, OtherError => true
  | _, _ => false
  end.

Inductive result (A : Type) :=
| Ok (a : A)
| Raise (e : exn).
Arguments Ok {A} a.
Arguments Raise {A} e.

Inductive event :=
| Get (url : pystr)       (* requests.get(url, timeout=10, headers=...) *)
| ReadCsv (url : pystr)   (* pd.read_csv(url, ...) *)
| Sleep (seconds : Z).    (* time.sleep(seconds) *)

Record state := { clock : nat; trace : list event }.

Definition started : state := {| clock := 0; trace := [] |}.

Section Monad.
Variable W : Type.   (* the world *)

Definition M (A : Type) : Type := W -> state -> result A * state.

Definition ret {A} (a : A) : M A := fun _ st => (Ok a, st).

Definition bind {A B} (m : M A) (k : A -> M B) : M B :=
  fun w st =>
    match m w st with
    | (Ok a, st') => k a w st'
    | (Raise e, st') => (Raise e, st')
    end.

Definition raise {A} (e : exn) : M A := fun _ st => (Raise e, st).

(** [try: m except caught: pass]: [Some] of what [m] returned, [None]
    when it raised one of [caught]; another exception goes on. *)
Definition attempt {A} (caught : list exn) (m : M A) : M (option A) :=
  fun w st =>
    match m w st with
    | (Ok a, st') => (Ok (Some a), st')
    | (Raise e, st') =>
        if existsb (exn_eqb e) caught then (Ok None, st') else (Raise e, st')
    end.

(** One request: the world's answer at the current count, recorded. *)
Definition request {A} (ev : event) (answer : W -> nat -> result A) : M A :=
  fun w st =>
    (answer w (clock st),
     {| clock := S (clock st); trace := trace st ++ [ev] |}).

(** [time.sleep(seconds)], for the delays of the program, none of which
    is negative ([time.sleep] raises [ValueError] on a negative one). *)
Definition sleep (seconds : Z) : M unit :=
  fun _ st => (Ok tt, {| clock := clock st; trace := trace st ++ [Sleep seconds] |}).

End Monad.

Arguments ret {W A} a.
Arguments bind {W A B} m k.
Arguments raise {W A} e.
Arguments attempt {W A} caught m.
Arguments request {W A} ev answer.
Arguments sleep {W} seconds.

End Effects.
Export Effects.

Notation "x <- m ;; k" := (bind m (fun x => k))
  (at level 61, m at next level, right associativity).
Notation "m ;;; k" := (bind m (fun _ => k))
  (at level 61, right associativity).

(** ** webscraping.py *)

Module WebScraping.

Section Scraper.
Context {F : Type} {PF : PyFloat F}.

(** *** What the sites send

    A parsed page is described by the answers to the queries the
    scraper makes of it. *)

(** An [<a class="pos-rel f22Link">] around a listing card. *)
Record anchor := {
  risk_type_elements : list pystr;   (* texts of the risk/type divs *)
  return_elements : list pystr;      (* texts of the return divs *)
  href : option pystr
}.

Record card := { card_text : pystr; card_parent : option anchor }.

(** A value node with the text of the label node found before it by
    [find_previous_sibling], if there is one. *)
Record labelled := { previous : option pystr; elem_text : pystr }.

(** A [<td>]: its text, and the text of a [div.pc543Links] inside it. *)
Record td := { td_text : pystr; td_link : option pystr }.

Record holdings_table := {
  tbody : option (list (list td));   (* rows of the [<tbody>], if any *)
  all_tr : list (list td)            (* every [<tr>] of the table *)
}.

Record soup := {
  fund_cards : list card;
  all_elements : list labelled;
  min_elements : list labelled;
  rating_elements : list pystr;
  exit_load_elements : list pystr;   (* texts of the [p.bodyLarge] nodes *)
  holdings101Table : option holdings_table
}.

(** A JSON scalar, as far as the scraper converts one. *)
Inductive jvalue :=
| JNum (x : F)
| JStr (s : pystr)
| JNull.

(** An entry of the NAV series: a two-element list, or anything else. *)
Inductive nav_entry :=
| NavPair (timestamp_ms nav_value : jvalue)
| NavOther.

(** The graph response: [data.get('folio', {}).get('data', [])]. *)
Record nav_json := { folio_data : list nav_entry }.

(** The portfolio-stats response, read with the defaults of the
    [data.get] calls: [nan] for the six statistics and [aum], [0] for the
    three asset shares, the empty dict for the sector map.  A response
    that makes a conversion raise is the [Raise] of its request. *)
Record stats_json := {
  j_pe : F;
  j_pb : F;
  j_debt_per : F;
  j_equity_per : F;
  j_average_maturity : F;
  j_yield_to_maturity : F;
  j_asset_equity : F;
  j_asset_debt : F;
  j_asset_cash : F;
  j_aum : F;
  j_equity_sector_per : list (pystr * F)
}.

(** A row of the bulk feed; [feed_code] is the scheme code when that cell
    is a number. *)
Record feed_row := { feed_code : option Z; feed_nav : pystr; feed_date : pystr }.

Record world := {
  page_at : nat -> pystr -> result soup;
  nav_json_at : nat -> pystr -> result nav_json;
  stats_json_at : nat -> pystr -> result stats_json;
  csv_at : nat -> pystr -> result (list feed_row);
  (** [datetime.utcfromtimestamp(t).strftime('%Y-%m-%d')] *)
  utcfromtimestamp : F -> result pystr;
  (** [pd.to_datetime(s, format='%d-%b-%Y')] as an ISO date; [None] is
      its [ValueError] *)
  to_datetime : pystr -> option pystr
}.

Local Abbreviation M := (Effects.M world).

(** *** Constants *)

Definition str_of_nat (n : nat) : pystr :=
  lit (NilZero.string_of_uint (Nat.to_uint n)).

Definition BASE_URL (page_no : nat) : pystr :=
  lit "https://groww.in/mutual-funds/filter?q=&fundSize=&pageNo="
  ++ str_of_nat page_no ++ lit "&sortBy=0".
Definition DELAY_SECONDS : Z := 3.
Definition MAX_FUNDS : nat := 200.

(** A scheme code: the digits found in the page, or [np.nan]. *)
Definition scheme_code := option pystr.

(** [not scheme_code or pd.isna(scheme_code)] *)
Definition no_code (c : scheme_code) : bool :=
  match c with
  | None => true
  | Some s => is_nil s
  end.

Definition code_text (c : scheme_code) : pystr :=
  match c with
  | None => lit "nan"
  | Some s => s
  end.

Definition of_option {A} (e : exn) (o : option A) : M A :=
  match o with
  | Some a => ret a
  | None => raise e
  end.

(** [map] for a function that may raise: the first failure ends it. *)
Fixpoint traverse {A B} (f : A -> option B) (l : list A) : option (list B) :=
  match l with
  | [] => Some []
  | a :: l' =>
      match f a, traverse f l' with
      | Some b, Some bs => Some (b :: bs)
      | _, _ => None
      end
  end.

(** *** fetch_page *)

Definition fetch_page (url : pystr) : M (option soup) :=
  attempt [RequestException]
    (request (Get url) (fun w n => page_at w n url)).

(** *** fetch_amfi_nav *)

Record navpoint := { date : pystr; nav : F }.

(** [a <= b] for two ISO dates: the order of their characters, which is
    the order of the timestamps the code compares when both are written
    [YYYY-MM-DD], as the default window is. *)
Fixpoint str_leb (a b : pystr) : bool :=
  match a, b with
  | [], _ => true
  | _ :: _, [] => false
  | x :: a', y :: b' =>
      if (nat_of_ascii x <? nat_of_ascii y)%nat then true
      else if (nat_of_ascii y <? nat_of_ascii x)%nat then false
      else str_leb a' b'
  end.

Definition amfi_url : pystr := lit "https://www.amfiindia.com/spages/NAVAll.txt".

Definition code_is (code : Z) (r : feed_row) : bool :=
  match feed_code r with
  | Some z => Z.eqb z code
  | None => false
  end.

Definition fetch_amfi_nav (code : scheme_code) (start_date end_date : pystr)
  : M (list navpoint) :=
  r <- attempt [EmptyDataError; RequestException; ValueError]
         (df <- request (ReadCsv amfi_url) (fun w n => csv_at w n amfi_url) ;;
          wanted <- of_option ValueError
                      (match code with
                       | Some s => int_of_str s
                       | None => None
                       end) ;;
          let df := filter (code_is wanted) df in
          dated <- (fun w => of_option ValueError
                      (traverse (fun r =>
                         option_map (fun d => (d, feed_nav r))
                                    (to_datetime w (feed_date r))) df) w) ;;
          let df := filter (fun r => str_leb start_date (fst r)
                                     && str_leb (fst r) end_date) dated in
          of_option ValueError
            (traverse (fun r =>
               option_map (fun v => {| date := fst r; nav := v |})
                          (float_of_str (snd r))) df)) ;;
  match r with
  | Some formatted_data => ret formatted_data
  | None => ret []
  end.

(** *** extract_historical_nav *)

Definition nav_url (code : scheme_code) (months : nat) : pystr :=
  lit "https://groww.in/v1/api/data/mf/web/v1/scheme/" ++ code_text code
  ++ lit "/graph?benchmark=false&months=" ++ str_of_nat months.

(** [float(v)] for a JSON scalar. *)
Definition float_of_jvalue (v : jvalue) : result F :=
  match v with
  | JNum x => Ok x
  | JStr s =>
      match float_of_str s with
      | Some x => Ok x
      | None => Raise ValueError
      end
  | JNull => Raise TypeError
  end.

(** The body of the [try] inside the loop over the entries. *)
Definition format_entry (ts v : jvalue) : M navpoint :=
  nav_value <- (fun _ st => (float_of_jvalue v, st)) ;;
  timestamp_s <- (match ts with
                  | JNum t => ret (fdiv t (of_Z 1000))
                  | _ => raise TypeError
                  end) ;;
  date_str <- (fun w st => (utcfromtimestamp w timestamp_s, st)) ;;
  ret {| date := date_str; nav := nav_value |}.

Fixpoint format_entries (nav_data : list nav_entry) : M (list navpoint) :=
  match nav_data with
  | [] => ret []
  | NavPair ts v :: rest =>
      r <- attempt [ValueError; TypeError] (format_entry ts v) ;;
      formatted <- format_entries rest ;;
      ret (match r with
           | Some p => p :: formatted
           | None => formatted
           end)
  | NavOther :: rest => format_entries rest
  end.

Definition default_start_date : pystr := lit "2024-05-05".
Definition default_end_date : pystr := lit "2025-05-05".

Definition extract_historical_nav (code : scheme_code) (months : nat)
  : M (list navpoint) :=
  if no_code code then ret []
  else
    r <- attempt [RequestException; ValueError; KeyError]
           (data <- request (Get (nav_url code months))
                      (fun w n => nav_json_at w n (nav_url code months)) ;;
            let nav_data := folio_data data in
            if is_nil nav_data then ret []
            else format_entries nav_data) ;;
    match r with
    | Some formatted_data => ret formatted_data
    | None => fetch_amfi_nav code default_start_date default_end_date
    end.

(** *** extract_top_holdings *)

Record holding := { company : pystr; holding_percentage : F }.

(** The body of the loop over the rows: a row of at least four cells
    gives one holding, a shorter one none. *)
Definition row_holding (cols : list td) : list holding :=
  match cols with
  | c0 :: _ :: _ :: c3 :: _ =>
      let company_elem :=
        match td_link c0 with
        | Some t => t
        | None => td_text c0
        end in
      let percentage := replace "%" "" (strip (td_text c3)) in
      [{| company := strip company_elem;
          holding_percentage :=
            match float_of_str percentage with
            | Some x => x
            | None => of_Z 0
            end |}]
  | _ => []
  end.

(** [tbody.find_all('tr')[:5]], or [table.find_all('tr')[1:6]] without a
    [<tbody>]. *)
Definition table_rows (table : holdings_table) : list (list td) :=
  match tbody table with
  | Some trs => firstn 5 trs
  | None => firstn 5 (skipn 1 (all_tr table))
  end.

Definition extract_top_holdings (code : scheme_code) (fund_link : pystr)
  : M (list holding) :=
  if no_code code || is_nil fund_link then ret []
  else
    page <- fetch_page fund_link ;;
    match page with
    | None => ret []
    | Some doc =>
        match holdings101Table doc with
        | None => ret []
        | Some table => ret (flat_map row_holding (table_rows table))
        end
    end.

(** *** extract_fund_overview *)

Record fund := {
  name : pystr;
  risk : pystr;
  type_ : pystr;
  returns : list pystr;
  link : pystr
}.

(** [while len(returns) < 3: returns.append("NA")] *)
Definition pad_returns (l : list pystr) : list pystr :=
  l ++ repeat (lit "NA") (3 - List.length l).

Definition card_fund (c : card) : list fund :=
  match card_parent c with
  | None => []
  | Some parent =>
      let name := strip (card_text c) in
      let risk := strip (nth 0 (risk_type_elements parent) []) in
      let type_ := strip (nth 1 (risk_type_elements parent) []) in
      let returns := pad_returns (map strip (firstn 3 (return_elements parent))) in
      let link :=
        match href parent with
        | Some l => l
        | None => []
        end in
      let link :=
        if negb (is_nil link) && negb (startswith "http" link)
        then lit "https://groww.in" ++ link
        else link in
      if negb (is_nil name) && negb (is_nil link)
      then [{| name := name; risk := risk; type_ := type_;
               returns := returns; link := link |}]
      else []
  end.

Definition extract_fund_overview (page_no : nat) : M (list fund) :=
  page <- fetch_page (BASE_URL page_no) ;;
  match page with
  | None => ret []
  | Some doc =>
      if is_nil (fund_cards doc) then ret []
      else ret (flat_map card_fund (fund_cards doc))
  end.

(** *** extract_detailed_fund_data *)

(** The loops that look for a value after its label: the first value
    whose label matches and whose cleaned text is a number. *)
Fixpoint scan_labelled (label : pystr) (clean : pystr -> pystr)
                       (elems : list labelled) : F :=
  match elems with
  | [] => nan
  | elem :: rest =>
      match previous elem with
      | Some t =>
          if contains label t then
            match float_of_str (clean (strip (elem_text elem))) with
            | Some x => x
            | None => scan_labelled label clean rest
            end
          else scan_labelled label clean rest
      | None => scan_labelled label clean rest
      end
  end.

Definition rupee : pystr := lit "₹".

Definition clean_aum (text : pystr) : pystr :=
  replace "Cr" "" (replace "," "" (replace rupee "" text)).

Definition clean_amount (text : pystr) : pystr :=
  replace "," "" (replace rupee "" text).

Fixpoint scan_rating (elems : list pystr) : F :=
  match elems with
  | [] => nan
  | elem :: rest =>
      let text := strip elem in
      if str_eqb text "NA" then scan_rating rest
      else
        match float_of_str text with
        | Some x => x
        | None => scan_rating rest
        end
  end.

Fixpoint scan_exit_load (elems : list pystr) : F :=
  match elems with
  | [] => nan
  | elem :: rest =>
      let text := strip elem in
      if contains "Exit load" text then
        if contains "No exit load" text || contains "0%" text then of_Z 0
        else
          match search_percent text with
          | Some g =>
              match float_of_str g with
              | Some x => x
              | None => scan_exit_load rest
              end
          | None => scan_exit_load rest
          end
      else scan_exit_load rest
  end.

Fixpoint scan_expense_ratio (elems : list pystr) : F :=
  match elems with
  | [] => nan
  | elem :: rest =>
      let text := strip elem in
      if contains "Expense ratio" text then
        match search_percent text with
        | Some g =>
            match float_of_str g with
            | Some x => x
            | None => scan_expense_ratio rest
            end
        | None => scan_expense_ratio rest
        end
      else scan_expense_ratio rest
  end.

(** The seven values of the returned list, in its order. *)
Record fund_detail := {
  aum : F;
  detail_nav : F;
  minimum : F;
  minimum_sip : F;
  rating : F;
  expense_ratio : F;
  exit_load : F
}.

Definition detail_of_page (doc : soup) : fund_detail :=
  let aum := scan_labelled "Fund size" clean_aum (all_elements doc) in
  let nav := scan_labelled "NAV" clean_amount (all_elements doc) in
  let minimum :=
    scan_labelled "Min. for 1st investment" clean_amount (min_elements doc) in
  let minimum_sip :=
    scan_labelled "Min. for SIP" clean_amount (min_elements doc) in
  let minimum := if isnan minimum then minimum_sip else minimum in
  let rating := scan_rating (rating_elements doc) in
  let exit_load := scan_exit_load (exit_load_elements doc) in
  let expense_ratio := scan_expense_ratio (exit_load_elements doc) in
  {| aum := aum; detail_nav := nav; minimum := minimum;
     minimum_sip := minimum_sip; rating := rating;
     expense_ratio := expense_ratio; exit_load := exit_load |}.

Definition extract_detailed_fund_data (url : pystr) : M fund_detail :=
  page <- fetch_page url ;;
  match page with
  | None =>
      ret {| aum := nan; detail_nav := nan; minimum := nan;
             minimum_sip := nan; rating := nan; expense_ratio := nan;
             exit_load := nan |}
  | Some doc => ret (detail_of_page doc)
  end.

(** *** extract_portfolio_stats *)

Record asset_allocation := {
  equity : F;
  debt : F;
  cash : F;
  total_aum : F
}.

Record sector_entry := { sector : pystr; percentage : F }.

Record portfolio_stats := {
  pe : F;
  pb : F;
  debt_per : F;
  equity_per : F;
  average_maturity : F;
  yield_to_maturity : F;
  asset_alloc : asset_allocation;
  sector_allocation : list sector_entry;
  equity_aum : F
}.

(** The record returned without a scheme code and after the last failed
    attempt. *)
Definition unavailable_stats : portfolio_stats :=
  {| pe := nan; pb := nan; debt_per := nan; equity_per := nan;
     average_maturity := nan; yield_to_maturity := nan;
     asset_alloc := {| equity := nan; debt := nan; cash := nan; total_aum := nan |};
     sector_allocation := [];
     equity_aum := nan |}.

(** [sorted(l, key=lambda x: x['percentage'], reverse=True)]: a stable
    sort, largest first, entries of equal percentage in their order.
    With a key that is not a number no comparison holds, and the order
    Python's merge sort leaves may differ from this insertion's. *)
Fixpoint insert_desc (x : sector_entry) (l : list sector_entry) : list sector_entry :=
  match l with
  | [] => [x]
  | y :: l' =>
      if fltb (percentage x) (percentage y)
      then y :: insert_desc x l'
      else x :: l
  end.

Definition sorted_desc (l : list sector_entry) : list sector_entry :=
  fold_right insert_desc [] l.

(** The rescaling of the two shares of a Hybrid fund. *)
Definition hybrid_shares (debt_per equity_per : F) : F * F :=
  let debt := if isnan debt_per then of_Z 0 else debt_per in
  let equity := if isnan equity_per then of_Z 0 else equity_per in
  let total := fadd debt equity in
  if fltb (of_Z 0) total
  then (fmul (fdiv debt total) (of_Z 100), fmul (fdiv equity total) (of_Z 100))
  else (nan, nan).

(** The body of the [try]: the record built from a decoded response. *)
Definition stats_of_response (fund_type : pystr) (data : stats_json)
  : portfolio_stats :=
  let commodities := str_eqb fund_type "Commodities" in
  let hybrid := str_eqb fund_type "Hybrid" in
  let pe := if commodities then nan else j_pe data in
  let pb := if commodities then nan else j_pb data in
  let debt_per := if commodities then of_Z 0 else j_debt_per data in
  let equity_per := if commodities then of_Z 0 else j_equity_per data in
  let average_maturity := if hybrid then j_average_maturity data else nan in
  let yield_to_maturity := if hybrid then j_yield_to_maturity data else nan in
  let '(debt_per, equity_per) :=
    if hybrid then hybrid_shares debt_per equity_per
    else (debt_per, equity_per) in
  let asset_allocation :=
    {| equity := j_asset_equity data; debt := j_asset_debt data;
       cash := j_asset_cash data; total_aum := j_aum data |} in
  let sector_allocation :=
    firstn 4 (sorted_desc
      (map (fun kv => {| sector := fst kv; percentage := snd kv |})
           (j_equity_sector_per data))) in
  let equity_aum :=
    if negb (isnan (total_aum asset_allocation))
    then fmul (fdiv (equity asset_allocation) (of_Z 100))
              (total_aum asset_allocation)
    else nan in
  {| pe := pe; pb := pb; debt_per := debt_per; equity_per := equity_per;
     average_maturity := average_maturity;
     yield_to_maturity := yield_to_maturity;
     asset_alloc := asset_allocation;
     sector_allocation := sector_allocation;
     equity_aum := equity_aum |}.

Definition stats_url (code : scheme_code) : pystr :=
  lit "https://groww.in/v1/api/data/mf/web/v1/scheme/portfolio/"
  ++ code_text code ++ lit "/stats".

(** [for attempt in range(retries)], by the number of attempts left.
    [None] is what the function returns when the loop ends without a
    [return]. *)
Fixpoint stats_attempts (code : scheme_code) (fund_type : pystr)
                        (retry_delay : Z) (left : nat)
  : M (option portfolio_stats) :=
  match left with
  | O => ret None
  | S rest =>
      r <- attempt [ValueError; KeyError; RequestException]
             (data <- request (Get (stats_url code))
                        (fun w n => stats_json_at w n (stats_url code)) ;;
              let stats := stats_of_response fund_type data in
              sleep 1 ;;;
              ret stats) ;;
      match r with
      | Some stats => ret (Some stats)
      | None =>
          match rest with
          | S _ => sleep retry_delay ;;; stats_attempts code fund_type retry_delay rest
          | O => ret (Some unavailable_stats)
          end
      end
  end.

Definition extract_portfolio_stats (code : scheme_code) (fund_type : pystr)
                                   (retries : nat) (retry_delay : Z)
  : M (option portfolio_stats) :=
  if no_code code then ret (Some unavailable_stats)
  else stats_attempts code fund_type retry_delay retries.

Definition default_retries : nat := 3.
Definition default_retry_delay : Z := 5.

(** *** normalize_link *)

Definition suffixes : list pystr :=
  [lit "-fund"; lit "-direct"; lit "-growth"; lit "-plan"; lit "-scheme"].

Definition strip_suffixes (slug : pystr) : pystr :=
  fold_left (fun slug suffix => replace suffix "" slug) suffixes slug.

Definition normalize_link (link : pystr) : pystr :=
  let slug := hd [] (split "?" (last (split "mutual-funds/" link) [])) in
  let slug := strip_suffixes slug in
  join "-" (filter (fun t => negb (is_nil t)) (split "-" slug)).

(** *** main: the discovery loop *)

Definition key : Type := pystr * pystr.

Definition key_of (f : fund) : key := (strip (name f), normalize_link (link f)).

Definition key_eqb (a b : key) : bool :=
  str_eqb (fst a) (fst b) && str_eqb (snd a) (snd b).

Definition seen_before (k : key) (seen : list key) : bool :=
  existsb (key_eqb k) seen.

(** [for fund in funds_data], with its [break]. *)
Fixpoint add_funds (funds_data : list fund) (seen : list key)
                   (all_funds : list fund) : list key * list fund :=
  match funds_data with
  | [] => (seen, all_funds)
  | f :: rest =>
      if seen_before (key_of f) seen then add_funds rest seen all_funds
      else
        let seen := key_of f :: seen in
        let all_funds := all_funds ++ [f] in
        if (MAX_FUNDS <=? List.length all_funds)%nat then (seen, all_funds)
        else add_funds rest seen all_funds
  end.

(** [while len(all_funds) < MAX_FUNDS], at most [fuel] pages; [None] when
    the pages allowed are used up before the loop ends. *)
Fixpoint discover (fuel page_no : nat) (seen : list key) (all_funds : list fund)
  : M (option (list fund)) :=
  match fuel with
  | O => ret None
  | S fuel' =>
      if (List.length all_funds <? MAX_FUNDS)%nat then
        funds_data <- extract_fund_overview page_no ;;
        if is_nil funds_data then ret (Some all_funds)
        else
          let '(seen, all_funds) := add_funds funds_data seen all_funds in
          sleep DELAY_SECONDS ;;;
          discover fuel' (S page_no) seen all_funds
      else ret (Some all_funds)
  end.

(** *** extract_scheme_code *)

Definition scheme_code_key : pystr :=
  "034"%char :: lit "scheme_code" ++ ["034"%char; ":"%char; "034"%char].

(** [re.match(r'"scheme_code":"(\d+)"', s)]: group 1 of a match at the
    head of [s]. *)
Definition match_scheme_code (s : pystr) : option pystr :=
  if startswith scheme_code_key s then
    match span_digits (skipn (List.length scheme_code_key) s) with
    | ((_ :: _) as digits, c :: _) =>
        if Ascii.eqb c "034"%char then Some digits else None
    | _ => None
    end
  else None.

(** [re.search(r'"scheme_code":"(\d+)"', s)]: group 1 of the leftmost
    match. *)
Fixpoint search_scheme_code (s : pystr) : option pystr :=
  match match_scheme_code s with
  | Some g => Some g
  | None =>
      match s with
      | [] => None
      | _ :: s' => search_scheme_code s'
      end
  end.

(** The loop over the script tags: the code of the first that has one. *)
Fixpoint first_scheme_code (scripts : list pystr) : scheme_code :=
  match scripts with
  | [] => None
  | script :: rest =>
      match search_scheme_code script with
      | Some g => Some g
      | None => first_scheme_code rest
      end
  end.

Section Scripts.
(** [[str(script) for script in soup.find_all('script')]] *)
Variable find_all_script : soup -> list pystr.

Definition extract_scheme_code (url : pystr) : M scheme_code :=
  page <- fetch_page url ;;
  match page with
  | None => ret None
  | Some doc => ret (first_scheme_code (find_all_script doc))
  end.

End Scripts.

(** *** process_returns *)

(** An entry of the three lists: a number, or a text left as it was. *)
Inductive return_value :=
| RetNum (x : F)
| RetStr (s : pystr).

(** [s.rstrip('%')] *)
Definition rstrip_percent (s : pystr) : pystr :=
  let fix drop (r : pystr) : pystr :=
    match r with
    | c :: r' => if Ascii.eqb c "%"%char then drop r' else r
    | [] => []
    end in
  rev (drop (rev s)).

(** [s.endswith('%')] *)
Definition ends_with_percent (s : pystr) : bool :=
  match rev s with
  | c :: _ => Ascii.eqb c "%"%char
  | [] => false
  end.

(** One entry: ['NA'] is [np.nan], a text that ends in [%] is converted
    ([ValueError] when it is not a number), another text is kept. *)
Definition return_entry (text : pystr) : result return_value :=
  if str_eqb text "NA" then Ok (RetNum nan)
  else if ends_with_percent text then
    match float_of_str (rstrip_percent text) with
    | Some x => Ok (RetNum x)
    | None => Raise ValueError
    end
  else Ok (RetStr text).

(** The body of the loop: the three entries are read first (a list that
    is too short is an [IndexError], here [OtherError]), then converted
    in turn. *)
Definition returns_row (returns : list pystr)
  : result (return_value * return_value * return_value) :=
  match returns with
  | r0 :: r1 :: r2 :: _ =>
      match return_entry r0 with
      | Raise e => Raise e
      | Ok a =>
          match return_entry r1 with
          | Raise e => Raise e
          | Ok b =>
              match return_entry r2 with
              | Raise e => Raise e
              | Ok c => Ok (a, b, c)
              end
          end
      end
  | _ => Raise OtherError
  end.

Fixpoint returns_rows (returns_list : list (list pystr))
  : result (list return_value * list return_value * list return_value) :=
  match returns_list with
  | [] => Ok ([], [], [])
  | returns :: rest =>
      match returns_row returns with
      | Raise e => Raise e
      | Ok (a, b, c) =>
          match returns_rows rest with
          | Raise e => Raise e
          | Ok (one_year, three_year, five_year) =>
              Ok (a :: one_year, b :: three_year, c :: five_year)
          end
      end
  end.

(** [while len(lst) < expected_count: lst.append(np.nan)] *)
Definition pad_nan (expected_count : nat) (lst : list return_value)
  : list return_value :=
  lst ++ repeat (RetNum nan) (expected_count - List.length lst).

Definition process_returns (returns_list : list (list pystr))
                           (expected_count : nat)
  : result (list return_value * list return_value * list return_value) :=
  match returns_rows returns_list with
  | Raise e => Raise e
  | Ok (one_year, three_year, five_year) =>
      Ok (pad_nan expected_count one_year,
          pad_nan expected_count three_year,
          pad_nan expected_count five_year)
  end.

(** *** main: the extraction of the funds found

    [main] up to the [analysis] dict that it hands to [pd.DataFrame];
    the export to a spreadsheet that follows is left out. *)

(** [[f(x) for x in l]] for an [f] with effects. *)
Fixpoint for_each {A B} (f : A -> M B) (l : list A) : M (list B) :=
  match l with
  | [] => ret []
  | a :: l' =>
      b <- f a ;;
      bs <- for_each f l' ;;
      ret (b :: bs)
  end.

(** What the loop over the funds appends for one fund. *)
Record fund_row := {
  row_detail : fund_detail;
  row_code : scheme_code;
  row_nav : list navpoint;
  row_holdings : list holding;
  row_asset : asset_allocation;
  row_sectors : list sector_entry;
  row_equity_aum : F
}.

Record analysis := {
  a_name : list pystr;
  a_aum : list F;
  a_nav : list F;
  a_exit_load : list F;
  a_rating : list F;
  a_minimum_investment : list F;
  a_minimum_sip_investment : list F;
  a_pe : list F;
  a_pb : list F;
  a_debt_per : list F;
  a_equity_per : list F;
  a_average_maturity : list F;
  a_yield_to_maturity : list F;
  a_risk : list pystr;
  a_type : list pystr;
  a_one_year_return : list return_value;
  a_three_year_return : list return_value;
  a_five_year_return : list return_value;
  a_link : list pystr;
  a_historical_nav : list (list navpoint);
  a_top_holdings : list (list holding);
  a_asset_allocation : list asset_allocation;
  a_sector_allocation : list (list sector_entry);
  a_equity_aum : list F
}.

Section Main.
Variable find_all_script : soup -> list pystr.

(** The body of [for fund in all_funds].  Subscripting the [None] that
    [extract_portfolio_stats] returns without attempts is a
    [TypeError]. *)
Definition extract_fund (f : fund) : M fund_row :=
  detail <- extract_detailed_fund_data (link f) ;;
  code <- extract_scheme_code find_all_script (link f) ;;
  nav_data <- extract_historical_nav code 12 ;;
  top_holdings <- extract_top_holdings code (link f) ;;
  stats <- extract_portfolio_stats code (type_ f)
             default_retries default_retry_delay ;;
  match stats with
  | None => raise TypeError
  | Some stats =>
      sleep DELAY_SECONDS ;;;
      ret {| row_detail := detail; row_code := code; row_nav := nav_data;
             row_holdings := top_holdings;
             row_asset := asset_alloc stats;
             row_sectors := sector_allocation stats;
             row_equity_aum := equity_aum stats |}
  end.

(** [[stats[k] for stats in [extract_portfolio_stats(code, fund['type'])
    for code, fund in zip(scheme_codes, all_funds)]]]: every fund's
    statistics are fetched again, then the one field is read. *)
Definition stats_column (field : portfolio_stats -> F)
                        (scheme_codes : list scheme_code) (all_funds : list fund)
  : M (list F) :=
  fetched <- for_each
               (fun cf => extract_portfolio_stats (fst cf) (type_ (snd cf))
                            default_retries default_retry_delay)
               (combine scheme_codes all_funds) ;;
  of_option TypeError (traverse (option_map field) fetched).

Definition main_analysis (fuel : nat) : M (option analysis) :=
  found <- discover fuel 0 [] [] ;;
  match found with
  | None => ret None
  | Some all_funds =>
      let num_funds := List.length all_funds in
      let all_links :=
        map (fun f => hd [] (split "?" (strip (link f)))) all_funds in
      yearly <- (fun _ st =>
                   (process_returns (map returns all_funds) num_funds, st)) ;;
      rows <- for_each extract_fund all_funds ;;
      let scheme_codes := map row_code rows in
      pe_list <- stats_column pe scheme_codes all_funds ;;
      pb_list <- stats_column pb scheme_codes all_funds ;;
      debt_per_list <- stats_column debt_per scheme_codes all_funds ;;
      equity_per_list <- stats_column equity_per scheme_codes all_funds ;;
      average_maturity_list <-
        stats_column average_maturity scheme_codes all_funds ;;
      yield_to_maturity_list <-
        stats_column yield_to_maturity scheme_codes all_funds ;;
      ret (Some
        {| a_name := map name all_funds;
           a_aum := map (fun r => aum (row_detail r)) rows;
           a_nav := map (fun r => detail_nav (row_detail r)) rows;
           a_exit_load := map (fun r => exit_load (row_detail r)) rows;
           a_rating := map (fun r => rating (row_detail r)) rows;
           a_minimum_investment := map (fun r => minimum (row_detail r)) rows;
           a_minimum_sip_investment :=
             map (fun r => minimum_sip (row_detail r)) rows;
           a_pe := pe_list;
           a_pb := pb_list;
           a_debt_per := debt_per_list;
           a_equity_per := equity_per_list;
           a_average_maturity := average_maturity_list;
           a_yield_to_maturity := yield_to_maturity_list;
           a_risk := map risk all_funds;
           a_type := map type_ all_funds;
           a_one_year_return := fst (fst yearly);
           a_three_year_return := snd (fst yearly);
           a_five_year_return := snd yearly;
           a_link := all_links;
           a_historical_nav := map row_nav rows;
           a_top_holdings := map row_holdings rows;
           a_asset_allocation := map row_asset rows;
           a_sector_allocation := map row_sectors rows;
           a_equity_aum := map row_equity_aum rows |})
  end.

End Main.

(** *** Vocabulary of the statements *)

Definition is_none {A} (o : option A) : bool :=
  match o with
  | None => true
  | Some _ => false
  end.

(** No element has the label together with a text that is a number. *)
Definition no_value (label : pystr) (clean : pystr -> pystr)
                    (elems : list labelled) : bool :=
  forallb (fun elem =>
             match previous elem with
             | Some t =>
                 negb (contains label t)
                 || is_none (float_of_str (clean (strip (elem_text elem))))
             | None => true
             end) elems.

(** Every rating cell is 'NA' or not a number. *)
Definition no_rating (elems : list pystr) : bool :=
  forallb (fun elem => str_eqb (strip elem) "NA"
                       || is_none (float_of_str (strip elem))) elems.

(** No paragraph has the label together with a percentage that is a
    number. *)
Definition no_percent (label : pystr) (elems : list pystr) : bool :=
  forallb (fun elem =>
             negb (contains label (strip elem))
             || match search_percent (strip elem) with
                | Some g => is_none (float_of_str g)
                | None => true
                end) elems.

(** No paragraph about the exit load says that there is none. *)
Definition no_zero_load (elems : list pystr) : bool :=
  forallb (fun elem =>
             negb (contains "Exit load" (strip elem)
                   && (contains "No exit load" (strip elem)
                       || contains "0%" (strip elem)))) elems.

(** The entries of a listing that the loop has not met: the first of
    each identity that is not in [seen]. *)
Fixpoint first_seen (seen : list key) (funds_data : list fund) : list fund :=
  match funds_data with
  | [] => []
  | f :: rest =>
      if seen_before (key_of f) seen then first_seen seen rest
      else f :: first_seen (key_of f :: seen) rest
  end.

(** What every fund of a listing page has: a name, an absolute link and
    three returns. *)
Definition well_formed_fund (f : fund) : Prop :=
  name f <> [] /\ startswith "http" (link f) = true /\
  List.length (returns f) = 3%nat.

(** The requests among the events. *)
Definition is_request (ev : event) : bool :=
  match ev with
  | Get _ | ReadCsv _ => true
  | Sleep _ => false
  end.

(** The lengths of the lists of the [analysis] dict, in its order. *)
Definition analysis_lengths (a : analysis) : list nat :=
  [ List.length (a_name a); List.length (a_aum a); List.length (a_nav a);
    List.length (a_exit_load a); List.length (a_rating a);
    List.length (a_minimum_investment a);
    List.length (a_minimum_sip_investment a);
    List.length (a_pe a); List.length (a_pb a); List.length (a_debt_per a);
    List.length (a_equity_per a); List.length (a_average_maturity a);
    List.length (a_yield_to_maturity a); List.length (a_risk a);
    List.length (a_type a); List.length (a_one_year_return a);
    List.length (a_three_year_return a); List.length (a_five_year_return a);
    List.length (a_link a); List.length (a_historical_nav a);
    List.length (a_top_holdings a); List.length (a_asset_allocation a);
    List.length (a_sector_allocation a); List.length (a_equity_aum a) ].

(** A page request that is answered or refused, not one that fails in
    another way. *)
Definition fetchable (r : result soup) : Prop :=
  match r with
  | Ok _ => True
  | Raise e => e = RequestException
  end.

(** No [<-] in the text. *)
Definition dash_free (t : pystr) : Prop := ~ In "-"%char t.

(** A run of the suffixes that [normalize_link] removes. *)
Definition cosmetic (ts : list pystr) : Prop :=
  Forall (fun t => In t suffixes) ts.

(** Nothing, or a [?] and what follows it. *)
Definition query_like (q : pystr) : bool :=
  match q with
  | [] => true
  | c :: _ => Ascii.eqb c "?"%char
  end.

(** Nothing, or something that opens with [-] or [?]. *)
Definition tail_like (y : pystr) : bool :=
  match y with
  | [] => true
  | c :: _ => Ascii.eqb c "-"%char || Ascii.eqb c "?"%char
  end.

Definition sector_entries (data : stats_json) : list sector_entry :=
  map (fun kv => {| sector := fst kv; percentage := snd kv |})
      (j_equity_sector_per data).

(** [x] is not below [y]. *)
Definition not_below (x y : sector_entry) : Prop :=
  fltb (percentage x) (percentage y) = false.

End Scraper.
End WebScraping.

(** ** datapreprocess.py *)

Module Preprocess.

Section Frames.
Context {F : Type} {PF : PyFloat F}.

(** A cell of a DataFrame: a number (an [int] or a [float], [nan]
    included), a string or [None]. *)
Inductive cell :=
| Num (x : F)
| Str (s : pystr)
| NoneCell.

(** A DataFrame, by columns. *)
Definition frame := list (pystr * list cell).

Inductive log_record :=
| InfoReplaced (col : pystr)
| WarnNegative (col : pystr)
| WarnEquityAumExceeds
| WarnUnrealisticReturns (col : pystr) (rows : list (cell * cell))
| WarnInconsistentAllocation
| WarnDuplicateNames (names : list cell).

(** The DataFrames alive, by identity, and the log. *)
Record store := { frames : list frame; log : list log_record }.

Definition ref := nat.

Definition P (A : Type) : Type := store -> result A * store.

Definition pret {A} (a : A) : P A := fun st => (Ok a, st).

Definition pbind {A B} (m : P A) (k : A -> P B) : P B :=
  fun st =>
    match m st with
    | (Ok a, st') => k a st'
    | (Raise e, st') => (Raise e, st')
    end.

Definition praise {A} (e : exn) : P A := fun st => (Raise e, st).

Notation "x <~ m ;; k" := (pbind m (fun x => k))
  (at level 61, m at next level, right associativity).
Notation "m ~;; k" := (pbind m (fun _ => k))
  (at level 61, right associativity).

Definition read (df : ref) : P frame :=
  fun st =>
    match nth_error (frames st) df with
    | Some fr => (Ok fr, st)
    | None => (Raise OtherError, st)
    end.

Fixpoint update {A} (l : list A) (i : nat) (a : A) : list A :=
  match l, i with
  | [], _ => []
  | _ :: l', O => a :: l'
  | x :: l', S j => x :: update l' j a
  end.

Definition write (df : ref) (fr : frame) : P unit :=
  fun st => (Ok tt, {| frames := update (frames st) df fr; log := log st |}).

Definition emit (r : log_record) : P unit :=
  fun st => (Ok tt, {| frames := frames st; log := log st ++ [r] |}).

Definition pwhen (b : bool) (m : P unit) : P unit :=
  if b then m else pret tt.

(** [col in df] *)
Definition has_col (fr : frame) (col : pystr) : bool :=
  existsb (fun c => str_eqb (fst c) col) fr.

Fixpoint lookup_col (fr : frame) (col : pystr) : option (list cell) :=
  match fr with
  | [] => None
  | (c, vals) :: fr' => if str_eqb c col then Some vals else lookup_col fr' col
  end.

(** [df[col]]: a missing column is a [KeyError]. *)
Definition get_col (fr : frame) (col : pystr) : P (list cell) :=
  match lookup_col fr col with
  | Some vals => pret vals
  | None => praise KeyError
  end.

(** [df[col] = vals] *)
Fixpoint set_col (fr : frame) (col : pystr) (vals : list cell) : frame :=
  match fr with
  | [] => [(col, vals)]
  | (c, old) :: fr' =>
      if str_eqb c col then (c, vals) :: fr'
      else (c, old) :: set_col fr' col vals
  end.

Definition NA : cell := Str "N/A".

(** *** handle_missing_values *)

Definition columns_to_clean : list pystr :=
  [lit "exit_load"; lit "rating"; lit "average_maturity"; lit "yield_to_maturity"].

(** [.replace([np.nan, '', None], 'N/A')] on one cell. *)
Definition fill_missing (c : cell) : cell :=
  match c with
  | Num x => if isnan x then NA else c
  | Str s => if is_nil s then NA else c
  | NoneCell => NA
  end.

Fixpoint clean_columns (df : ref) (cols : list pystr) : P unit :=
  match cols with
  | [] => pret tt
  | col :: rest =>
      fr <~ read df ;;
      vals <~ get_col fr col ;;
      write df (set_col fr col (map fill_missing vals)) ~;;
      emit (InfoReplaced col) ~;;
      clean_columns df rest
  end.

Definition is_str (s : pystr) (c : cell) : bool :=
  match c with
  | Str t => str_eqb t s
  | _ => false
  end.

(** The cells of a column under a mask: [v] where the mask holds. *)
Fixpoint assign_where (mask : list bool) (v : cell) (vals : list cell) : list cell :=
  match mask, vals with
  | b :: mask', c :: vals' => (if b then v else c) :: assign_where mask' v vals'
  | _, _ => vals
  end.

(** [df.loc[mask, cols] = v] *)
Fixpoint loc_assign (df : ref) (mask : list bool) (cols : list pystr) (v : cell)
  : P unit :=
  match cols with
  | [] => pret tt
  | col :: rest =>
      fr <~ read df ;;
      vals <~ get_col fr col ;;
      write df (set_col fr col (assign_where mask v vals)) ~;;
      loc_assign df mask rest v
  end.

Definition handle_missing_values (df : ref) : P ref :=
  clean_columns df columns_to_clean ~;;
  fr <~ read df ;;
  types <~ get_col fr "type" ;;
  loc_assign df (map (is_str "Equity") types)
    [lit "average_maturity"; lit "yield_to_maturity"] NA ~;;
  pret df.

(** *** validate_data *)

(** [isinstance(x, (int, float))] *)
Definition is_number (c : cell) : bool :=
  match c with
  | Num _ => true
  | _ => false
  end.

Definition num_test (p : F -> bool) (c : cell) : bool :=
  match c with
  | Num x => p x
  | _ => false
  end.

Definition negative (c : cell) : bool := num_test (fun x => fltb x (of_Z 0)) c.

Definition unrealistic (c : cell) : bool :=
  num_test (fun x => fltb (of_Z 100) x || fltb x (of_Z (-100))) c.

(** The pairs of two columns on the rows where both are numbers. *)
Fixpoint valid_rows (a b : list cell) : list (F * F) :=
  match a, b with
  | Num x :: a', Num y :: b' => (x, y) :: valid_rows a' b'
  | _ :: a', _ :: b' => valid_rows a' b'
  | _, _ => []
  end.

Definition cell_eqb (a b : cell) : bool :=
  match a, b with
  | Num x, Num y => feqb x y || (isnan x && isnan y)
  | Str s, Str t => str_eqb s t
  | NoneCell, NoneCell => true
  | _, _ => false
  end.

(** The values [Series.duplicated()] marks: every one met before. *)
Fixpoint duplicated (before : list cell) (l : list cell) : list cell :=
  match l with
  | [] => []
  | c :: l' =>
      if existsb (cell_eqb c) before then c :: duplicated before l'
      else duplicated (c :: before) l'
  end.

Fixpoint check_negative (fr : frame) (cols : list pystr) : P unit :=
  match cols with
  | [] => pret tt
  | col :: rest =>
      match lookup_col fr col with
      | Some vals => pwhen (existsb negative vals) (emit (WarnNegative col))
      | None => pret tt
      end ~;;
      check_negative fr rest
  end.

(** [df[invalid][['name', col]]] *)
Fixpoint select_rows (mask : list bool) (names vals : list cell) : list (cell * cell) :=
  match mask, names, vals with
  | b :: mask', n :: names', v :: vals' =>
      if b then (n, v) :: select_rows mask' names' vals'
      else select_rows mask' names' vals'
  | _, _, _ => []
  end.

Fixpoint check_returns (fr : frame) (cols : list pystr) : P unit :=
  match cols with
  | [] => pret tt
  | col :: rest =>
      match lookup_col fr col with
      | Some vals =>
          let invalid := map unrealistic vals in
          if existsb (fun b => b) invalid then
            names <~ get_col fr "name" ;;
            emit (WarnUnrealisticReturns col (select_rows invalid names vals))
          else pret tt
      | None => pret tt
      end ~;;
      check_returns fr rest
  end.

Definition validate_data (df : ref) : P ref :=
  fr <~ read df ;;
  check_negative fr
    [lit "aum"; lit "nav"; lit "minimum_investment";
     lit "minimum_sip_investment"; lit "equity_aum"] ~;;
  equity_aum <~ get_col fr "equity_aum" ;;
  aum <~ get_col fr "aum" ;;
  pwhen (existsb (fun p => fltb (snd p) (fst p)) (valid_rows equity_aum aum))
    (emit WarnEquityAumExceeds) ~;;
  check_returns fr
    [lit "one_year_return"; lit "three_year_return"; lit "five_year_return"] ~;;
  debt_per <~ get_col fr "debt_per" ;;
  equity_per <~ get_col fr "equity_per" ;;
  let total_allocation :=
    map (fun p => fadd (fst p) (snd p)) (valid_rows debt_per equity_per) in
  pwhen (existsb (fun t => fltb t (of_Z 95)) total_allocation
         || existsb (fun t => fltb (of_Z 105) t) total_allocation)
    (emit WarnInconsistentAllocation) ~;;
  names <~ get_col fr "name" ;;
  pwhen (negb (is_nil (duplicated [] names)))
    (emit (WarnDuplicateNames (duplicated [] names))) ~;;
  pret df.

(** *** standardize_data_types

    The conversions of pandas are taken as they come: what
    [pd.to_numeric] reads in a text and how [astype(str)] writes a
    number.  The info lines of this function are not recorded. *)

Section Standardize.
(** [pd.to_numeric] on a text: [None] when it is not a number. *)
Variable to_numeric_text : pystr -> option F.
(** [str(x)] *)
Variable str_of_number : F -> pystr.

(** [pd.to_numeric(..., errors='coerce').fillna('N/A')] on one cell. *)
Definition coerce_numeric (c : cell) : cell :=
  let x :=
    match c with
    | Num x => x
    | Str s =>
        match to_numeric_text s with
        | Some x => x
        | None => nan
        end
    | NoneCell => nan
    end in
  if isnan x then NA else Num x.

(** [.astype(str)] on one cell. *)
Definition as_str (c : cell) : cell :=
  match c with
  | Str s => Str s
  | Num x => Str (str_of_number x)
  | NoneCell => Str "None"
  end.

(** [for col in cols: df[col] = f(df[col])] *)
Fixpoint map_columns (f : cell -> cell) (df : ref) (cols : list pystr) : P unit :=
  match cols with
  | [] => pret tt
  | col :: rest =>
      fr <~ read df ;;
      vals <~ get_col fr col ;;
      write df (set_col fr col (map f vals)) ~;;
      map_columns f df rest
  end.

Definition numeric_cols : list pystr :=
  [lit "aum"; lit "nav"; lit "minimum_investment";
   lit "minimum_sip_investment"; lit "pe"; lit "pb"; lit "debt_per";
   lit "equity_per"; lit "one_year_return"; lit "three_year_return";
   lit "five_year_return"; lit "equity_aum"].

Definition string_cols : list pystr :=
  [lit "name"; lit "risk"; lit "type"; lit "link"].

Definition standardize_data_types (df : ref) : P ref :=
  map_columns coerce_numeric df numeric_cols ~;;
  map_columns as_str df string_cols ~;;
  map_columns coerce_numeric df [lit "exit_load"] ~;;
  map_columns coerce_numeric df [lit "rating"] ~;;
  pret df.

End Standardize.

(** *** The tables of records

    [process_historical_nav], [process_top_holdings] and
    [process_sector_allocation] read a column that holds a list for each
    fund; the cells are those of a sheet read back from Excel: a text, a
    number or nothing.  What [json.loads] makes of a text is taken as it
    comes.  The log lines of the three functions are not recorded, and
    the checks that only write to the log are left out. *)

(** What [json.loads] returns; an [int] is held as the [float] it
    converts to, and a dictionary lists each key once. *)
#[warnings="-register-all"] Inductive value :=
| VNum (x : F)
| VStr (s : pystr)
| VBool (b : bool)
| VNull
| VList (l : list value)
| VDict (d : list (pystr * value)).

(** [entry[key]]; [None] stands for the [KeyError] or [TypeError] it
    raises. *)
Definition subscript (entry : value) (key : pystr) : option value :=
  match entry with
  | VDict d => option_map snd (find (fun kv => str_eqb (fst kv) key) d)
  | _ => None
  end.

(** [float(v)]; [None] stands for the [ValueError] or [TypeError]. *)
Definition to_float (v : value) : option F :=
  match v with
  | VNum x => Some x
  | VStr s => float_of_str s
  | VBool b => Some (of_Z (if b then 1 else 0))
  | _ => None
  end.

(** [for entry in data]: what the loop visits; [None] when [data] is not
    iterable. *)
Definition iterate (data : value) : option (list value) :=
  match data with
  | VList l => Some l
  | VDict d => Some (map (fun kv => VStr (fst kv)) d)
  | VStr s => Some (map (fun c => VStr [c]) s)
  | _ => None
  end.

(** One row of the new table. *)
Record row_record (A : Type) := {
  fund_name : cell;
  field : A;
  number : F
}.
Arguments fund_name {A}.
Arguments field {A}.
Arguments number {A}.

Section Records.
Variable json_loads : pystr -> option value.
(** The type of [pd.Timestamp] and [pd.to_datetime]. *)
Variable timestamp : Type.
Variable to_datetime : value -> option timestamp.
(** [sort_values(['fund_name', 'date']).reset_index(drop=True)] *)
Variable sort_values :
  list (row_record timestamp) -> result (list (row_record timestamp)).

(** The dictionary appended for one entry: [{'fund_name': fund_name,
    k1: conv(entry[k1]), k2: float(entry[k2])}]; [None] when a step
    raises. *)
Definition entry_record {A} (conv : value -> option A) (k1 k2 : pystr)
    (name : cell) (entry : value) : option (row_record A) :=
  match subscript entry k1 with
  | None => None
  | Some v1 =>
      match conv v1 with
      | None => None
      | Some a =>
          match subscript entry k2 with
          | None => None
          | Some v2 =>
              match to_float v2 with
              | None => None
              | Some x => Some {| fund_name := name; field := a; number := x |}
              end
          end
      end
  end.

(** The inner loop under [try]: the records appended before the first
    entry that raises stay in the list. *)
Fixpoint entry_records {A} (conv : value -> option A) (k1 k2 : pystr)
    (name : cell) (entries : list value) : list (row_record A) :=
  match entries with
  | [] => []
  | e :: rest =>
      match entry_record conv k1 k2 name e with
      | None => []
      | Some r => r :: entry_records conv k1 k2 name rest
      end
  end.

(** The entries of a cell: a text goes through [json.loads] with its
    single quotes turned into double quotes; a number or [None] is not
    iterable. *)
Definition cell_entries (c : cell) : option (list value) :=
  match c with
  | Str s =>
      match json_loads (replace "'" ["034"%char] s) with
      | Some data => iterate data
      | None => None
      end
  | _ => None
  end.

(** The body of the outer loop for one row; [None] for the cell when the
    table has no such column ([row[col]] is a [KeyError] under [try]). *)
Definition row_records {A} (conv : value -> option A) (k1 k2 : pystr)
    (name : cell) (c : option cell) : list (row_record A) :=
  match c with
  | Some c =>
      match cell_entries c with
      | Some entries => entry_records conv k1 k2 name entries
      | None => []
      end
  | None => []
  end.

(** [for _, row in df.iterrows()] *)
Fixpoint rows_records {A} (conv : value -> option A) (k1 k2 : pystr)
    (names : list cell) (cells : list (option cell)) : list (row_record A) :=
  match names, cells with
  | name :: names', c :: cells' =>
      row_records conv k1 k2 name c ++ rows_records conv k1 k2 names' cells'
  | _, _ => []
  end.

(** [row[col]] for every row. *)
Definition column_cells (fr : frame) (col : pystr) (names : list cell)
  : list (option cell) :=
  match lookup_col fr col with
  | Some vals => map Some vals
  | None => map (fun _ => None) names
  end.

(** [pd.DataFrame(records)[key]]: a table made of no record has no
    column. *)
Definition DataFrame {A} (records : list (row_record A)) : P (list (row_record A)) :=
  if is_nil records then praise KeyError else pret records.

(** A table without [name] raises [KeyError] at [row['name']] in its
    first row; without rows it gives no record, which is the same error
    at [DataFrame]. *)
Definition process_top_holdings (df : ref) : P (list (row_record value)) :=
  fr <~ read df ;;
  names <~ get_col fr "name" ;;
  DataFrame
    (rows_records Some "company" "percentage" names
       (column_cells fr "top_holdings" names)).

Definition process_sector_allocation (df : ref) : P (list (row_record value)) :=
  fr <~ read df ;;
  names <~ get_col fr "name" ;;
  DataFrame
    (rows_records Some "sector" "percentage" names
       (column_cells fr "sector_allocation" names)).

Definition process_historical_nav (df : ref) : P (list (row_record timestamp)) :=
  fr <~ read df ;;
  names <~ get_col fr "name" ;;
  nav_df <~ DataFrame
    (rows_records to_datetime "date" "nav" names
       (column_cells fr "historical_nav" names)) ;;
  match sort_values nav_df with
  | Ok sorted => pret sorted
  | Raise e => praise e
  end.

End Records.

(** *** Vocabulary of the statements *)

(** The number of rows of a column, when the frame has it. *)
Definition shape (fr : frame) (col : pystr) : option nat :=
  option_map (@List.length cell) (lookup_col fr col).

(** A cell after the numeric conversion: a number that is not [nan], or
    ['N/A']. *)
Definition number_or_na (c : cell) : Prop :=
  c = NA \/ exists x, c = Num x /\ isnan x = false.

Definition is_text (c : cell) : Prop := exists s, c = Str s.

(** No cell of the column gives the loop an entry to visit. *)
Definition no_entries (json_loads : pystr -> option value) (fr : frame)
    (col : pystr) : Prop :=
  forall vals c, lookup_col fr col = Some vals -> In c vals ->
    cell_entries json_loads c = None \/ cell_entries json_loads c = Some [].

(** What [handle_missing_values] looks for: [nan], the empty string or
    [None]. *)
Definition missing (c : cell) : bool :=
  match c with
  | Num x => isnan x
  | Str s => is_nil s
  | NoneCell => true
  end.

(** A computation that leaves every DataFrame as it is and only adds to
    the log. *)
Definition quiet {A} (m : P A) : Prop :=
  forall st,
    frames (snd (m st)) = frames st /\
    exists added, log (snd (m st)) = log st ++ added.

End Frames.
End Preprocess.

Import WebScraping Preprocess.

(** ** Concrete sites and tables *)

Module Samples.

Definition b64 : Type := PrimFloat.float.

Section Worlds.
Context {F : Type} {PF : PyFloat F}.

Definition empty_doc : soup :=
  {| fund_cards := []; all_elements := []; min_elements := [];
     rating_elements := []; exit_load_elements := [];
     holdings101Table := None |}.

(** Nothing answers. *)
Definition offline : world (F:=F) :=
  {| page_at := fun _ _ => Raise RequestException;
     nav_json_at := fun _ _ => Raise RequestException;
     stats_json_at := fun _ _ => Raise RequestException;
     csv_at := fun _ _ => Raise RequestException;
     utcfromtimestamp := fun _ => Raise ValueError;
     to_datetime := fun _ => None |}.

(** Every page request is answered with [doc]. *)
Definition serving_page (doc : soup) : world (F:=F) :=
  {| page_at := fun _ _ => Ok doc;
     nav_json_at := fun _ _ => Raise RequestException;
     stats_json_at := fun _ _ => Raise RequestException;
     csv_at := fun _ _ => Raise RequestException;
     utcfromtimestamp := fun _ => Raise ValueError;
     to_datetime := fun _ => None |}.

(** Every portfolio-stats request is answered with [data]. *)
Definition serving_stats (data : stats_json) : world (F:=F) :=
  {| page_at := fun _ _ => Raise RequestException;
     nav_json_at := fun _ _ => Raise RequestException;
     stats_json_at := fun _ _ => Ok data;
     csv_at := fun _ _ => Raise RequestException;
     utcfromtimestamp := fun _ => Raise ValueError;
     to_datetime := fun _ => None |}.

(** The first request is answered with the page [doc], the later ones
    with a page without cards. *)
Definition listing_once (doc : soup) : world (F:=F) :=
  {| page_at := fun n _ => match n with O => Ok doc | S _ => Ok empty_doc end;
     nav_json_at := fun _ _ => Raise RequestException;
     stats_json_at := fun _ _ => Raise RequestException;
     csv_at := fun _ _ => Raise RequestException;
     utcfromtimestamp := fun _ => Raise ValueError;
     to_datetime := fun _ => None |}.

Definition read_date (s : pystr) : option pystr :=
  if str_eqb s "06-Jan-2025" then Some (lit "2025-01-06") else None.

Definition feed : list feed_row :=
  [ {| feed_code := Some 12345%Z; feed_nav := "101.5"; feed_date := "06-Jan-2025" |};
    {| feed_code := Some 999%Z; feed_nav := "12.25"; feed_date := "06-Jan-2025" |} ].

(** The graph endpoint answers [primary]; the bulk feed has a row of
    scheme 12345. *)
Definition serving_nav (primary : result nav_json) : world (F:=F) :=
  {| page_at := fun _ _ => Raise RequestException;
     nav_json_at := fun _ _ => primary;
     stats_json_at := fun _ _ => Raise RequestException;
     csv_at := fun _ _ => Ok feed;
     utcfromtimestamp := fun _ => Raise ValueError;
     to_datetime := read_date |}.

(** A detail page that shows the minimum SIP amount only. *)
Definition sip_only_doc : soup :=
  {| fund_cards := []; all_elements := [];
     min_elements := [ {| previous := Some (lit "Min. for SIP");
                          elem_text := "₹500" |} ];
     rating_elements := []; exit_load_elements := [];
     holdings101Table := None |}.

(** A detail page whose one holding has no percentage. *)
Definition unrated_holding_row : list td :=
  [ {| td_text := "Reliance Industries Ltd."; td_link := Some (lit " Reliance Industries Ltd. ") |};
    {| td_text := "Energy"; td_link := None |};
    {| td_text := "Equity"; td_link := None |};
    {| td_text := "N/A"; td_link := None |} ].

Definition holdings_doc : soup :=
  {| fund_cards := []; all_elements := []; min_elements := [];
     rating_elements := []; exit_load_elements := [];
     holdings101Table :=
       Some {| tbody := Some [unrated_holding_row]; all_tr := [] |} |}.

Definition stats_with (debt_per equity_per : Z) (sectors : list (pystr * F))
  : stats_json :=
  {| j_pe := nan; j_pb := nan;
     j_debt_per := of_Z debt_per; j_equity_per := of_Z equity_per;
     j_average_maturity := nan; j_yield_to_maturity := nan;
     j_asset_equity := of_Z 0; j_asset_debt := of_Z 0; j_asset_cash := of_Z 0;
     j_aum := nan;
     j_equity_sector_per := sectors |}.

Definition five_sectors : list (pystr * F) :=
  [ (lit "Financial", of_Z 60); (lit "Technology", of_Z 40);
    (lit "Energy", of_Z 0); (lit "Healthcare", of_Z 0);
    (lit "Automobile", of_Z 0) ].

(** A raw table of two funds. *)
Definition raw_table : frame (F:=F) :=
  [ (lit "name", [Str "Fund A"; Str "Fund B"]);
    (lit "type", [Str "Equity"; Str "Debt"]);
    (lit "aum", [Num (of_Z (-5)); Num (of_Z 900)]);
    (lit "equity_aum", [Num (of_Z 1); Num (of_Z 10)]);
    (lit "debt_per", [Num (of_Z 5); Num (of_Z 90)]);
    (lit "equity_per", [Num (of_Z 95); Num (of_Z 10)]);
    (lit "exit_load", [Num (of_Z 1); Num nan]);
    (lit "rating", [Num (of_Z 4); Str ""]);
    (lit "average_maturity", [Num (of_Z 3); Num (of_Z 2)]);
    (lit "yield_to_maturity", [Num (of_Z 7); NoneCell]) ].

Definition raw_store : store (F:=F) := {| frames := [raw_table]; log := [] |}.

End Worlds.

(** A listing card of a fund named [name] that links to [href]. *)
Definition listing_card (name href : pystr) : card :=
  {| card_text := name;
     card_parent := Some {| risk_type_elements := [lit "Very High"; lit "Equity"];
                            return_elements := [lit "12.5%"];
                            href := Some href |} |}.

Definition listed (name link : pystr) : fund :=
  {| name := name; risk := "Very High"; type_ := "Equity";
     returns := [lit "12.5%"; lit "NA"; lit "NA"]; link := link |}.

Definition plain_link : pystr := "https://groww.in/mutual-funds/abc".
Definition tagged_link : pystr :=
  "https://groww.in/mutual-funds/abc?ref=mutual-funds/xyz".
Definition suffixed_link : pystr :=
  "https://groww.in/mutual-funds/abc-direct-growth".
Definition queried_link : pystr := "https://groww.in/mutual-funds/abc?utm=1".

Definition listing_doc (cards : list card) : soup :=
  {| fund_cards := cards; all_elements := []; min_elements := [];
     rating_elements := []; exit_load_elements := [];
     holdings101Table := None |}.

Definition code_12345 : scheme_code := Some (lit "12345").

Definition fund_page : pystr := "https://groww.in/mutual-funds/some-fund".

(** A listing page of two funds. *)
Definition two_cards_doc : soup :=
  listing_doc [ listing_card "Fund A" "/mutual-funds/abc";
                listing_card "Fund B" "/mutual-funds/xyz" ].

(** A script that carries the scheme code 120503. *)
Definition code_script : pystr :=
  lit "{" ++ scheme_code_key ++ lit "120503" ++ ["034"%char; "}"%char].

Definition scripts_with_code (_ : soup) : list pystr :=
  [lit "var a = 1;"; code_script].

Definition no_scripts (_ : soup) : list pystr := [].

(** A holdings table of seven rows. *)
Definition holding_row (company percentage : pystr) : list td :=
  [ {| td_text := company; td_link := Some company |};
    {| td_text := "Energy"; td_link := None |};
    {| td_text := "Equity"; td_link := None |};
    {| td_text := percentage; td_link := None |} ].

Definition seven_holdings_doc : soup :=
  {| fund_cards := []; all_elements := []; min_elements := [];
     rating_elements := []; exit_load_elements := [];
     holdings101Table :=
       Some {| tbody := Some [ holding_row "A" "9.5%"; holding_row "B" "8%";
                               holding_row "C" "7%"; holding_row "D" "6%";
                               holding_row "E" "5%"; holding_row "F" "4%";
                               holding_row "G" "3%" ];
               all_tr := [] |} |}.

(** The paragraphs of a page about its exit load. *)
Definition exit_load_paragraphs : list pystr :=
  [ lit "Expense ratio: 0.5%";
    lit "Exit load of 1% if redeemed within 10% of the period";
    lit "Exit load: 2%" ].

Section MoreWorlds.
Context {F : Type} {PF : PyFloat F}.

(** The portfolio-stats endpoint fails until the clock reaches [k] and
    answers [data] from then on. *)
Definition stats_after (k : nat) (data : stats_json) : world (F:=F) :=
  {| page_at := fun _ _ => Raise RequestException;
     nav_json_at := fun _ _ => Raise RequestException;
     stats_json_at := fun n _ =>
       if (n <? k)%nat then Raise RequestException else Ok data;
     csv_at := fun _ _ => Raise RequestException;
     utcfromtimestamp := fun _ => Raise ValueError;
     to_datetime := fun _ => None |}.

(** The portfolio-stats endpoint answers with something the code does not
    expect. *)
Definition stats_broken : world (F:=F) :=
  {| page_at := fun _ _ => Raise RequestException;
     nav_json_at := fun _ _ => Raise RequestException;
     stats_json_at := fun _ _ => Raise AttributeError;
     csv_at := fun _ _ => Raise RequestException;
     utcfromtimestamp := fun _ => Raise ValueError;
     to_datetime := fun _ => None |}.

(** The bulk feed cannot be parsed. *)
Definition empty_feed : world (F:=F) :=
  {| page_at := fun _ _ => Raise RequestException;
     nav_json_at := fun _ _ => Raise RequestException;
     stats_json_at := fun _ _ => Raise RequestException;
     csv_at := fun _ _ => Raise EmptyDataError;
     utcfromtimestamp := fun _ => Raise ValueError;
     to_datetime := fun _ => None |}.

Definition three_sectors : list (pystr * F) :=
  [ (lit "Financial", of_Z 60); (lit "Technology", of_Z 30);
    (lit "Energy", of_Z 10) ].

(** A table without most of its columns. *)
Definition names_only : frame (F:=F) :=
  [ (lit "name", [Str "Fund A"; Str "Fund B"]) ].

(** A table with the columns of the scraper's sheet. *)
Definition full_table : frame (F:=F) :=
  [ (lit "name", [Str "Fund A"; Num (of_Z 7)]);
    (lit "aum", [Num (of_Z 1200); Str "900"]);
    (lit "nav", [Num (of_Z 45); Num nan]);
    (lit "exit_load", [Num (of_Z 1); Str "nil"]);
    (lit "rating", [Num (of_Z 4); NoneCell]);
    (lit "minimum_investment", [Num (of_Z 500); Num (of_Z 100)]);
    (lit "minimum_sip_investment", [Num (of_Z 500); Num (of_Z 100)]);
    (lit "pe", [Num (of_Z 20); Num nan]);
    (lit "pb", [Num (of_Z 3); Num nan]);
    (lit "debt_per", [Num (of_Z 5); Num (of_Z 90)]);
    (lit "equity_per", [Num (of_Z 95); Num (of_Z 10)]);
    (lit "average_maturity", [Num nan; Num (of_Z 2)]);
    (lit "yield_to_maturity", [Num nan; Num (of_Z 7)]);
    (lit "risk", [Str "Very High"; Str "Low"]);
    (lit "type", [Str "Equity"; Str "Debt"]);
    (lit "one_year_return", [Num (of_Z 12); Str "N/A"]);
    (lit "three_year_return", [Num (of_Z 10); Num nan]);
    (lit "five_year_return", [Num nan; Num nan]);
    (lit "link", [Str "https://groww.in/mutual-funds/abc"; NoneCell]);
    (lit "top_holdings", [Str "[]"; Str "[]"]);
    (lit "equity_aum", [Num (of_Z 1100); Num (of_Z 90)]) ].

Definition full_store : store (F:=F) := {| frames := [full_table]; log := [] |}.

(** A stand-in for [str] on a number. *)
Definition number_text (x : F) : pystr :=
  if isnan x then lit "nan" else lit "7".

(** The text of a holdings list whose second entry has no percentage. *)
Definition holdings_text : pystr :=
  "[{'company': 'A', 'percentage': 9}, {'company': 'B'}, {'company': 'C', 'percentage': 1}]".

(** What [json.loads] reads in the texts of the samples. *)
Definition sample_loads (s : pystr) : option (value (F:=F)) :=
  if str_eqb s (replace "'" ["034"%char] holdings_text) then
    Some (VList [ VDict [(lit "company", VStr "A"); (lit "percentage", VNum (of_Z 9))];
                  VDict [(lit "company", VStr "B")];
                  VDict [(lit "company", VStr "C"); (lit "percentage", VNum (of_Z 1))] ])
  else if str_eqb s "[]" then Some (VList [])
  else None.

(** A table whose lists are empty or missing. *)
Definition bare_table : frame (F:=F) :=
  [ (lit "name", [Str "Fund A"; Str "Fund B"]);
    (lit "historical_nav", [Str "[]"; NoneCell]);
    (lit "top_holdings", [Str "[]"; Num nan]);
    (lit "sector_allocation", [Str "[]"; Str "not a list"]) ].

(** A table of three funds; the second has the list of [holdings_text]. *)
Definition holdings_table_sample : frame (F:=F) :=
  [ (lit "name", [Str "Fund A"; Str "Fund B"; Str "Fund C"]);
    (lit "top_holdings", [Str "[]"; Str holdings_text; Num nan]) ].

End MoreWorlds.

End Samples.
Import Samples.

(** * Properties *)

Unset Implicit Arguments.

(** ** Running a computation *)

Section Runs.
Context {F : Type} {PF : PyFloat F}.
Implicit Types (w : world (F:=F)) (st : state).

Lemma fetch_page_ok w st url doc :
  page_at w (clock st) url = Ok doc ->
  fetch_page url w st =
    (Ok (Some doc), {| clock := S (clock st); trace := trace st ++ [Get url] |}).
Proof.
  intros H. unfold fetch_page, attempt, request. now rewrite H.
Qed.

Lemma fetch_page_failed w st url :
  page_at w (clock st) url = Raise RequestException ->
  fetch_page url w st =
    (Ok None, {| clock := S (clock st); trace := trace st ++ [Get url] |}).
Proof.
  intros H. unfold fetch_page, attempt, request. now rewrite H.
Qed.

Lemma overview_of_failed_fetch w st page_no :
  page_at w (clock st) (BASE_URL page_no) = Raise RequestException ->
  extract_fund_overview page_no w st =
    (Ok [], {| clock := S (clock st);
               trace := trace st ++ [Get (BASE_URL page_no)] |}).
Proof.
  intros H. unfold extract_fund_overview, bind.
  now rewrite (fetch_page_failed _ _ _ H).
Qed.

Lemma overview_of_empty_page w st page_no doc :
  page_at w (clock st) (BASE_URL page_no) = Ok doc ->
  fund_cards doc = [] ->
  extract_fund_overview page_no w st =
    (Ok [], {| clock := S (clock st);
               trace := trace st ++ [Get (BASE_URL page_no)] |}).
Proof.
  intros H E. unfold extract_fund_overview, bind.
  rewrite (fetch_page_ok _ _ _ _ H), E. reflexivity.
Qed.

Lemma discover_stops_on_no_funds w st fuel page_no seen all_funds st' :
  extract_fund_overview page_no w st = (Ok [], st') ->
  discover (S fuel) page_no seen all_funds w st =
    (Ok (Some all_funds),
     if (List.length all_funds <? MAX_FUNDS)%nat then st' else st).
Proof.
  intros H. cbn [discover]. destruct (List.length all_funds <? MAX_FUNDS)%nat.
  - unfold bind. rewrite H. reflexivity.
  - reflexivity.
Qed.

(** C9: a listing page whose fetch fails gives no funds, and the
    discovery loop then ends with the funds it has, just as it does when
    the page is fetched and holds no fund card: the two runs return the
    same list and leave the same trace. *)
Theorem failed_page_ends_discovery w1 w2 st fuel page_no seen all_funds doc :
  page_at w1 (clock st) (BASE_URL page_no) = Raise RequestException ->
  page_at w2 (clock st) (BASE_URL page_no) = Ok doc ->
  fund_cards doc = [] ->
  fst (extract_fund_overview page_no w1 st) = Ok [] /\
  fst (discover (S fuel) page_no seen all_funds w1 st) = Ok (Some all_funds) /\
  discover (S fuel) page_no seen all_funds w1 st
    = discover (S fuel) page_no seen all_funds w2 st.
Proof.
  intros H1 H2 E.
  pose proof (overview_of_failed_fetch _ _ _ H1) as O1.
  pose proof (overview_of_empty_page _ _ _ _ H2 E) as O2.
  split; [now rewrite O1|].
  rewrite (discover_stops_on_no_funds _ _ fuel _ seen all_funds _ O1).
  rewrite (discover_stops_on_no_funds _ _ fuel _ seen all_funds _ O2).
  split; reflexivity.
Qed.

(** C10: a row of the holdings table with at least four cells whose
    percentage text is not a number still gives a holding, with
    percentage 0.0. *)
Theorem unparsed_percentage_gives_zero_holding
    w st code fund_link doc table c0 c1 c2 c3 more :
  no_code code = false ->
  is_nil fund_link = false ->
  page_at w (clock st) fund_link = Ok doc ->
  holdings101Table doc = Some table ->
  In (c0 :: c1 :: c2 :: c3 :: more) (table_rows table) ->
  float_of_str (replace "%" "" (strip (td_text c3))) = None ->
  let zero_holding :=
    {| company := strip (match td_link c0 with
                         | Some t => t
                         | None => td_text c0
                         end);
       holding_percentage := of_Z 0 |} in
  row_holding (c0 :: c1 :: c2 :: c3 :: more) = [zero_holding] /\
  exists top_holdings,
    fst (extract_top_holdings code fund_link w st) = Ok top_holdings /\
    top_holdings = flat_map row_holding (table_rows table) /\
    In zero_holding top_holdings.
Proof.
  intros Hc Hl Hp Ht Hin Hf zero_holding.
  assert (Hrow : row_holding (c0 :: c1 :: c2 :: c3 :: more) = [zero_holding]).
  { unfold row_holding. rewrite Hf. reflexivity. }
  split; [exact Hrow|].
  exists (flat_map row_holding (table_rows table)).
  split; [|split; [reflexivity|]].
  - unfold extract_top_holdings. rewrite Hc, Hl. simpl. unfold bind.
    rewrite (fetch_page_ok _ _ _ _ Hp), Ht. reflexivity.
  - apply in_flat_map. exists (c0 :: c1 :: c2 :: c3 :: more).
    split; [exact Hin|]. rewrite Hrow. now left.
Qed.

Lemma failed_attempts_run w code fund_type retry_delay :
  forall n st,
    (forall i, (i < S n)%nat ->
       exists e, In e [ValueError; KeyError; RequestException] /\
                 stats_json_at w (clock st + i) (stats_url code) = Raise e) ->
    stats_attempts code fund_type retry_delay (S n) w st =
      (Ok (Some unavailable_stats),
       {| clock := clock st + S n;
          trace := trace st
                   ++ List.concat (repeat [Get (stats_url code); Sleep retry_delay] n)
                   ++ [Get (stats_url code)] |}).
Proof.
  induction n as [|n IH]; intros st H.
  - destruct (H 0%nat) as (e & He & Hr); [lia|].
    rewrite Nat.add_0_r in Hr.
    simpl. unfold bind, attempt, request. rewrite Hr.
    assert (C : existsb (exn_eqb e) [ValueError; KeyError; RequestException] = true).
    { destruct He as [<-|[<-|[<-|[]]]]; reflexivity. }
    rewrite C. unfold ret. repeat f_equal. lia.
  - destruct (H 0%nat) as (e & He & Hr); [lia|].
    rewrite Nat.add_0_r in Hr.
    change (stats_attempts code fund_type retry_delay (S (S n)) w st)
      with (bind (attempt [ValueError; KeyError; RequestException]
                    (bind (request (Get (stats_url code))
                             (fun w n => stats_json_at w n (stats_url code)))
                       (fun data =>
                          bind (sleep 1) (fun _ =>
                          ret (stats_of_response fund_type data)))))
              (fun r =>
                 match r with
                 | Some stats => ret (Some stats)
                 | None =>
                     bind (sleep retry_delay) (fun _ =>
                     stats_attempts code fund_type retry_delay (S n))
                 end) w st).
    unfold bind at 1. unfold attempt, bind at 1. unfold request. rewrite Hr.
    assert (C : existsb (exn_eqb e) [ValueError; KeyError; RequestException] = true).
    { destruct He as [<-|[<-|[<-|[]]]]; reflexivity. }
    rewrite C. unfold bind, sleep.
    rewrite IH.
    + cbn [clock trace]. f_equal. f_equal; [lia|].
      rewrite <- !app_assoc. reflexivity.
    + intros i Hi. cbn [clock].
      destruct (H (S i)) as (e' & He' & Hr'); [lia|].
      exists e'. split; [exact He'|].
      now replace (S (clock st) + i)%nat with (clock st + S i)%nat by lia.
Qed.

(** C4: when every attempt fails with a request or parse error, the
    function returns the record whose numeric fields are all
    not-a-number, whose asset allocation holds not-a-number only and
    whose sector list is empty; it does not raise.  With a scheme code it
    has then sent one request per attempt and slept [retry_delay]
    between two of them. *)
Theorem exhausted_retries_give_unavailable_stats
    w st code fund_type retries retry_delay :
  (0 < retries)%nat ->
  (forall i, (i < retries)%nat ->
     exists e, In e [ValueError; KeyError; RequestException] /\
               stats_json_at w (clock st + i) (stats_url code) = Raise e) ->
  exists stats,
    fst (extract_portfolio_stats code fund_type retries retry_delay w st)
      = Ok (Some stats) /\
    pe stats = nan /\ pb stats = nan /\
    debt_per stats = nan /\ equity_per stats = nan /\
    average_maturity stats = nan /\ yield_to_maturity stats = nan /\
    equity_aum stats = nan /\
    asset_alloc stats
      = {| equity := nan; debt := nan; cash := nan; total_aum := nan |} /\
    sector_allocation stats = [] /\
    (no_code code = false ->
     trace (snd (extract_portfolio_stats code fund_type retries retry_delay w st))
       = trace st
         ++ List.concat (repeat [Get (stats_url code); Sleep retry_delay]
                           (retries - 1))
         ++ [Get (stats_url code)]).
Proof.
  intros Hpos Hfail. exists unavailable_stats.
  destruct retries as [|n]; [lia|].
  unfold extract_portfolio_stats.
  split; [|repeat split].
  - destruct (no_code code); [reflexivity|].
    now rewrite failed_attempts_run.
  - intros ->. rewrite failed_attempts_run by exact Hfail.
    cbn [snd trace]. now rewrite Nat.sub_succ, Nat.sub_0_r.
Qed.

(** C1, as the code has it: when the primary call succeeds with an empty
    NAV list the function returns the empty list after that one request,
    without reading the bulk feed and without raising; the fallback runs,
    with the same scheme code and the default window, when the primary
    call raises a request, value or key error, and its outcome is the
    function's. *)
Theorem empty_nav_payload_returns_empty w st code months :
  no_code code = false ->
  (nav_json_at w (clock st) (nav_url code months) = Ok {| folio_data := [] |} ->
   extract_historical_nav code months w st =
     (Ok [], {| clock := S (clock st);
                trace := trace st ++ [Get (nav_url code months)] |})) /\
  (forall e, In e [RequestException; ValueError; KeyError] ->
   nav_json_at w (clock st) (nav_url code months) = Raise e ->
   extract_historical_nav code months w st =
     fetch_amfi_nav code default_start_date default_end_date w
       {| clock := S (clock st);
          trace := trace st ++ [Get (nav_url code months)] |}).
Proof.
  intros Hc. unfold extract_historical_nav. rewrite Hc. split.
  - intros H. unfold bind, attempt, request. rewrite H. reflexivity.
  - intros e He H. unfold bind at 1. unfold attempt, bind, request. rewrite H.
    assert (C : existsb (exn_eqb e) [RequestException; ValueError; KeyError] = true).
    { destruct He as [<-|[<-|[<-|[]]]]; reflexivity. }
    rewrite C. reflexivity.
Qed.

End Runs.

(** ** DataFrames *)

Section FrameFacts.
Context {F : Type} {PF : PyFloat F}.
Implicit Types (fr : frame (F:=F)) (st : store (F:=F)).

Lemma str_eqb_refl (a : pystr) : str_eqb a a = true.
Proof. unfold str_eqb. destruct (str_eq_dec a a); congruence. Qed.

Lemma str_eqb_eq (a b : pystr) : str_eqb a b = true <-> a = b.
Proof. unfold str_eqb. destruct (str_eq_dec a b); split; congruence. Qed.

Lemma str_eqb_neq (a b : pystr) : str_eqb a b = false <-> a <> b.
Proof. unfold str_eqb. destruct (str_eq_dec a b); split; congruence. Qed.

Lemma lookup_set_same fr col vals :
  lookup_col (set_col fr col vals) col = Some vals.
Proof.
  induction fr as [|[c old] fr IH]; simpl.
  - now rewrite str_eqb_refl.
  - destruct (str_eqb c col) eqn:E; simpl; rewrite E; [reflexivity|exact IH].
Qed.

Lemma lookup_set_other fr col vals c :
  c <> col ->
  lookup_col (set_col fr col vals) c = lookup_col fr c.
Proof.
  intros N. induction fr as [|[c0 old] fr IH]; simpl.
  - apply not_eq_sym, str_eqb_neq in N. now rewrite N.
  - destruct (str_eqb c0 col) eqn:E; simpl.
    + apply str_eqb_eq in E. subst c0.
      apply not_eq_sym, str_eqb_neq in N. now rewrite N.
    + destruct (str_eqb c0 c); [reflexivity|exact IH].
Qed.

Lemma set_col_shape fr col vals vals' :
  lookup_col fr col = Some vals ->
  List.length vals' = List.length vals ->
  forall c, shape (set_col fr col vals') c = shape fr c.
Proof.
  intros L E c. unfold shape. destruct (str_eq_dec c col) as [->|N].
  - rewrite lookup_set_same, L. simpl. now rewrite E.
  - now rewrite lookup_set_other.
Qed.

Lemma nth_error_update_same {A} (l : list A) i a x :
  nth_error l i = Some x -> nth_error (update l i a) i = Some a.
Proof.
  revert i. induction l as [|y l IH]; intros [|i]; simpl; try discriminate.
  - reflexivity.
  - apply IH.
Qed.

Lemma assign_where_length mask v (vals : list (cell (F:=F))) :
  List.length (assign_where mask v vals) = List.length vals.
Proof.
  revert vals. induction mask as [|b mask IH]; intros [|c vals]; simpl; auto.
Qed.

Lemma assign_where_hit mask v (vals : list (cell (F:=F))) i c :
  nth_error mask i = Some true ->
  nth_error vals i = Some c ->
  nth_error (assign_where mask v vals) i = Some v.
Proof.
  revert mask vals. induction i as [|i IH]; intros [|b mask] [|x vals];
    simpl; try discriminate.
  - now intros [= ->] _.
  - apply IH.
Qed.

Lemma clean_step st df fr col vals rest :
  nth_error (frames st) df = Some fr ->
  lookup_col fr col = Some vals ->
  clean_columns df (col :: rest) st =
    clean_columns df rest
      {| frames := update (frames st) df (set_col fr col (map fill_missing vals));
         log := log st ++ [InfoReplaced col] |}.
Proof.
  intros H L. simpl. unfold pbind, read, get_col. rewrite H, L. reflexivity.
Qed.

Lemma loc_step st df fr mask v col vals rest :
  nth_error (frames st) df = Some fr ->
  lookup_col fr col = Some vals ->
  loc_assign df mask (col :: rest) v st =
    loc_assign df mask rest v
      {| frames := update (frames st) df (set_col fr col (assign_where mask v vals));
         log := log st |}.
Proof.
  intros H L. simpl. unfold pbind, read, get_col. rewrite H, L. reflexivity.
Qed.

Lemma clean_columns_spec df : forall cols st fr,
  nth_error (frames st) df = Some fr ->
  (forall c, In c cols -> lookup_col fr c <> None) ->
  exists st' fr',
    clean_columns df cols st = (Ok tt, st') /\
    nth_error (frames st') df = Some fr' /\
    (forall c, shape fr' c = shape fr c) /\
    (forall c, ~ In c cols -> lookup_col fr' c = lookup_col fr c).
Proof.
  induction cols as [|col cols IH]; intros st fr H Hc.
  - exists st, fr. simpl. auto.
  - destruct (lookup_col fr col) as [vals|] eqn:L;
      [|exfalso; apply (Hc col); [now left|exact L]].
    rewrite (clean_step _ _ _ _ _ _ H L).
    set (fr1 := set_col fr col (map fill_missing vals)).
    assert (S1 : forall c, shape fr1 c = shape fr c).
    { apply set_col_shape with (vals := vals); [exact L|apply length_map]. }
    destruct (IH {| frames := update (frames st) df fr1;
                    log := log st ++ [InfoReplaced col] |} fr1)
      as (st' & fr' & R & N & Sh & O).
    + simpl. eapply nth_error_update_same, H.
    + intros c Hin E. apply (Hc c); [now right|].
      specialize (S1 c). unfold shape in S1. rewrite E in S1.
      destruct (lookup_col fr c); [discriminate|reflexivity].
    + exists st', fr'. repeat split; auto.
      * intros c. now rewrite Sh.
      * intros c Hn. rewrite O by (intros X; apply Hn; now right).
        apply lookup_set_other. intros ->. apply Hn. now left.
Qed.

Lemma shape_lookup fr c n :
  shape fr c = Some n ->
  exists vals, lookup_col fr c = Some vals /\ List.length vals = n.
Proof.
  unfold shape. destruct (lookup_col fr c) as [vals|]; simpl; [|discriminate].
  intros [= <-]. now exists vals.
Qed.

Lemma nth_error_same_length {A B} (l : list A) (l' : list B) i a :
  List.length l' = List.length l ->
  nth_error l i = Some a ->
  exists b, nth_error l' i = Some b.
Proof.
  intros E H. destruct (nth_error l' i) as [b|] eqn:N; [now exists b|].
  apply nth_error_None in N.
  assert (i < List.length l)%nat by (apply nth_error_Some; congruence). lia.
Qed.

(** C5: in every row whose type is 'Equity', the table that
    [handle_missing_values] leaves has 'N/A' in [average_maturity] and in
    [yield_to_maturity], whatever the two cells held. *)
Theorem equity_rows_lose_maturity_and_yield st df fr n :
  nth_error (frames st) df = Some fr ->
  (forall c, In c (lit "type" :: columns_to_clean) -> shape fr c = Some n) ->
  exists st' fr' types am ytm,
    handle_missing_values df st = (Ok df, st') /\
    nth_error (frames st') df = Some fr' /\
    lookup_col fr "type" = Some types /\
    lookup_col fr' "type" = Some types /\
    lookup_col fr' "average_maturity" = Some am /\
    lookup_col fr' "yield_to_maturity" = Some ytm /\
    forall i, nth_error types i = Some (Str "Equity") ->
      nth_error am i = Some NA /\ nth_error ytm i = Some NA.
Proof.
  intros H Hcols.
  destruct (clean_columns_spec df columns_to_clean st fr H)
    as (st1 & fr1 & R & N1 & Sh & O).
  { intros c Hin E. specialize (Hcols c (or_intror Hin)).
    unfold shape in Hcols. now rewrite E in Hcols. }
  assert (Hs : forall c, In c (lit "type" :: columns_to_clean) ->
                         exists vals, lookup_col fr1 c = Some vals /\
                                      List.length vals = n).
  { intros c Hin. apply shape_lookup. rewrite Sh. now apply Hcols. }
  destruct (Hs "type") as (types & Lt & Et); [now left|].
  destruct (Hs "average_maturity") as (am1 & La & Ea);
    [right; right; right; now left|].
  destruct (Hs "yield_to_maturity") as (ytm1 & Ly & Ey);
    [right; right; right; right; now left|].
  assert (Lt0 : lookup_col fr "type" = Some types).
  { rewrite <- Lt. symmetry. apply O.
    intros X. vm_compute in X. repeat (destruct X as [X|X]; [discriminate|]).
    exact X. }
  set (mask := map (is_str "Equity") types).
  set (fr2 := set_col fr1 "average_maturity" (assign_where mask NA am1)).
  set (fr3 := set_col fr2 "yield_to_maturity" (assign_where mask NA ytm1)).
  assert (Ly2 : lookup_col fr2 "yield_to_maturity" = Some ytm1).
  { unfold fr2. rewrite lookup_set_other; [exact Ly|]. intros X. discriminate X. }
  exists {| frames := update (update (frames st1) df fr2) df fr3; log := log st1 |},
         fr3, types, (assign_where mask NA am1), (assign_where mask NA ytm1).
  split.
  { unfold handle_missing_values. unfold pbind at 1. rewrite R.
    unfold pbind at 1. unfold read at 1. rewrite N1.
    unfold pbind at 1. unfold get_col at 1. rewrite Lt. unfold pret at 1.
    fold mask. unfold pbind.
    rewrite (loc_step _ _ _ _ _ _ _ _ N1 La). fold fr2.
    erewrite loc_step; [reflexivity| |exact Ly2].
    simpl. eapply nth_error_update_same, N1. }
  split.
  { simpl. eapply nth_error_update_same, nth_error_update_same, N1. }
  split; [exact Lt0|].
  split.
  { unfold fr3, fr2. rewrite !lookup_set_other; [exact Lt| |];
      intros X; discriminate X. }
  split.
  { unfold fr3. rewrite lookup_set_other; [|intros X; discriminate X].
    apply lookup_set_same. }
  split; [apply lookup_set_same|].
  intros i Hi.
  assert (Hm : nth_error mask i = Some true).
  { unfold mask. rewrite (map_nth_error _ _ _ Hi). simpl.
    now rewrite str_eqb_refl. }
  destruct (nth_error_same_length types am1 i _ (eq_trans Ea (eq_sym Et)) Hi)
    as (a & Ha).
  destruct (nth_error_same_length types ytm1 i _ (eq_trans Ey (eq_sym Et)) Hi)
    as (y & Hy).
  split; eapply assign_where_hit; eauto.
Qed.

(** *** validate_data only reads *)

Lemma quiet_pret {A} (a : A) : quiet (F:=F) (pret a).
Proof. intros st. split; [reflexivity|]. exists []. now rewrite app_nil_r. Qed.

Lemma quiet_praise {A} e : quiet (F:=F) (praise (A:=A) e).
Proof. intros st. split; [reflexivity|]. exists []. now rewrite app_nil_r. Qed.

Lemma quiet_pbind {A B} (m : @P F A) (k : A -> @P F B) :
  quiet m -> (forall a, quiet (k a)) -> quiet (pbind m k).
Proof.
  intros Hm Hk st. unfold pbind.
  destruct (Hm st) as (Fm & lm & Lm).
  destruct (m st) as [[a|e] st1]; simpl in *.
  - destruct (Hk a st1) as (Fk & lk & Lk).
    split; [congruence|]. exists (lm ++ lk). now rewrite Lk, Lm, app_assoc.
  - split; [exact Fm|]. now exists lm.
Qed.

Lemma quiet_read df : quiet (F:=F) (read df).
Proof.
  intros st. unfold read. destruct (nth_error (frames st) df);
    (split; [reflexivity|]; exists []; now rewrite app_nil_r).
Qed.

Lemma quiet_emit (r : @log_record F) : quiet (emit r).
Proof. intros st. split; [reflexivity|]. now exists [r]. Qed.

Lemma quiet_get_col fr col : quiet (get_col fr col).
Proof.
  unfold get_col. destruct (lookup_col fr col);
    [apply quiet_pret|apply quiet_praise].
Qed.

Lemma quiet_pwhen b (m : @P F unit) : quiet m -> quiet (pwhen b m).
Proof. intros H. destruct b; [exact H|apply quiet_pret]. Qed.

Create HintDb quiet_db.
#[local] Hint Resolve quiet_pret quiet_praise quiet_read quiet_emit
  quiet_get_col quiet_pwhen : quiet_db.

Lemma quiet_check_negative fr cols : quiet (check_negative fr cols).
Proof.
  induction cols as [|col cols IH]; simpl; [apply quiet_pret|].
  apply quiet_pbind; [|intros _; exact IH].
  destruct (lookup_col fr col); auto with quiet_db.
Qed.

Lemma quiet_check_returns fr cols : quiet (check_returns fr cols).
Proof.
  induction cols as [|col cols IH]; simpl; [apply quiet_pret|].
  apply quiet_pbind; [|intros _; exact IH].
  destruct (lookup_col fr col) as [vals|]; [|apply quiet_pret].
  destruct (existsb _ _); [|apply quiet_pret].
  apply quiet_pbind; auto with quiet_db.
Qed.

#[local] Hint Resolve quiet_check_negative quiet_check_returns : quiet_db.

Ltac quiet_steps :=
  repeat first
    [ solve [auto with quiet_db]
    | apply quiet_pbind; [|intros ?] ].

Lemma quiet_validate_data df : quiet (F:=F) (validate_data df).
Proof. unfold validate_data. quiet_steps. Qed.

Lemma pbind_ok {A B} (m : @P F A) (k : A -> @P F B) st b :
  fst (pbind m k st) = Ok b ->
  exists a st1, m st = (Ok a, st1) /\ fst (k a st1) = Ok b.
Proof.
  unfold pbind. destruct (m st) as [[a|e] st1]; simpl; [|discriminate].
  intros H. now exists a, st1.
Qed.

Lemma validate_data_returns_its_argument df st r :
  fst (validate_data df st) = Ok r -> r = df.
Proof.
  unfold validate_data. intros H.
  repeat (apply pbind_ok in H; destruct H as (? & ? & _ & H)).
  simpl in H. congruence.
Qed.

Lemma log_kept_by_quiet {A} (m : @P F A) st x :
  quiet m -> In x (log st) -> In x (log (snd (m st))).
Proof.
  intros Q H. destruct (Q st) as (_ & l & E). rewrite E. apply in_or_app. now left.
Qed.

Lemma log_kept_after_pbind {A B} (m : @P F A) (k : A -> @P F B) st x :
  (forall a, quiet (k a)) ->
  In x (log (snd (m st))) -> In x (log (snd (pbind m k st))).
Proof.
  intros Q H. unfold pbind. destruct (m st) as [[a|e] st1]; simpl in *.
  - now apply log_kept_by_quiet.
  - exact H.
Qed.

Lemma check_negative_ok fr cols st :
  exists st', check_negative fr cols st = (Ok tt, st').
Proof.
  revert st. induction cols as [|col cols IH]; intros st; simpl.
  - now exists st.
  - unfold pbind.
    destruct (lookup_col fr col) as [vals|].
    + destruct (existsb negative vals); simpl; apply IH.
    + simpl. apply IH.
Qed.

Lemma check_returns_ok fr cols st names :
  lookup_col fr "name" = Some names ->
  exists st', check_returns fr cols st = (Ok tt, st').
Proof.
  intros L. revert st. induction cols as [|col cols IH]; intros st; simpl.
  - now exists st.
  - unfold pbind.
    destruct (lookup_col fr col) as [vals|]; [|simpl; apply IH].
    destruct (existsb _ _); [|simpl; apply IH].
    unfold get_col. rewrite L. simpl. apply IH.
Qed.

Lemma check_negative_cons fr col rest :
  check_negative fr (col :: rest) =
    pbind (match lookup_col fr col with
           | Some vals => pwhen (existsb negative vals) (emit (WarnNegative col))
           | None => pret tt
           end) (fun _ => check_negative fr rest).
Proof. reflexivity. Qed.

Lemma pwhen_ok b (m : @P F unit) st :
  (exists st', m st = (Ok tt, st')) -> exists st', pwhen b m st = (Ok tt, st').
Proof. intros H. destruct b; [exact H|]. now exists st. Qed.

Lemma emit_ok (r : @log_record F) st : exists st', emit r st = (Ok tt, st').
Proof. eexists. reflexivity. Qed.

(** C8: [validate_data] changes no DataFrame: after it every frame of
    the store is what it was (row for row, cell for cell), it hands back
    the frame it was given, and on a table with the five columns it reads
    it returns; what it finds goes to the log only, so a negative [aum]
    is reported and stays in the table. *)
Theorem validate_data_never_mutates st df :
  frames (snd (validate_data df st)) = frames st /\
  (forall r, fst (validate_data df st) = Ok r -> r = df) /\
  (forall fr, nth_error (frames st) df = Some fr ->
     (forall c, In c [lit "equity_aum"; lit "aum"; lit "debt_per";
                      lit "equity_per"; lit "name"] ->
                lookup_col fr c <> None) ->
     fst (validate_data df st) = Ok df) /\
  (forall fr vals, nth_error (frames st) df = Some fr ->
     lookup_col fr "aum" = Some vals ->
     existsb negative vals = true ->
     In (WarnNegative "aum") (log (snd (validate_data df st))) /\
     nth_error (frames (snd (validate_data df st))) df = Some fr).
Proof.
  split; [apply quiet_validate_data|].
  split; [apply validate_data_returns_its_argument|].
  split.
  - intros fr H Hc.
    assert (Hl : forall c, In c [lit "equity_aum"; lit "aum"; lit "debt_per";
                                 lit "equity_per"; lit "name"] ->
                           exists vals, lookup_col fr c = Some vals).
    { intros c Hin. specialize (Hc c Hin).
      destruct (lookup_col fr c) as [v|]; [now exists v|congruence]. }
    destruct (Hl "equity_aum") as (ea & Lea); [now left|].
    destruct (Hl "aum") as (au & Lau); [right; now left|].
    destruct (Hl "debt_per") as (dp & Ldp); [right; right; now left|].
    destruct (Hl "equity_per") as (ep & Lep); [right; right; right; now left|].
    destruct (Hl "name") as (nm & Lnm); [right; right; right; right; now left|].
    unfold validate_data. unfold pbind at 1. unfold read. rewrite H.
    unfold pbind at 1.
    destruct (check_negative_ok fr
                [lit "aum"; lit "nav"; lit "minimum_investment";
                 lit "minimum_sip_investment"; lit "equity_aum"] st) as (s1 & ->).
    unfold get_col. rewrite Lea, Lau, Ldp, Lep, Lnm.
    unfold pbind at 1. unfold pret at 1. unfold pbind at 1. unfold pret at 1.
    unfold pbind at 1.
    destruct (pwhen_ok (existsb (fun p => fltb (snd p) (fst p)) (valid_rows ea au))
                (emit WarnEquityAumExceeds) s1 (emit_ok _ _)) as (s2 & ->).
    unfold pbind at 1.
    destruct (check_returns_ok fr
                [lit "one_year_return"; lit "three_year_return";
                 lit "five_year_return"] s2 nm Lnm) as (s3 & ->).
    unfold pbind at 1. unfold pret at 1. unfold pbind at 1. unfold pret at 1.
    unfold pbind at 1.
    match goal with
    | |- context [pwhen ?b ?m s3] =>
        destruct (pwhen_ok b m s3 (emit_ok _ _)) as (s4 & ->)
    end.
    unfold pbind at 1. unfold pret at 1. unfold pbind at 1.
    match goal with
    | |- context [pwhen ?b ?m s4] =>
        destruct (pwhen_ok b m s4 (emit_ok _ _)) as (s5 & ->)
    end.
    reflexivity.
  - intros fr vals H L Hneg. split.
    + unfold validate_data. unfold pbind at 1. unfold read. rewrite H.
      apply log_kept_after_pbind.
      { intros _. quiet_steps. }
      rewrite check_negative_cons, L, Hneg.
      apply log_kept_after_pbind; [intros _; apply quiet_check_negative|].
      simpl. apply in_or_app. right. now left.
    + destruct (quiet_validate_data df st) as (E & _). now rewrite E.
Qed.

End FrameFacts.

(** ** The detail page *)

Section DetailFacts.
Context {F : Type} {PF : PyFloat F}.
Implicit Types (w : world (F:=F)) (st : state) (doc : soup).

Lemma scan_labelled_unavailable label clean (elems : list labelled) :
  no_value (F:=F) label clean elems = true ->
  scan_labelled label clean elems = nan.
Proof.
  induction elems as [|elem elems IH]; simpl; [reflexivity|].
  intros H. apply andb_prop in H. destruct H as [H1 H2].
  destruct (previous elem) as [t|]; [|auto].
  destruct (contains label t); [|auto].
  destruct (float_of_str _); [discriminate|auto].
Qed.

Lemma scan_rating_unavailable (elems : list pystr) :
  no_rating (F:=F) elems = true -> scan_rating elems = nan.
Proof.
  induction elems as [|elem elems IH]; simpl; [reflexivity|].
  intros H. apply andb_prop in H. destruct H as [H1 H2].
  destruct (str_eqb (strip elem) "NA"); [auto|].
  destruct (float_of_str _); [discriminate|auto].
Qed.

Lemma scan_expense_ratio_unavailable (elems : list pystr) :
  no_percent (F:=F) "Expense ratio" elems = true ->
  scan_expense_ratio elems = nan.
Proof.
  induction elems as [|elem elems IH]; simpl; [reflexivity|].
  intros H. apply andb_prop in H. destruct H as [H1 H2].
  destruct (contains "Expense ratio" (strip elem)); [|auto].
  destruct (search_percent (strip elem)) as [g|]; [|auto].
  destruct (float_of_str g); [discriminate|auto].
Qed.

Lemma scan_exit_load_unavailable (elems : list pystr) :
  no_percent (F:=F) "Exit load" elems = true ->
  no_zero_load elems = true ->
  scan_exit_load elems = nan.
Proof.
  induction elems as [|elem elems IH]; simpl; [reflexivity|].
  intros H Z. apply andb_prop in H. destruct H as [H1 H2].
  apply andb_prop in Z. destruct Z as [Z1 Z2].
  destruct (contains "Exit load" (strip elem)); [|auto].
  destruct (contains "No exit load" (strip elem) || contains "0%" (strip elem));
    [discriminate|].
  destruct (search_percent (strip elem)) as [g|]; [|auto].
  destruct (float_of_str g); [discriminate|auto].
Qed.

(** C3, as the code has it: a field whose label is not on the page, or
    is there only with texts that are not numbers, is not-a-number, each
    field by its own elements; the one exception is the minimum
    investment, which then takes the value found for the minimum SIP
    investment.  A page that cannot be fetched gives seven
    not-a-numbers. *)
Theorem unread_detail_fields_are_unavailable {L : @NanLaw F PF} w st url :
  (page_at w (clock st) url = Raise RequestException ->
   fst (extract_detailed_fund_data url w st)
     = Ok {| aum := nan; detail_nav := nan; minimum := nan;
             minimum_sip := nan; rating := nan; expense_ratio := nan;
             exit_load := nan |}) /\
  (forall doc, page_at w (clock st) url = Ok doc ->
   exists d,
     fst (extract_detailed_fund_data url w st) = Ok d /\
     (no_value "Fund size" clean_aum (all_elements doc) = true ->
      aum d = nan) /\
     (no_value "NAV" clean_amount (all_elements doc) = true ->
      detail_nav d = nan) /\
     (no_value "Min. for SIP" clean_amount (min_elements doc) = true ->
      minimum_sip d = nan) /\
     (no_rating (rating_elements doc) = true -> rating d = nan) /\
     (no_percent "Expense ratio" (exit_load_elements doc) = true ->
      expense_ratio d = nan) /\
     (no_percent "Exit load" (exit_load_elements doc) = true ->
      no_zero_load (exit_load_elements doc) = true ->
      exit_load d = nan) /\
     (no_value "Min. for 1st investment" clean_amount (min_elements doc) = true ->
      minimum d = minimum_sip d)).
Proof.
  split.
  - intros H. unfold extract_detailed_fund_data, bind.
    now rewrite (fetch_page_failed _ _ _ H).
  - intros doc H. exists (detail_of_page doc). split.
    { unfold extract_detailed_fund_data, bind.
      now rewrite (fetch_page_ok _ _ _ _ H). }
    unfold detail_of_page. cbn [aum detail_nav minimum minimum_sip rating
                                 expense_ratio exit_load].
    repeat split.
    + apply scan_labelled_unavailable.
    + apply scan_labelled_unavailable.
    + apply scan_labelled_unavailable.
    + apply scan_rating_unavailable.
    + apply scan_expense_ratio_unavailable.
    + apply scan_exit_load_unavailable.
    + intros N. rewrite (scan_labelled_unavailable _ _ _ N).
      now rewrite isnan_nan.
Qed.

End DetailFacts.

(** ** Portfolio statistics *)

Section StatsFacts.
Context {F : Type} {PF : PyFloat F}.
Implicit Types (w : world (F:=F)) (st : state) (l : list (sector_entry (F:=F))).

Lemma first_attempt_success w st code fund_type retry_delay n data :
  no_code code = false ->
  stats_json_at w (clock st) (stats_url code) = Ok data ->
  fst (extract_portfolio_stats code fund_type (S n) retry_delay w st)
    = Ok (Some (stats_of_response fund_type data)).
Proof.
  intros Hc H. unfold extract_portfolio_stats. rewrite Hc.
  cbn [stats_attempts]. unfold bind, attempt, request. rewrite H. reflexivity.
Qed.

Lemma insert_desc_perm x l : Permutation (insert_desc x l) (x :: l).
Proof.
  induction l as [|y l IH]; simpl; [reflexivity|].
  destruct (fltb (percentage x) (percentage y)); [|reflexivity].
  rewrite IH. apply perm_swap.
Qed.

Lemma sorted_desc_perm l : Permutation (sorted_desc l) l.
Proof.
  induction l as [|x l IH]; simpl; [reflexivity|].
  rewrite insert_desc_perm. now constructor.
Qed.

Lemma sorted_desc_length l : List.length (sorted_desc l) = List.length l.
Proof. apply Permutation_length, sorted_desc_perm. Qed.

Section Ordered.
Context {L : @OrderLaws F PF}.

Lemma insert_desc_sorted x l :
  Forall (fun e => isnan (percentage e) = false) l ->
  StronglySorted not_below l ->
  StronglySorted not_below (insert_desc x l).
Proof.
  induction l as [|y l IH]; intros Hn Hs; simpl.
  - repeat constructor.
  - inversion Hn as [|? ? Ny Nl]; subst.
    inversion Hs as [|? ? Sl Fy]; subst.
    destruct (fltb (percentage x) (percentage y)) eqn:E.
    + constructor; [now apply IH|].
      rewrite Forall_forall. intros z Hz.
      apply (Permutation_in _ (insert_desc_perm x l)) in Hz.
      destruct Hz as [<-|Hz].
      * unfold not_below. now apply fltb_asym.
      * rewrite Forall_forall in Fy. now apply Fy.
    + constructor; [exact Hs|].
      constructor; [exact E|].
      rewrite Forall_forall in Fy |- *. intros z Hz.
      unfold not_below.
      apply fltb_negtrans with (b := percentage y); auto.
      now apply Fy.
Qed.

Lemma sorted_desc_sorted l :
  Forall (fun e => isnan (percentage e) = false) l ->
  StronglySorted not_below (sorted_desc l).
Proof.
  induction l as [|x l IH]; intros Hn; simpl; [constructor|].
  inversion Hn; subst.
  apply insert_desc_sorted; [|now apply IH].
  rewrite Forall_forall in *. intros e He.
  apply (Permutation_in _ (sorted_desc_perm l)) in He. auto.
Qed.

End Ordered.

Lemma strongly_sorted_split {A} (R : A -> A -> Prop) (a b : list A) :
  StronglySorted R (a ++ b) ->
  StronglySorted R a /\ forall x y, In x a -> In y b -> R x y.
Proof.
  induction a as [|h a IH]; simpl; intros H.
  - split; [constructor|intros x y []].
  - inversion H as [|? ? Hs Hf]; subst.
    destruct (IH Hs) as [Sa Cross].
    rewrite Forall_forall in Hf. split.
    + constructor; [exact Sa|].
      rewrite Forall_forall. intros z Hz. apply Hf, in_or_app. now left.
    + intros x y [<-|Hx] Hy; [|now apply Cross].
      apply Hf, in_or_app. now right.
Qed.

(** C6, as the code has it: from a response with more than four sectors
    (none of them not-a-number) the function keeps four entries, largest
    percentage first, and every sector it leaves out has a percentage no
    larger than each of the four; the four are entries of the map, of
    any sign. *)
Theorem four_largest_sectors_are_kept {L : @OrderLaws F PF}
    w st code fund_type retry_delay n data :
  no_code code = false ->
  stats_json_at w (clock st) (stats_url code) = Ok data ->
  (4 < List.length (sector_entries data))%nat ->
  (forall e, In e (sector_entries data) -> isnan (percentage e) = false) ->
  exists stats left_out,
    fst (extract_portfolio_stats code fund_type (S n) retry_delay w st)
      = Ok (Some stats) /\
    List.length (sector_allocation stats) = 4%nat /\
    StronglySorted not_below (sector_allocation stats) /\
    Permutation (sector_entries data) (sector_allocation stats ++ left_out) /\
    forall x y, In x (sector_allocation stats) -> In y left_out -> not_below x y.
Proof.
  intros Hc H Hlen Hn.
  set (s := sorted_desc (sector_entries data)).
  exists (stats_of_response fund_type data), (skipn 4 s).
  split; [now apply first_attempt_success|].
  assert (E : sector_allocation (stats_of_response fund_type data) = firstn 4 s).
  { unfold stats_of_response.
    destruct (if str_eqb fund_type "Hybrid" then _ else _). reflexivity. }
  rewrite E.
  assert (Ss : StronglySorted not_below (firstn 4 s ++ skipn 4 s)).
  { rewrite firstn_skipn. apply sorted_desc_sorted. now apply Forall_forall. }
  apply strongly_sorted_split in Ss. destruct Ss as [S4 Cross].
  split.
  { rewrite length_firstn. unfold s. rewrite sorted_desc_length. lia. }
  split; [exact S4|].
  split; [|exact Cross].
  rewrite firstn_skipn. symmetry. apply sorted_desc_perm.
Qed.

End StatsFacts.

(** ** The shares of a Hybrid fund *)

Lemma exact_positive (t : Qc) :
  exact_ltb (Some (Q2Qc (inject_Z 0))) (Some t) = true -> (0 < t)%Qc.
Proof.
  unfold exact_ltb. intros H. apply Qclt_alt.
  change (Q2Qc (inject_Z 0)) with 0%Qc in H.
  destruct (0 ?= t)%Qc; [discriminate|reflexivity|discriminate].
Qed.

Lemma exact_rescaled (x y : Qc) :
  exact_ltb (Some (Q2Qc (inject_Z 0))) (Some (x + y)%Qc) = true ->
  let a := fmul (fdiv (Some x) (Some (x + y)%Qc)) (of_Z 100) in
  let b := fmul (fdiv (Some y) (Some (x + y)%Qc)) (of_Z 100) in
  fadd a b = of_Z (F:=exact) 100 /\
  fmul a (Some y) = fmul b (Some x).
Proof.
  intros H. apply exact_positive in H.
  assert (N : (x + y)%Qc <> 0%Qc).
  { intros E. rewrite E in H. now apply Qclt_not_eq in H. }
  cbn. destruct (Qc_eq_dec (x + y) 0) as [E|_]; [contradiction|].
  cbn. unfold exact_of_Z. split; (apply f_equal; field; exact N).
Qed.

Lemma hybrid_shares_exact (debt_per equity_per : exact) :
  let debt := if isnan debt_per then of_Z 0 else debt_per in
  let equity := if isnan equity_per then of_Z 0 else equity_per in
  fltb (of_Z 0) (fadd debt equity) = true ->
  fadd (fst (hybrid_shares debt_per equity_per))
       (snd (hybrid_shares debt_per equity_per)) = of_Z 100 /\
  fmul (fst (hybrid_shares debt_per equity_per)) equity
    = fmul (snd (hybrid_shares debt_per equity_per)) debt.
Proof.
  intros debt equity H. unfold hybrid_shares. fold debt equity. rewrite H.
  cbn [fst snd].
  assert (Hd : exists x, debt = Some x).
  { unfold debt. destruct debt_per as [x|]; eexists; reflexivity. }
  assert (He : exists y, equity = Some y).
  { unfold equity. destruct equity_per as [y|]; eexists; reflexivity. }
  destruct Hd as (x & Hd). destruct He as (y & He).
  rewrite Hd, He in *. now apply exact_rescaled.
Qed.

(** C2, as the code has it: for a Hybrid fund the two shares are
    [debt / total * 100] and [equity / total * 100] when the raw sum
    [total] (a missing share counting as 0) is positive, and both
    not-a-number otherwise.  In exact arithmetic the two sum to 100 and
    keep the ratio of the raw shares; in binary64 raw 40 and 40 become
    exactly 50 and 50. *)
Theorem hybrid_shares_are_rescaled :
  (forall (F : Type) (PF : PyFloat F) (w : world (F:=F)) st code retry_delay n data,
     no_code code = false ->
     stats_json_at w (clock st) (stats_url code) = Ok data ->
     exists stats,
       fst (extract_portfolio_stats code "Hybrid" (S n) retry_delay w st)
         = Ok (Some stats) /\
       let debt := if isnan (j_debt_per data) then of_Z 0 else j_debt_per data in
       let equity := if isnan (j_equity_per data) then of_Z 0 else j_equity_per data in
       let total := fadd debt equity in
       (debt_per stats, equity_per stats)
         = hybrid_shares (j_debt_per data) (j_equity_per data) /\
       (fltb (of_Z 0) total = true ->
        debt_per stats = fmul (fdiv debt total) (of_Z 100) /\
        equity_per stats = fmul (fdiv equity total) (of_Z 100)) /\
       (fltb (of_Z 0) total = false ->
        debt_per stats = nan /\ equity_per stats = nan)) /\
  (forall debt_per equity_per : exact,
     let debt := if isnan debt_per then of_Z 0 else debt_per in
     let equity := if isnan equity_per then of_Z 0 else equity_per in
     fltb (of_Z 0) (fadd debt equity) = true ->
     fadd (fst (hybrid_shares debt_per equity_per))
          (snd (hybrid_shares debt_per equity_per)) = of_Z 100 /\
     fmul (fst (hybrid_shares debt_per equity_per)) equity
       = fmul (snd (hybrid_shares debt_per equity_per)) debt) /\
  hybrid_shares (F:=PrimFloat.float) (of_Z 40) (of_Z 40) = (of_Z 50, of_Z 50).
Proof.
  split; [|split; [exact hybrid_shares_exact|vm_compute; reflexivity]].
  intros F PF w st code retry_delay n data Hc H.
  exists (stats_of_response "Hybrid" data).
  split; [now apply first_attempt_success|].
  assert (E : (debt_per (stats_of_response "Hybrid" data),
               equity_per (stats_of_response "Hybrid" data))
              = hybrid_shares (j_debt_per data) (j_equity_per data)).
  { unfold stats_of_response.
    replace (str_eqb "Hybrid" "Commodities") with false by reflexivity.
    replace (str_eqb "Hybrid" "Hybrid") with true by reflexivity.
    destruct (hybrid_shares (j_debt_per data) (j_equity_per data)).
    reflexivity. }
  cbv zeta. split; [exact E|].
  pose proof (f_equal fst E) as E1. pose proof (f_equal snd E) as E2.
  cbn [fst snd] in E1, E2. rewrite E1, E2. unfold hybrid_shares.
  split; intros T; rewrite T; split; reflexivity.
Qed.

(** ** The laws of the two arithmetics *)

#[export] Instance binary64_nan : @NanLaw PrimFloat.float binary64.
Proof. split. vm_compute. reflexivity. Qed.

#[export] Instance exact_nan : @NanLaw exact exact_float.
Proof. split. reflexivity. Qed.

#[export] Instance exact_order : @OrderLaws exact exact_float.
Proof.
  split.
  - intros a b. change (exact_ltb a b = true -> exact_ltb b a = false).
    destruct a as [a|], b as [b|]; unfold exact_ltb; try discriminate;
      try reflexivity.
    intros H. unfold Qccompare in *. rewrite <- Qcompare_antisym.
    destruct (a ?= b)%Q; try discriminate. reflexivity.
  - intros a b c Nb.
    change (exact_ltb a b = false -> exact_ltb b c = false -> exact_ltb a c = false).
    destruct a as [a|], b as [b|], c as [c|]; unfold exact_ltb;
      try discriminate; try reflexivity.
    intros H1 H2.
    destruct (a ?= c)%Qc eqn:E; try reflexivity.
    exfalso. apply Qclt_alt in E.
    assert (B1 : (b <= a)%Qc).
    { apply Qcnot_lt_le. intros X. apply Qclt_alt in X.
      unfold Qccompare, Qcompare in H1. now rewrite X in H1. }
    assert (B2 : (c <= b)%Qc).
    { apply Qcnot_lt_le. intros X. apply Qclt_alt in X.
      unfold Qccompare, Qcompare in H2. now rewrite X in H2. }
    apply (Qclt_not_le a c E). now apply Qcle_trans with b.
Qed.

(** ** Concrete runs *)

(** C1 fails as stated: the graph endpoint answers scheme 12345 with an
    empty list; the function returns the empty list after that one
    request and never reads the bulk feed, where the fallback would have
    found a NAV of that scheme. *)
Lemma empty_nav_payload_skips_fallback :
  let w := serving_nav (F:=b64) (Ok {| folio_data := [] |}) in
  let after_primary :=
    {| clock := 1; trace := [Get (nav_url code_12345 12)] |} in
  nav_json_at w 0 (nav_url code_12345 12) = Ok {| folio_data := [] |} /\
  extract_historical_nav code_12345 12 w started = (Ok [], after_primary) /\
  fst (fetch_amfi_nav code_12345 default_start_date default_end_date
         w after_primary)
    = Ok [ {| date := "2025-01-06"; nav := fdiv (of_Z 1015) (of_Z 10) |} ] /\
  fst (extract_historical_nav code_12345 12 w started)
    <> fst (fetch_amfi_nav code_12345 default_start_date default_end_date
              w after_primary).
Proof.
  cbv zeta. split; [reflexivity|]. split; [reflexivity|].
  split; [vm_compute; reflexivity|].
  vm_compute. intros H. discriminate H.
Qed.

(** Scheme 12345 against a graph endpoint that answers with an empty
    list, and against one that is down. *)
Lemma empty_nav_payload_witness :
  extract_historical_nav code_12345 12
    (serving_nav (F:=b64) (Ok {| folio_data := [] |})) started
    = (Ok [], {| clock := 1; trace := [] ++ [Get (nav_url code_12345 12)] |}) /\
  extract_historical_nav code_12345 12
    (serving_nav (F:=b64) (Raise RequestException)) started
    = fetch_amfi_nav code_12345 default_start_date default_end_date
        (serving_nav (F:=b64) (Raise RequestException))
        {| clock := 1; trace := [] ++ [Get (nav_url code_12345 12)] |}.
Proof.
  split.
  - apply (empty_nav_payload_returns_empty
             (serving_nav (F:=b64) (Ok {| folio_data := [] |}))
             started code_12345 12); reflexivity.
  - apply (proj2 (empty_nav_payload_returns_empty
                    (serving_nav (F:=b64) (Raise RequestException))
                    started code_12345 12 eq_refl) RequestException).
    + simpl. left. reflexivity.
    + reflexivity.
Defined.

(** C2 fails as stated: raw shares 30 and 60 of a Hybrid fund have a
    positive sum, and the two shares stored add up, in binary64, to a
    number below 100. *)
Lemma hybrid_30_60_does_not_sum_to_100 :
  let data := stats_with (F:=b64) 30 60 [] in
  exists stats,
    fst (extract_portfolio_stats code_12345 "Hybrid"
           default_retries default_retry_delay (serving_stats data) started)
      = Ok (Some stats) /\
    fltb (of_Z 0) (fadd (j_debt_per data) (j_equity_per data)) = true /\
    feqb (fadd (debt_per stats) (equity_per stats)) (of_Z 100) = false /\
    fltb (fadd (debt_per stats) (equity_per stats)) (of_Z 100) = true.
Proof.
  cbv zeta. eexists. split; [reflexivity|].
  repeat split; vm_compute; reflexivity.
Qed.

(** Raw shares 40 and 40, exactly and in binary64. *)
Lemma hybrid_shares_witness :
  fadd (fst (hybrid_shares (F:=exact) (of_Z 40) (of_Z 40)))
       (snd (hybrid_shares (F:=exact) (of_Z 40) (of_Z 40))) = of_Z 100 /\
  hybrid_shares (F:=b64) (of_Z 40) (of_Z 40) = (of_Z 50, of_Z 50).
Proof.
  split.
  - apply (proj1 (proj2 hybrid_shares_are_rescaled) (of_Z 40) (of_Z 40)).
    reflexivity.
  - apply (proj2 (proj2 hybrid_shares_are_rescaled)).
Defined.

(** C3 fails as stated: on a page that shows the minimum SIP amount and
    no minimum investment, the minimum investment is not not-a-number:
    it is the 500 read for the SIP. *)
Lemma minimum_is_filled_from_sip :
  let doc := sip_only_doc in
  no_value (F:=b64) "Min. for 1st investment" clean_amount (min_elements doc)
    = true /\
  exists d,
    fst (extract_detailed_fund_data fund_page (serving_page (F:=b64) doc) started)
      = Ok d /\
    isnan (minimum d) = false /\
    minimum d = of_Z 500 /\
    minimum_sip d = of_Z 500.
Proof.
  cbv zeta. split; [reflexivity|]. eexists. split; [reflexivity|].
  repeat split; vm_compute; reflexivity.
Qed.

(** The page that shows the minimum SIP amount only. *)
Lemma unread_detail_fields_witness :
  exists d,
    fst (extract_detailed_fund_data fund_page
           (serving_page (F:=b64) sip_only_doc) started) = Ok d /\
    aum d = nan /\ detail_nav d = nan /\ rating d = nan /\
    expense_ratio d = nan /\ exit_load d = nan /\
    minimum d = minimum_sip d.
Proof.
  destruct (proj2 (unread_detail_fields_are_unavailable
                     (serving_page (F:=b64) sip_only_doc) started fund_page)
              sip_only_doc eq_refl)
    as (d & R & A & N & _ & T & E & X & M).
  exists d. split; [exact R|].
  split; [apply A; reflexivity|].
  split; [apply N; reflexivity|].
  split; [apply T; reflexivity|].
  split; [apply E; reflexivity|].
  split; [apply X; reflexivity|].
  apply M; reflexivity.
Defined.

(** Scheme 12345 with the default three attempts, all refused. *)
Lemma exhausted_retries_witness :
  exists stats,
    fst (extract_portfolio_stats code_12345 "Equity"
           default_retries default_retry_delay (offline (F:=b64)) started)
      = Ok (Some stats) /\
    pe stats = nan /\ pb stats = nan /\
    debt_per stats = nan /\ equity_per stats = nan /\
    average_maturity stats = nan /\ yield_to_maturity stats = nan /\
    equity_aum stats = nan /\
    asset_alloc stats
      = {| equity := nan; debt := nan; cash := nan; total_aum := nan |} /\
    sector_allocation stats = [] /\
    (no_code code_12345 = false ->
     trace (snd (extract_portfolio_stats code_12345 "Equity"
                   default_retries default_retry_delay (offline (F:=b64)) started))
       = trace started
         ++ List.concat (repeat [Get (stats_url code_12345);
                                 Sleep default_retry_delay]
                           (default_retries - 1))
         ++ [Get (stats_url code_12345)]).
Proof.
  apply (exhausted_retries_give_unavailable_stats
           (offline (F:=b64)) started code_12345 "Equity"
           default_retries default_retry_delay).
  - unfold default_retries. lia.
  - intros i _. exists RequestException. split; [|reflexivity].
    simpl. right. right. left. reflexivity.
Defined.

(** The three failed attempts, with the two waits between them. *)
Example three_attempts_two_waits :
  extract_portfolio_stats code_12345 "Equity"
    default_retries default_retry_delay (offline (F:=b64)) started
  = (Ok (Some unavailable_stats),
     {| clock := 3;
        trace := [Get (stats_url code_12345); Sleep 5;
                  Get (stats_url code_12345); Sleep 5;
                  Get (stats_url code_12345)] |}).
Proof. reflexivity. Qed.

(** Without attempts the loop is not entered and nothing is returned. *)
Example no_attempt_returns_none :
  fst (extract_portfolio_stats code_12345 "Equity" 0 default_retry_delay
         (offline (F:=b64)) started) = Ok None.
Proof. reflexivity. Qed.

(** The raw table of two funds, the first of them an Equity fund. *)
Lemma equity_rows_witness :
  exists st' fr' types am ytm,
    handle_missing_values 0%nat (raw_store (F:=b64)) = (Ok 0%nat, st') /\
    nth_error (frames st') 0%nat = Some fr' /\
    lookup_col raw_table "type" = Some types /\
    lookup_col fr' "type" = Some types /\
    lookup_col fr' "average_maturity" = Some am /\
    lookup_col fr' "yield_to_maturity" = Some ytm /\
    forall i, nth_error types i = Some (Str "Equity") ->
      nth_error am i = Some NA /\ nth_error ytm i = Some NA.
Proof.
  apply (equity_rows_lose_maturity_and_yield
           (raw_store (F:=b64)) 0%nat raw_table 2%nat).
  - reflexivity.
  - intros c H. simpl in H.
    destruct H as [<-|[<-|[<-|[<-|[<-|[]]]]]]; reflexivity.
Defined.

(** The table after [handle_missing_values]: the Equity row has 'N/A' in
    both columns, the other row keeps its maturity. *)
Example cleaned_raw_table :
  match handle_missing_values 0%nat (raw_store (F:=b64)) with
  | (Ok _, st') =>
      match nth_error (frames st') 0%nat with
      | Some fr' =>
          lookup_col fr' "average_maturity" = Some [NA; Num (of_Z 2)] /\
          lookup_col fr' "yield_to_maturity" = Some [NA; NA]
      | None => False
      end
  | _ => False
  end.
Proof. vm_compute. split; reflexivity. Qed.

(** C6 fails as stated: of five sectors at 60, 40, 0, 0 and 0 percent the
    four kept are 60, 40, 0 and 0: two of the stored percentages are not
    above 0. *)
Lemma zero_percent_sectors_are_stored :
  let data := stats_with (F:=b64) 0 100 five_sectors in
  exists stats,
    fst (extract_portfolio_stats code_12345 "Equity"
           default_retries default_retry_delay (serving_stats data) started)
      = Ok (Some stats) /\
    (4 < List.length (sector_entries data))%nat /\
    sector_allocation stats
      = [ {| sector := "Financial"; percentage := of_Z 60 |};
          {| sector := "Technology"; percentage := of_Z 40 |};
          {| sector := "Energy"; percentage := of_Z 0 |};
          {| sector := "Healthcare"; percentage := of_Z 0 |} ] /\
    exists e, In e (sector_allocation stats) /\
              fltb (of_Z 0) (percentage e) = false.
Proof.
  cbv zeta. eexists. split; [reflexivity|].
  split; [vm_compute; lia|].
  split; [vm_compute; reflexivity|].
  exists {| sector := "Energy"; percentage := of_Z 0 |}.
  split; [|vm_compute; reflexivity].
  vm_compute. right. right. left. reflexivity.
Qed.

(** The five sectors, in exact arithmetic. *)
Lemma four_largest_sectors_witness :
  let data := stats_with (F:=exact) 0 100 five_sectors in
  exists stats left_out,
    fst (extract_portfolio_stats code_12345 "Equity" 3%nat
           default_retry_delay (serving_stats data) started)
      = Ok (Some stats) /\
    List.length (sector_allocation stats) = 4%nat /\
    StronglySorted not_below (sector_allocation stats) /\
    Permutation (sector_entries data) (sector_allocation stats ++ left_out) /\
    forall x y, In x (sector_allocation stats) -> In y left_out -> not_below x y.
Proof.
  cbv zeta.
  apply (four_largest_sectors_are_kept
           (serving_stats (stats_with (F:=exact) 0 100 five_sectors))
           started code_12345 "Equity" default_retry_delay 2%nat
           (stats_with (F:=exact) 0 100 five_sectors)).
  - reflexivity.
  - reflexivity.
  - vm_compute. lia.
  - intros e H. simpl in H.
    destruct H as [<-|[<-|[<-|[<-|[<-|[]]]]]]; reflexivity.
Defined.

(** The raw table, whose first fund has an [aum] of -5. *)
Lemma validate_data_witness :
  fst (validate_data 0%nat (raw_store (F:=b64))) = Ok 0%nat /\
  In (WarnNegative "aum") (log (snd (validate_data 0%nat (raw_store (F:=b64))))) /\
  nth_error (frames (snd (validate_data 0%nat (raw_store (F:=b64))))) 0%nat
    = Some raw_table.
Proof.
  pose proof (validate_data_never_mutates (raw_store (F:=b64)) 0%nat)
    as (_ & _ & R & N).
  split.
  - apply (R raw_table); [reflexivity|].
    intros c H. simpl in H.
    destruct H as [<-|[<-|[<-|[<-|[<-|[]]]]]]; discriminate.
  - apply (N raw_table [Num (of_Z (-5)); Num (of_Z 900)]); reflexivity.
Defined.

(** The warnings for the raw table: the negative [aum], and the equity
    assets above it; the table is as it was. *)
Example raw_table_warnings :
  validate_data 0%nat (raw_store (F:=b64))
  = (Ok 0%nat, {| frames := [raw_table];
                  log := [WarnNegative "aum"; WarnEquityAumExceeds] |}).
Proof. vm_compute. reflexivity. Qed.

(** Page 3, once not fetched and once without cards. *)
Lemma failed_page_witness :
  fst (extract_fund_overview 3%nat (offline (F:=b64)) started) = Ok [] /\
  fst (discover 5%nat 3%nat [] [] (offline (F:=b64)) started) = Ok (Some []) /\
  discover 5%nat 3%nat [] [] (offline (F:=b64)) started
    = discover 5%nat 3%nat [] [] (serving_page (F:=b64) empty_doc) started.
Proof.
  apply (failed_page_ends_discovery
           (offline (F:=b64)) (serving_page (F:=b64) empty_doc)
           started 4%nat 3%nat [] [] empty_doc); reflexivity.
Defined.

(** The holdings table whose one row has 'N/A' for a percentage. *)
Lemma unparsed_percentage_witness :
  let zero_holding :=
    {| company := strip " Reliance Industries Ltd. ";
       holding_percentage := of_Z 0 |} in
  row_holding (F:=b64) unrated_holding_row = [zero_holding] /\
  exists top_holdings,
    fst (extract_top_holdings code_12345 fund_page
           (serving_page (F:=b64) holdings_doc) started) = Ok top_holdings /\
    top_holdings
      = flat_map row_holding
          (table_rows {| tbody := Some [unrated_holding_row]; all_tr := [] |}) /\
    In zero_holding top_holdings.
Proof.
  apply (unparsed_percentage_gives_zero_holding
           (serving_page (F:=b64) holdings_doc) started code_12345 fund_page
           holdings_doc {| tbody := Some [unrated_holding_row]; all_tr := [] |}
           {| td_text := "Reliance Industries Ltd.";
              td_link := Some (lit " Reliance Industries Ltd. ") |}
           {| td_text := "Energy"; td_link := None |}
           {| td_text := "Equity"; td_link := None |}
           {| td_text := "N/A"; td_link := None |} []);
    try reflexivity.
  simpl. left. reflexivity.
Defined.

(** ** Strings *)

Section StringFacts.
Implicit Types (p r s x y : pystr).

Lemma startswith_length p s : startswith p s = true -> (List.length p <= List.length s)%nat.
Proof.
  revert s. induction p as [|a p IH]; intros [|b s]; simpl; try lia; try discriminate.
  intros H. apply andb_prop in H. destruct H as [_ H]. apply IH in H. lia.
Qed.

Lemma startswith_app_l p x y : startswith p x = true -> startswith p (x ++ y) = true.
Proof.
  revert x. induction p as [|a p IH]; intros [|b x]; simpl; try reflexivity;
    try discriminate.
  intros H. apply andb_prop in H. destruct H as [H1 H2].
  now rewrite H1, IH.
Qed.

Lemma startswith_app_inv p x y :
  x <> [] ->
  startswith p (x ++ y) = true ->
  startswith p x = true \/
  exists p2, In p2 (proper_suffixes p) /\ startswith p2 y = true.
Proof.
  revert x. induction p as [|a p IH]; intros x Hx H; [now left|].
  destruct x as [|b x]; [congruence|]. simpl in H.
  apply andb_prop in H. destruct H as [H1 H2].
  destruct x as [|c x].
  - destruct p as [|a' p]; [left; simpl; now rewrite H1|].
    right. exists (a' :: p). split; [now left|exact H2].
  - destruct (IH (c :: x)) as [T|(p2 & I & T)]; [discriminate|exact H2| |].
    + left. simpl. now rewrite H1, T.
    + right. exists p2. split; [|exact T].
      destruct p as [|a' p]; [destruct I|]. right. exact I.
Qed.

Lemma startswith_inside p x y :
  no_straddle p y = true -> x <> [] ->
  startswith p (x ++ y) = startswith p x.
Proof.
  intros N Hx. destruct (startswith p x) eqn:E.
  - now apply startswith_app_l.
  - destruct (startswith p (x ++ y)) eqn:E'; [|reflexivity].
    destruct (startswith_app_inv p x y Hx E') as [T|(p2 & I & T)]; [congruence|].
    unfold no_straddle in N. rewrite forallb_forall in N.
    specialize (N p2 I). now rewrite T in N.
Qed.

Lemma replace_from_app p r y :
  no_straddle p y = true ->
  forall x k, (k <= List.length x)%nat ->
    replace_from k p r (x ++ y) = replace_from k p r x ++ replace_from 0 p r y.
Proof.
  intros N. induction x as [|c x IH]; intros k Hk.
  - assert (k = 0%nat) by (simpl in Hk; lia). subst k. reflexivity.
  - destruct k as [|k].
    + change ((c :: x) ++ y) with (c :: (x ++ y)).
      cbn [replace_from].
      change (c :: x ++ y) with ((c :: x) ++ y).
      rewrite (startswith_inside p (c :: x) y N) by discriminate.
      destruct (startswith p (c :: x)) eqn:E.
      * apply startswith_length in E. simpl in E.
        rewrite IH by lia. now rewrite app_assoc.
      * rewrite IH by lia. reflexivity.
    + simpl. apply IH. simpl in Hk. lia.
Qed.

Lemma replace_app p r x y :
  no_straddle p y = true ->
  replace p r (x ++ y) = replace p r x ++ replace p r y.
Proof.
  intros N. destruct p as [|a p]; [reflexivity|].
  unfold replace. apply replace_from_app; [exact N|lia].
Qed.

Lemma split_from_not_nil k sep cur s : split_from k sep cur s <> [].
Proof.
  revert k cur. induction s as [|c s IH]; intros k cur; simpl; [discriminate|].
  destruct k; [|apply IH].
  destruct (startswith sep (c :: s)); [discriminate|apply IH].
Qed.

Lemma last_cons_not_nil {A} (a : A) l d : l <> [] -> last (a :: l) d = last l d.
Proof. destruct l; [congruence|reflexivity]. Qed.

Lemma split_without_sep sep y :
  contains sep y = false ->
  forall cur, split_from 0 sep cur y = [rev cur ++ y].
Proof.
  induction y as [|c y IH]; intros H cur.
  - simpl. now rewrite app_nil_r.
  - simpl in H. apply orb_false_iff in H. destruct H as [H1 H2].
    cbn [split_from]. rewrite H1. rewrite IH by exact H2.
    simpl. now rewrite <- app_assoc.
Qed.

Lemma last_split_app sep y :
  no_straddle sep y = true ->
  contains sep y = false ->
  forall x k cur, (k <= List.length x)%nat ->
    last (split_from k sep cur (x ++ y)) [] = last (split_from k sep cur x) [] ++ y.
Proof.
  intros N C. induction x as [|c x IH]; intros k cur Hk.
  - assert (k = 0%nat) by (simpl in Hk; lia). subst k.
    simpl. now rewrite split_without_sep.
  - destruct k as [|k].
    + change ((c :: x) ++ y) with (c :: (x ++ y)).
      cbn [split_from].
      change (c :: x ++ y) with ((c :: x) ++ y).
      rewrite (startswith_inside sep (c :: x) y N) by discriminate.
      destruct (startswith sep (c :: x)) eqn:E.
      * apply startswith_length in E. simpl in E.
        rewrite !last_cons_not_nil by apply split_from_not_nil.
        apply IH. lia.
      * apply IH. lia.
    + simpl. apply IH. simpl in Hk. lia.
Qed.

Lemma startswith_query c s :
  startswith (lit "?") (c :: s) = Ascii.eqb "?"%char c.
Proof. change (Ascii.eqb "?"%char c && true = Ascii.eqb "?"%char c). apply andb_true_r. Qed.

Lemma hd_split_query a rest :
  ~ In "?"%char a -> query_like rest = true ->
  forall cur, hd [] (split_from 0 (lit "?") cur (a ++ rest)) = rev cur ++ a.
Proof.
  intros Ha Hq. induction a as [|c a IH]; intros cur.
  - simpl. destruct rest as [|q rest]; [now rewrite app_nil_r|].
    simpl in Hq. cbn [split_from]. rewrite startswith_query.
    rewrite Ascii.eqb_sym, Hq. simpl. now rewrite app_nil_r.
  - assert (Hc : Ascii.eqb "?"%char c = false).
    { apply Ascii.eqb_neq. intros E. apply Ha. now left. }
    change ((c :: a) ++ rest) with (c :: (a ++ rest)).
    cbn [split_from]. rewrite startswith_query, Hc.
    rewrite IH by (intros X; apply Ha; now right).
    simpl. now rewrite <- app_assoc.
Qed.

Lemma first_query_mark z :
  ~ In "?"%char z \/
  exists z1 z2, z = z1 ++ "?"%char :: z2 /\ ~ In "?"%char z1.
Proof.
  induction z as [|c z IH]; [left; intros []|].
  destruct (ascii_dec c "?"%char) as [->|Nc].
  - right. exists [], z. split; [reflexivity|intros []].
  - destruct IH as [H|(z1 & z2 & -> & H)].
    + left. intros [E|E]; [congruence|contradiction].
    + right. exists (c :: z1), z2. split; [reflexivity|].
      intros [E|E]; [congruence|contradiction].
Qed.

End StringFacts.

(** ** The identity of a listing entry *)

Section LinkFacts.
Implicit Types (ts : list pystr) (q y z base : pystr).

Lemma suffix_cases (P : pystr -> Prop) :
  P (lit "-fund") -> P (lit "-direct") -> P (lit "-growth") ->
  P (lit "-plan") -> P (lit "-scheme") ->
  forall t, In t suffixes -> P t.
Proof.
  intros P1 P2 P3 P4 P5 t H.
  destruct H as [<-|[<-|[<-|[<-|[<-|[]]]]]]; assumption.
Qed.

Ltac each_suffix t Ht :=
  pattern t; revert t Ht; apply suffix_cases.

Lemma tail_like_cases y :
  tail_like y = true ->
  y = [] \/ exists r, y = "-"%char :: r \/ y = "?"%char :: r.
Proof.
  destruct y as [|c r]; [now left|]. simpl. intros H. right. exists r.
  apply orb_prop in H. destruct H as [H|H]; apply Ascii.eqb_eq in H; subst; auto.
Qed.

Lemma cosmetic_tail_like ts q :
  cosmetic ts -> query_like q = true -> tail_like (List.concat ts ++ q) = true.
Proof.
  intros C Q. destruct C as [|t ts Ht _].
  - destruct q as [|c q]; [reflexivity|]. simpl in *. rewrite Q. apply orb_true_r.
  - each_suffix t Ht; reflexivity.
Qed.

Lemma cosmetic_filter ts f : cosmetic ts -> cosmetic (filter f ts).
Proof.
  unfold cosmetic. rewrite !Forall_forall. intros H t Ht.
  apply filter_In in Ht. now apply H.
Qed.

Lemma cosmetic_no_query ts : cosmetic ts -> ~ In "?"%char (List.concat ts).
Proof.
  induction 1 as [|t ts Ht _ IH]; [intros []|].
  simpl. intros X. apply in_app_or in X. destruct X as [X|X]; [|now apply IH].
  revert X. each_suffix t Ht; intros X; vm_compute in X;
    repeat (destruct X as [X|X]; [discriminate|]); exact X.
Qed.

Lemma suffix_no_straddle t y :
  In t suffixes -> tail_like y = true -> no_straddle t y = true.
Proof.
  intros Ht Hy. apply tail_like_cases in Hy.
  destruct Hy as [->|(r & [->| ->])]; each_suffix t Ht; reflexivity.
Qed.

Lemma sep_no_straddle ts q :
  cosmetic ts -> query_like q = true ->
  no_straddle "mutual-funds/" (List.concat ts ++ q) = true.
Proof.
  intros C Q. destruct C as [|t ts Ht Hts].
  - destruct q as [|c q]; [reflexivity|]. simpl in Q.
    apply Ascii.eqb_eq in Q. subst c. reflexivity.
  - pose proof (cosmetic_tail_like ts q Hts Q) as T.
    apply tail_like_cases in T.
    change (List.concat (t :: ts) ++ q) with ((t ++ List.concat ts) ++ q).
    rewrite <- app_assoc.
    destruct T as [->|(r & [->| ->])]; each_suffix t Ht; reflexivity.
Qed.

Lemma sep_not_inside ts q :
  cosmetic ts ->
  contains "mutual-funds/" q = false ->
  contains "mutual-funds/" (List.concat ts ++ q) = false.
Proof.
  intros C Q. induction C as [|t ts Ht _ IH]; [exact Q|].
  change (List.concat (t :: ts) ++ q) with ((t ++ List.concat ts) ++ q).
  rewrite <- app_assoc.
  each_suffix t Ht; vm_compute; exact IH.
Qed.

Lemma replace_suffix_token p t :
  In p suffixes -> In t suffixes ->
  replace p "" t = if str_eqb t p then [] else t.
Proof.
  intros Hp Ht. each_suffix p Hp; each_suffix t Ht; reflexivity.
Qed.

Lemma replace_suffix_run p ts :
  In p suffixes -> cosmetic ts ->
  replace p "" (List.concat ts)
    = List.concat (filter (fun t => negb (str_eqb t p)) ts).
Proof.
  intros Hp C. induction C as [|t ts Ht Hts IH].
  - simpl. each_suffix p Hp; reflexivity.
  - cbn [List.concat filter].
    rewrite replace_app
      by (apply suffix_no_straddle; [exact Hp|]; rewrite <- (app_nil_r (List.concat ts));
          now apply cosmetic_tail_like).
    rewrite IH, (replace_suffix_token p t Hp Ht).
    destruct (str_eqb t p); reflexivity.
Qed.

Lemma replace_suffix_pass p z ts :
  In p suffixes -> cosmetic ts ->
  replace p "" (z ++ List.concat ts)
    = replace p "" z ++ List.concat (filter (fun t => negb (str_eqb t p)) ts).
Proof.
  intros Hp C.
  rewrite replace_app
    by (apply suffix_no_straddle; [exact Hp|]; rewrite <- (app_nil_r (List.concat ts));
        now apply cosmetic_tail_like).
  now rewrite replace_suffix_run.
Qed.

Lemma all_suffixes_filtered ts :
  cosmetic ts ->
  filter (fun t => negb (str_eqb t "-scheme"))
    (filter (fun t => negb (str_eqb t "-plan"))
      (filter (fun t => negb (str_eqb t "-growth"))
        (filter (fun t => negb (str_eqb t "-direct"))
          (filter (fun t => negb (str_eqb t "-fund")) ts)))) = [].
Proof.
  induction 1 as [|t ts Ht _ IH]; [reflexivity|].
  each_suffix t Ht; exact IH.
Qed.

Lemma strip_suffixes_cosmetic z ts :
  cosmetic ts -> strip_suffixes (z ++ List.concat ts) = strip_suffixes z.
Proof.
  intros C. unfold strip_suffixes, suffixes. cbn [fold_left].
  rewrite (replace_suffix_pass "-fund" z ts) by (simpl; auto 6).
  rewrite replace_suffix_pass by (simpl; auto 6 using cosmetic_filter).
  rewrite replace_suffix_pass by (simpl; auto 7 using cosmetic_filter).
  rewrite replace_suffix_pass by (simpl; auto 8 using cosmetic_filter).
  rewrite replace_suffix_pass by (simpl; auto 9 using cosmetic_filter).
  rewrite all_suffixes_filtered by exact C.
  simpl. now rewrite app_nil_r.
Qed.

Lemma normalize_link_cosmetic base ts q :
  cosmetic ts -> query_like q = true ->
  contains "mutual-funds/" q = false ->
  normalize_link (base ++ List.concat ts ++ q) = normalize_link base.
Proof.
  intros C Q N. unfold normalize_link.
  assert (E : last (split "mutual-funds/" (base ++ List.concat ts ++ q)) []
              = last (split "mutual-funds/" base) [] ++ List.concat ts ++ q).
  { change (split "mutual-funds/" (base ++ List.concat ts ++ q))
      with (split_from 0 "mutual-funds/" [] (base ++ List.concat ts ++ q)).
    change (split "mutual-funds/" base)
      with (split_from 0 "mutual-funds/" [] base).
    apply last_split_app; [now apply sep_no_straddle|now apply sep_not_inside|lia]. }
  rewrite E. set (z := last (split "mutual-funds/" base) []).
  change (split "?" (z ++ List.concat ts ++ q))
    with (split_from 0 "?" [] (z ++ List.concat ts ++ q)).
  change (split "?" z) with (split_from 0 "?" [] z).
  destruct (first_query_mark z) as [H|(z1 & z2 & -> & H)].
  - rewrite app_assoc, hd_split_query; [|
      intros X; apply in_app_or in X; destruct X as [X|X];
        [now apply H|now apply (cosmetic_no_query ts)] | exact Q].
    rewrite <- (app_nil_r z) at 2. rewrite hd_split_query by auto.
    simpl. now rewrite strip_suffixes_cosmetic.
  - rewrite <- app_assoc. rewrite !hd_split_query by auto. reflexivity.
Qed.

End LinkFacts.

(** ** Deduplication in the discovery loop *)

Section Dedup.

Lemma key_eqb_eq (a b : key) : key_eqb a b = true <-> a = b.
Proof.
  destruct a as [a1 a2], b as [b1 b2]. unfold key_eqb. simpl.
  rewrite andb_true_iff, !str_eqb_eq. split; [intros [-> ->]|intros [= -> ->]]; auto.
Qed.

Lemma seen_before_in k seen : seen_before k seen = true <-> In k seen.
Proof.
  unfold seen_before. rewrite existsb_exists. split.
  - intros (x & I & E). apply key_eqb_eq in E. now subst.
  - intros I. exists k. split; [exact I|now apply key_eqb_eq].
Qed.

Lemma add_funds_keeps_keys_apart : forall funds_data seen all_funds seen' all_funds',
  NoDup (map key_of all_funds) ->
  (forall f, In f all_funds -> In (key_of f) seen) ->
  add_funds funds_data seen all_funds = (seen', all_funds') ->
  NoDup (map key_of all_funds') /\
  (forall f, In f all_funds' -> In (key_of f) seen').
Proof.
  induction funds_data as [|f rest IH]; intros seen all_funds seen' all_funds' N S E.
  - cbn [add_funds] in E. injection E as <- <-. now split.
  - cbn [add_funds] in E. destruct (seen_before (key_of f) seen) eqn:B; [now apply (IH _ _ _ _ N S)|].
    assert (N' : NoDup (map key_of (all_funds ++ [f]))).
    { rewrite map_app. apply NoDup_app; [exact N|repeat constructor; intros []|].
      intros k Hk [<-|[]]. apply in_map_iff in Hk. destruct Hk as (g & Eg & Hg).
      apply S, seen_before_in in Hg. congruence. }
    assert (S' : forall g, In g (all_funds ++ [f]) -> In (key_of g) (key_of f :: seen)).
    { intros g Hg. apply in_app_or in Hg. destruct Hg as [Hg|[<-|[]]].
      - right. now apply S.
      - now left. }
    destruct (MAX_FUNDS <=? List.length (all_funds ++ [f]))%nat.
    + injection E as <- <-. now split.
    + now apply (IH _ _ _ _ N' S').
Qed.

Section Loop.
Context {F : Type} {PF : PyFloat F}.

Lemma discover_keeps_keys_apart (w : world (F:=F)) :
  forall fuel page_no seen all_funds st funds,
    NoDup (map key_of all_funds) ->
    (forall f, In f all_funds -> In (key_of f) seen) ->
    fst (discover fuel page_no seen all_funds w st) = Ok (Some funds) ->
    NoDup (map key_of funds).
Proof.
  induction fuel as [|fuel IH]; intros page_no seen all_funds st funds N S E.
  - discriminate E.
  - cbn [discover] in E.
    destruct (List.length all_funds <? MAX_FUNDS)%nat;
      [|unfold ret in E; cbn [fst] in E; injection E as <-; exact N].
    unfold bind at 1 in E.
    destruct (extract_fund_overview page_no w st) as [[funds_data|e] st1];
      [|discriminate E].
    destruct (is_nil funds_data);
      [unfold ret in E; cbn [fst] in E; injection E as <-; exact N|].
    destruct (add_funds funds_data seen all_funds) as [seen' all'] eqn:A.
    destruct (add_funds_keeps_keys_apart _ _ _ _ _ N S A) as [N' S'].
    unfold bind, sleep in E. now apply (IH _ _ _ _ _ N' S' E).
Qed.

End Loop.

(** X29: where deduplication works: two listing entries with the same
    trimmed name whose links are one address followed by removable
    suffixes and, maybe, by a query string that does not contain
    'mutual-funds/' have the same identity; the loop keeps the first and
    skips the second; and no two funds that discovery returns share an
    identity. *)
Theorem cosmetic_duplicates_collapse (f1 f2 : fund) base ts1 ts2 q1 q2 :
  strip (name f1) = strip (name f2) ->
  link f1 = base ++ List.concat ts1 ++ q1 ->
  link f2 = base ++ List.concat ts2 ++ q2 ->
  cosmetic ts1 -> cosmetic ts2 ->
  query_like q1 = true -> query_like q2 = true ->
  contains "mutual-funds/" q1 = false ->
  contains "mutual-funds/" q2 = false ->
  key_of f1 = key_of f2 /\
  (forall seen all_funds rest,
     seen_before (key_of f1) seen = false ->
     (S (List.length all_funds) < MAX_FUNDS)%nat ->
     add_funds (f1 :: f2 :: rest) seen all_funds
       = add_funds rest (key_of f1 :: seen) (all_funds ++ [f1])) /\
  (forall (F : Type) (PF : PyFloat F) (w : world (F:=F)) st fuel funds,
     fst (discover fuel 0 [] [] w st) = Ok (Some funds) ->
     NoDup (map key_of funds)).
Proof.
  intros Hn L1 L2 C1 C2 Q1 Q2 N1 N2.
  assert (K : key_of f1 = key_of f2).
  { unfold key_of. rewrite Hn, L1, L2.
    now rewrite !normalize_link_cosmetic. }
  split; [exact K|]. split.
  - intros seen all_funds rest B Hlen.
    cbn [add_funds]. rewrite B.
    assert (M : (MAX_FUNDS <=? List.length (all_funds ++ [f1]))%nat = false).
    { apply Nat.leb_gt. rewrite length_app. simpl. lia. }
    rewrite M, <- K.
    assert (B' : seen_before (key_of f1) (key_of f1 :: seen) = true).
    { apply seen_before_in. now left. }
    now rewrite B'.
  - intros F PF w st fuel funds E.
    apply (discover_keeps_keys_apart w fuel 0%nat [] [] st funds);
      [constructor|intros f []|exact E].
Qed.

End Dedup.

(** C7: the code misses what [normalize_link] is written for.  Two
    entries named Fund A whose links differ only by the query string
    [?ref=mutual-funds/xyz] should have one identity and give one
    summary; the link is cut at [mutual-funds/] before it is cut at [?],
    so the slugs are [abc] and [xyz], and discovery returns both. *)
Lemma query_with_path_defeats_deduplication :
  let first := listed "Fund A" plain_link in
  let second := listed "Fund A" tagged_link in
  let page := listing_doc [listing_card " Fund A " plain_link;
                           listing_card "Fund A" tagged_link] in
  tagged_link = plain_link ++ lit "?ref=mutual-funds/xyz" /\
  normalize_link plain_link = lit "abc" /\
  normalize_link tagged_link = lit "xyz" /\
  fst (discover 3 0 [] [] (listing_once (F:=b64) page) started)
    = Ok (Some [first; second]).
Proof. cbv zeta. repeat split; vm_compute; reflexivity. Qed.

(** The two links of the specification: suffixes on one, a query string
    on the other. *)
Lemma cosmetic_duplicates_witness :
  let first := listed "Fund A" suffixed_link in
  let second := listed "Fund A" queried_link in
  key_of first = key_of second /\
  (forall seen all_funds rest,
     seen_before (key_of first) seen = false ->
     (S (List.length all_funds) < MAX_FUNDS)%nat ->
     add_funds (first :: second :: rest) seen all_funds
       = add_funds rest (key_of first :: seen) (all_funds ++ [first])) /\
  (forall (F : Type) (PF : PyFloat F) (w : world (F:=F)) st fuel funds,
     fst (discover fuel 0 [] [] w st) = Ok (Some funds) ->
     NoDup (map key_of funds)).
Proof.
  cbv zeta.
  apply (cosmetic_duplicates_collapse
           (listed "Fund A" suffixed_link) (listed "Fund A" queried_link)
           plain_link [lit "-direct"; lit "-growth"] [] [] (lit "?utm=1"));
    try reflexivity.
  - constructor; [right; left; reflexivity|].
    constructor; [right; right; left; reflexivity|constructor].
  - constructor.
Defined.

(** The listing of the specification: the suffixed and the queried link
    of one fund give one summary, the first. *)
Example one_summary_for_two_links :
  let page := listing_doc [listing_card "Fund A" suffixed_link;
                           listing_card "Fund A" queried_link] in
  fst (discover 3 0 [] [] (listing_once (F:=b64) page) started)
    = Ok (Some [listed "Fund A" suffixed_link]).
Proof. vm_compute. reflexivity. Qed.

(** * More of the scraper *)

(** ** The listing *)

Section ListingFacts.

Lemma pad_returns_length (l : list pystr) :
  (List.length l <= 3)%nat -> List.length (pad_returns l) = 3%nat.
Proof.
  intros H. unfold pad_returns. rewrite length_app, repeat_length. lia.
Qed.

Lemma card_fund_well_formed (c : card) (f : fund) :
  In f (card_fund c) -> well_formed_fund f.
Proof.
  unfold card_fund. destruct (card_parent c) as [parent|]; [|intros []].
  set (l0 := match href parent with Some l => l | None => [] end).
  set (l1 := if negb (is_nil l0) && negb (startswith "http" l0)
             then lit "https://groww.in" ++ l0 else l0).
  assert (R : List.length (pad_returns (map strip (firstn 3 (return_elements parent))))
              = 3%nat).
  { apply pad_returns_length. rewrite length_map, length_firstn. lia. }
  set (rs := pad_returns (map strip (firstn 3 (return_elements parent)))) in *.
  destruct (is_nil (strip (card_text c))) eqn:En; [intros []|].
  destruct (is_nil l1) eqn:El; [intros []|].
  cbn [negb andb In]. intros [<-|[]]. unfold well_formed_fund.
  cbn [name link returns].
  split; [|split; [|exact R]].
  - intros E. now rewrite E in En.
  - unfold l1 in *. destruct (is_nil l0) eqn:E0.
    + simpl in El. congruence.
    + cbn [negb andb]. destruct (startswith "http" l0) eqn:Eh; [exact Eh|].
      reflexivity.
Qed.

Lemma add_funds_first_seen : forall funds_data seen all_funds,
  (List.length all_funds < MAX_FUNDS)%nat ->
  let new := firstn (MAX_FUNDS - List.length all_funds)
                    (first_seen seen funds_data) in
  add_funds funds_data seen all_funds
    = (rev (map key_of new) ++ seen, all_funds ++ new).
Proof.
  induction funds_data as [|f rest IH]; intros seen all_funds Hlen new.
  - unfold new. cbn [first_seen add_funds]. rewrite firstn_nil. simpl.
    now rewrite app_nil_r.
  - unfold new. cbn [first_seen add_funds].
    destruct (seen_before (key_of f) seen) eqn:B; [now apply IH|].
    destruct (MAX_FUNDS - List.length all_funds)%nat as [|n] eqn:En; [lia|].
    cbn [firstn map rev].
    destruct (MAX_FUNDS <=? List.length (all_funds ++ [f]))%nat eqn:M.
    + apply Nat.leb_le in M. rewrite length_app in M.
      cbn [Datatypes.length] in M.
      assert (n = 0%nat) by lia. subst n. reflexivity.
    + apply Nat.leb_gt in M.
      rewrite IH by exact M.
      rewrite length_app in M |- *. cbn [Datatypes.length] in M |- *.
      replace (MAX_FUNDS - (List.length all_funds + 1))%nat with n by lia.
      rewrite <- !app_assoc. reflexivity.
Qed.

Lemma add_funds_bound funds_data seen all_funds :
  (List.length all_funds < MAX_FUNDS)%nat ->
  (List.length (snd (add_funds funds_data seen all_funds)) <= MAX_FUNDS)%nat.
Proof.
  intros H. rewrite add_funds_first_seen by exact H.
  cbn [snd]. rewrite length_app, length_firstn. lia.
Qed.

Lemma first_seen_incl seen funds_data f :
  In f (first_seen seen funds_data) -> In f funds_data.
Proof.
  revert seen. induction funds_data as [|g rest IH]; intros seen; simpl; [auto|].
  destruct (seen_before (key_of g) seen).
  - intros H. right. now apply (IH seen).
  - intros [<-|H]; [now left|right; now apply (IH (key_of g :: seen))].
Qed.

Lemma in_firstn {A} n (l : list A) a : In a (firstn n l) -> In a l.
Proof.
  revert l. induction n as [|n IH]; intros [|b l]; simpl; try (intros []).
  - now left.
  - right. now apply IH.
Qed.

Lemma add_funds_from_listing funds_data seen all_funds f :
  (List.length all_funds < MAX_FUNDS)%nat ->
  In f (snd (add_funds funds_data seen all_funds)) ->
  In f all_funds \/ In f funds_data.
Proof.
  intros H. rewrite add_funds_first_seen by exact H. cbn [snd].
  intros I. apply in_app_or in I. destruct I as [I|I]; [now left|right].
  eapply first_seen_incl, in_firstn, I.
Qed.

Section Loop.
Context {F : Type} {PF : PyFloat F}.
Implicit Types (w : world (F:=F)) (st : state).

Lemma overview_well_formed w st page_no funds_data :
  fst (extract_fund_overview page_no w st) = Ok funds_data ->
  Forall well_formed_fund funds_data.
Proof.
  unfold extract_fund_overview, bind.
  destruct (fetch_page (BASE_URL page_no) w st) as [[[doc|]|e] st1]; simpl.
  - destruct (is_nil (fund_cards doc)); simpl; intros [= <-]; [constructor|].
    apply Forall_forall. intros f Hf. apply in_flat_map in Hf.
    destruct Hf as (c & _ & Hf). now apply (card_fund_well_formed c).
  - intros [= <-]. constructor.
  - discriminate.
Qed.

Lemma discover_invariant w (P : list fund -> Prop) :
  (forall page_no st funds_data seen all_funds,
     fst (extract_fund_overview page_no w st) = Ok funds_data ->
     (List.length all_funds < MAX_FUNDS)%nat ->
     P all_funds -> P (snd (add_funds funds_data seen all_funds))) ->
  forall fuel page_no seen all_funds st funds,
    P all_funds ->
    fst (discover fuel page_no seen all_funds w st) = Ok (Some funds) ->
    P funds.
Proof.
  intros Step. induction fuel as [|fuel IH]; intros page_no seen all_funds st funds HP E.
  - discriminate E.
  - cbn [discover] in E.
    destruct (List.length all_funds <? MAX_FUNDS)%nat eqn:Hlen;
      [|unfold ret in E; cbn [fst] in E; injection E as <-; exact HP].
    apply Nat.ltb_lt in Hlen.
    unfold bind at 1 in E.
    destruct (extract_fund_overview page_no w st) as [[funds_data|e] st1] eqn:O;
      [|discriminate E].
    destruct (is_nil funds_data);
      [unfold ret in E; cbn [fst] in E; injection E as <-; exact HP|].
    pose proof (Step page_no st funds_data seen all_funds) as S1.
    rewrite O in S1. specialize (S1 eq_refl Hlen HP).
    destruct (add_funds funds_data seen all_funds) as [seen' all'].
    unfold bind, sleep in E. now apply (IH _ _ _ _ _ S1 E).
Qed.

Lemma discover_bound w st fuel funds :
  fst (discover fuel 0 [] [] w st) = Ok (Some funds) ->
  (List.length funds <= MAX_FUNDS)%nat.
Proof.
  apply (discover_invariant w (fun l => (List.length l <= MAX_FUNDS)%nat)).
  - intros page_no st0 funds_data seen all_funds _ Hlen _.
    now apply add_funds_bound.
  - simpl. lia.
Qed.

(** X1: discovery never returns more than [MAX_FUNDS] funds. *)
Theorem discover_returns_at_most_max_funds w st fuel funds :
  fst (discover fuel 0 [] [] w st) = Ok (Some funds) ->
  (List.length funds <= MAX_FUNDS)%nat.
Proof. apply discover_bound. Qed.

(** X3: every fund that discovery returns has a name that is not empty,
    a link that starts with [http] and exactly three returns. *)
Theorem discovered_funds_are_well_formed w st fuel funds :
  fst (discover fuel 0 [] [] w st) = Ok (Some funds) ->
  Forall well_formed_fund funds.
Proof.
  apply (discover_invariant w (Forall well_formed_fund)).
  - intros page_no st0 funds_data seen all_funds O Hlen HP.
    apply overview_well_formed in O.
    rewrite Forall_forall in *. intros f Hf.
    destruct (add_funds_from_listing _ _ _ _ Hlen Hf); auto.
  - constructor.
Qed.

End Loop.

(** X2: with room left, the loop over a page appends, in their order, the
    entries whose identity was not met before, each identity once, up to
    the room that is left, and records their identities. *)
Theorem add_funds_appends_first_seen funds_data seen all_funds :
  (List.length all_funds < MAX_FUNDS)%nat ->
  add_funds funds_data seen all_funds
    = (rev (map key_of (firstn (MAX_FUNDS - List.length all_funds)
                               (first_seen seen funds_data))) ++ seen,
       all_funds ++ firstn (MAX_FUNDS - List.length all_funds)
                           (first_seen seen funds_data)).
Proof. intros H. now apply add_funds_first_seen. Qed.

End ListingFacts.

(** ** Per-fund lookups *)

Section LookupFacts.
Context {F : Type} {PF : PyFloat F}.
Implicit Types (w : world (F:=F)) (st : state).

Lemma row_holding_length (cols : list td) :
  (List.length (row_holding (F:=F) cols) <= 1)%nat.
Proof.
  unfold row_holding. destruct cols as [|c0 [|c1 [|c2 [|c3 more]]]]; simpl; lia.
Qed.

Lemma flat_map_row_holding_length (rows : list (list td)) :
  (List.length (flat_map (row_holding (F:=F)) rows) <= List.length rows)%nat.
Proof.
  induction rows as [|r rows IH]; simpl; [lia|].
  rewrite length_app. pose proof (row_holding_length r). lia.
Qed.

Lemma table_rows_length (table : holdings_table) :
  (List.length (table_rows table) <= 5)%nat.
Proof.
  unfold table_rows. destruct (tbody table); rewrite length_firstn; lia.
Qed.

(** X4: the holdings of a fund are at most five, whatever the table of
    its page holds. *)
Theorem at_most_five_top_holdings w st code fund_link top_holdings :
  fst (extract_top_holdings code fund_link w st) = Ok top_holdings ->
  (List.length top_holdings <= 5)%nat.
Proof.
  unfold extract_top_holdings.
  destruct (no_code code || is_nil fund_link); [intros [= <-]; simpl; lia|].
  unfold bind.
  destruct (fetch_page fund_link w st) as [[[doc|]|e] st1]; simpl;
    [|intros [= <-]; simpl; lia|discriminate].
  destruct (holdings101Table doc) as [table|]; simpl;
    [|intros [= <-]; simpl; lia].
  intros [= <-].
  pose proof (flat_map_row_holding_length (table_rows table)).
  pose proof (table_rows_length table). lia.
Qed.

Lemma traverse_in {A B} (f : A -> option B) (l : list A) (l' : list B) :
  traverse f l = Some l' ->
  forall b, In b l' -> exists a, In a l /\ f a = Some b.
Proof.
  revert l'. induction l as [|a l IH]; intros l'; simpl.
  - intros [= <-] b [].
  - destruct (f a) as [b0|] eqn:Ea; [|discriminate].
    destruct (traverse f l) as [bs|]; [|discriminate].
    intros [= <-] b [<-|Hb].
    + exists a. auto.
    + destruct (IH bs eq_refl b Hb) as (a' & Ia & Ea'). exists a'. auto.
Qed.

Lemma traverse_length {A B} (f : A -> option B) (l : list A) (l' : list B) :
  traverse f l = Some l' -> List.length l' = List.length l.
Proof.
  revert l'. induction l as [|a l IH]; intros l'; simpl.
  - now intros [= <-].
  - destruct (f a); [|discriminate].
    destruct (traverse f l) as [bs|]; [|discriminate].
    intros [= <-]. simpl. now rewrite (IH bs).
Qed.

(** X5: every NAV that the bulk-feed fallback returns is dated inside
    the window asked for, and they are no more than the rows of the
    feed that carry the scheme code. *)
Theorem amfi_navs_lie_in_the_window w st code start_date end_date navs :
  fst (fetch_amfi_nav code start_date end_date w st) = Ok navs ->
  (forall p, In p navs ->
     str_leb start_date (date p) = true /\ str_leb (date p) end_date = true) /\
  (forall df wanted,
     csv_at w (clock st) amfi_url = Ok df ->
     match code with Some s => int_of_str s | None => None end = Some wanted ->
     (List.length navs <= List.length (filter (code_is wanted) df))%nat).
Proof.
  unfold fetch_amfi_nav. unfold bind at 1. unfold attempt.
  unfold bind at 1. unfold request.
  destruct (csv_at w (clock st) amfi_url) as [df|e] eqn:Ecsv.
  2:{ destruct (existsb _ _); simpl.
      - intros [= <-]. split; [intros p []|]. discriminate.
      - discriminate. }
  unfold bind at 1.
  destruct (match code with Some s => int_of_str s | None => None end)
    as [wanted|] eqn:Ecode; cbn [of_option ret raise].
  2:{ simpl. intros [= <-]. split; [intros p []|]. intros df' wanted' _ X.
      discriminate X. }
  unfold bind at 1.
  destruct (traverse _ (filter (code_is wanted) df)) as [dated|] eqn:Ed;
    cbn [of_option ret raise].
  2:{ simpl. intros [= <-]. split; [intros p []|]. simpl. lia. }
  destruct (traverse _ (filter _ dated)) as [formatted|] eqn:Ef;
    cbn [of_option ret raise].
  2:{ simpl. intros [= <-]. split; [intros p []|]. simpl. lia. }
  simpl. intros [= <-]. split.
  - intros p Hp.
    destruct (traverse_in _ _ _ Ef p Hp) as (r & Hr & Er).
    apply filter_In in Hr. destruct Hr as [_ Hw].
    apply andb_prop in Hw.
    destruct (float_of_str (snd r)); [|discriminate].
    injection Er as <-. exact Hw.
  - intros df' wanted' [= <-] [= <-].
    rewrite (traverse_length _ _ _ Ef).
    rewrite <- (traverse_length _ _ _ Ed).
    apply filter_length_le.
Qed.

(** X6: the fallback degrades to the empty list: when the download
    fails with one of the errors it handles, and when the scheme code is
    not an integer, it returns no NAV and does not raise. *)
Theorem amfi_fallback_degrades_to_empty w st code start_date end_date :
  (forall e, In e [EmptyDataError; RequestException; ValueError] ->
     csv_at w (clock st) amfi_url = Raise e ->
     fst (fetch_amfi_nav code start_date end_date w st) = Ok []) /\
  (forall df,
     csv_at w (clock st) amfi_url = Ok df ->
     match code with Some s => int_of_str s | None => None end = None ->
     fst (fetch_amfi_nav code start_date end_date w st) = Ok []).
Proof.
  split.
  - intros e He H. unfold fetch_amfi_nav. unfold bind at 1. unfold attempt.
    unfold bind at 1. unfold request. rewrite H.
    assert (C : existsb (exn_eqb e) [EmptyDataError; RequestException; ValueError]
                = true).
    { destruct He as [<-|[<-|[<-|[]]]]; reflexivity. }
    rewrite C. reflexivity.
  - intros df H Hc. unfold fetch_amfi_nav. unfold bind at 1. unfold attempt.
    unfold bind at 1. unfold request. rewrite H.
    unfold bind at 1. rewrite Hc. reflexivity.
Qed.

End LookupFacts.

(** ** The NAV series and the retry loop *)

Section SeriesFacts.
Context {F : Type} {PF : PyFloat F}.
Implicit Types (w : world (F:=F)) (st : state).

Lemma format_entry_outcome w st ts v :
  snd (format_entry ts v w st) = st /\
  forall e, fst (format_entry ts v w st) = Raise e ->
    e = ValueError \/ e = TypeError \/
    exists t, utcfromtimestamp w t = Raise e.
Proof.
  unfold format_entry, bind. cbn beta.
  destruct (float_of_jvalue v) as [x|e0] eqn:Ev.
  2:{ cbn [fst snd]. split; [reflexivity|]. intros e [= <-].
      destruct v as [x|s|]; simpl in Ev; try discriminate.
      - destruct (float_of_str s); [discriminate|]. injection Ev as <-. auto.
      - injection Ev as <-. auto. }
  destruct ts as [t|s|]; unfold ret, raise; cbn beta iota.
  - destruct (utcfromtimestamp w (fdiv t (of_Z 1000))) as [d|e0] eqn:Eu;
      cbn [fst snd].
    + split; [reflexivity|discriminate].
    + split; [reflexivity|]. intros e [= <-]. right. right. eauto.
  - cbn [fst snd]. split; [reflexivity|]. intros e [= <-]. auto.
  - cbn [fst snd]. split; [reflexivity|]. intros e [= <-]. auto.
Qed.

Lemma format_entries_pair w st ts v rest :
  format_entries (NavPair ts v :: rest) w st =
    match format_entry ts v w st with
    | (Ok p, st1) =>
        match format_entries rest w st1 with
        | (Ok formatted, st2) => (Ok (p :: formatted), st2)
        | (Raise e, st2) => (Raise e, st2)
        end
    | (Raise e, st1) =>
        if existsb (exn_eqb e) [ValueError; TypeError]
        then format_entries rest w st1
        else (Raise e, st1)
    end.
Proof.
  cbn [format_entries]. unfold bind, attempt, ret.
  destruct (format_entry ts v w st) as [[p|e] st1].
  - destruct (format_entries rest w st1) as [[formatted|e'] st2]; reflexivity.
  - destruct (existsb (exn_eqb e) [ValueError; TypeError]); [|reflexivity].
    destruct (format_entries rest w st1) as [[formatted|e'] st2]; reflexivity.
Qed.

Lemma format_entries_outcome w st : forall nav_data,
  snd (format_entries nav_data w st) = st /\
  (forall navs, fst (format_entries nav_data w st) = Ok navs ->
     (List.length navs <= List.length nav_data)%nat) /\
  (forall e, fst (format_entries nav_data w st) = Raise e ->
     e <> ValueError /\ e <> TypeError /\
     exists t, utcfromtimestamp w t = Raise e).
Proof.
  induction nav_data as [|entry rest IH].
  - simpl. split; [reflexivity|]. split; [intros navs [= <-]; simpl; lia|discriminate].
  - destruct IH as (Is & Il & Ie).
    destruct entry as [ts v|].
    2:{ cbn [format_entries]. split; [exact Is|]. split; [|exact Ie].
        intros navs H. specialize (Il navs H). simpl. lia. }
    rewrite format_entries_pair.
    destruct (format_entry_outcome w st ts v) as (Fs & Fe).
    destruct (format_entry ts v w st) as [[p|e0] st1]; cbn [fst snd] in *; subst st1.
    + destruct (format_entries rest w st) as [[formatted|e1] st2];
        cbn [fst snd] in *; subst st2.
      * split; [reflexivity|]. split; [|discriminate].
        intros navs [= <-]. specialize (Il formatted eq_refl). simpl. lia.
      * split; [reflexivity|]. split; [discriminate|]. exact Ie.
    + destruct (existsb (exn_eqb e0) [ValueError; TypeError]) eqn:C.
      * split; [exact Is|]. split; [|exact Ie].
        intros navs H. specialize (Il navs H). simpl. lia.
      * cbn [fst snd]. split; [reflexivity|]. split; [discriminate|].
        intros e [= <-].
        destruct (Fe e0 eq_refl) as [->|[->|X]]; try discriminate C.
        split; [intros ->; discriminate C|].
        split; [intros ->; discriminate C|exact X].
Qed.

(** X7: once the graph endpoint has answered, whatever it answered, the
    bulk feed is not read: the one request is all the function does.
    Entries that are not well-formed pairs are dropped, so the series is
    no longer than the list received.  (The date conversion is taken to
    raise no key or request error.) *)
Theorem answered_primary_call_is_final w st code months data :
  no_code code = false ->
  nav_json_at w (clock st) (nav_url code months) = Ok data ->
  (forall t e, utcfromtimestamp w t = Raise e ->
     e <> KeyError /\ e <> RequestException) ->
  snd (extract_historical_nav code months w st)
    = {| clock := S (clock st);
         trace := trace st ++ [Get (nav_url code months)] |} /\
  forall navs, fst (extract_historical_nav code months w st) = Ok navs ->
    (List.length navs <= List.length (folio_data data))%nat.
Proof.
  intros Hc H Hu.
  set (st1 := {| clock := S (clock st);
                 trace := trace st ++ [Get (nav_url code months)] |}).
  assert (E : extract_historical_nav code months w st =
              match (if is_nil (folio_data data) then (Ok [], st1)
                     else format_entries (folio_data data) w st1) with
              | (Ok navs, st2) => (Ok navs, st2)
              | (Raise e, st2) =>
                  if existsb (exn_eqb e) [RequestException; ValueError; KeyError]
                  then fetch_amfi_nav code default_start_date default_end_date w st2
                  else (Raise e, st2)
              end).
  { unfold extract_historical_nav. rewrite Hc.
    unfold bind, attempt, request, ret. rewrite H. fold st1.
    destruct (is_nil (folio_data data)); [reflexivity|].
    destruct (format_entries (folio_data data) w st1) as [[navs|e] st2];
      [reflexivity|].
    destruct (existsb (exn_eqb e) [RequestException; ValueError; KeyError]);
      reflexivity. }
  rewrite E. clear E.
  destruct (is_nil (folio_data data)) eqn:En.
  - cbn [fst snd]. split; [reflexivity|].
    intros navs [= <-]. simpl. lia.
  - destruct (format_entries_outcome w st1 (folio_data data)) as (Fs & Fl & Fe).
    destruct (format_entries (folio_data data) w st1) as [[formatted|e] st2];
      cbn [fst snd] in *; subst st2.
    + split; [reflexivity|]. intros navs [= <-]. now apply Fl.
    + destruct (Fe e eq_refl) as (N1 & N2 & t & Et).
      destruct (Hu t e Et) as (N3 & N4).
      assert (C : existsb (exn_eqb e) [RequestException; ValueError; KeyError]
                  = false).
      { destruct e; try reflexivity; congruence. }
      rewrite C. cbn [fst snd]. split; [reflexivity|discriminate].
Qed.

Lemma retried_attempts_run w code fund_type retry_delay data :
  forall k left st,
    (k < left)%nat ->
    (forall i, (i < k)%nat ->
       exists e, In e [ValueError; KeyError; RequestException] /\
                 stats_json_at w (clock st + i) (stats_url code) = Raise e) ->
    stats_json_at w (clock st + k) (stats_url code) = Ok data ->
    stats_attempts code fund_type retry_delay left w st =
      (Ok (Some (stats_of_response fund_type data)),
       {| clock := clock st + S k;
          trace := trace st
                   ++ List.concat (repeat [Get (stats_url code); Sleep retry_delay] k)
                   ++ [Get (stats_url code); Sleep 1] |}).
Proof.
  induction k as [|k IH]; intros left st Hk Hfail Hok.
  - destruct left as [|rest]; [lia|].
    rewrite Nat.add_0_r in Hok.
    cbn [stats_attempts]. unfold bind, attempt, request, sleep, ret. rewrite Hok.
    cbn [clock trace repeat List.concat app]. f_equal. f_equal; [lia|].
    now rewrite <- app_assoc.
  - destruct left as [|[|rest]]; [lia|lia|].
    destruct (Hfail 0%nat) as (e & He & Hr); [lia|].
    rewrite Nat.add_0_r in Hr.
    change (stats_attempts code fund_type retry_delay (S (S rest)) w st)
      with (bind (attempt [ValueError; KeyError; RequestException]
                    (bind (request (Get (stats_url code))
                             (fun w n => stats_json_at w n (stats_url code)))
                       (fun data =>
                          bind (sleep 1) (fun _ =>
                          ret (stats_of_response fund_type data)))))
              (fun r =>
                 match r with
                 | Some stats => ret (Some stats)
                 | None =>
                     bind (sleep retry_delay) (fun _ =>
                     stats_attempts code fund_type retry_delay (S rest))
                 end) w st).
    unfold bind at 1. unfold attempt, bind at 1. unfold request. rewrite Hr.
    assert (C : existsb (exn_eqb e) [ValueError; KeyError; RequestException] = true).
    { destruct He as [<-|[<-|[<-|[]]]]; reflexivity. }
    rewrite C. unfold bind, sleep.
    rewrite (IH (S rest)); cbn [clock trace].
    + f_equal. f_equal; [lia|].
      cbn [repeat List.concat]. rewrite <- !app_assoc. reflexivity.
    + lia.
    + intros i Hi. destruct (Hfail (S i)) as (e' & He' & Hr'); [lia|].
      exists e'. split; [exact He'|].
      now replace (S (clock st) + i)%nat with (clock st + S i)%nat by lia.
    + now replace (S (clock st) + k)%nat with (clock st + S k)%nat by lia.
Qed.

(** X8: when the first [k] attempts fail with a request or parse error
    and the next one, still within [retries], is answered, the function
    returns the statistics of that answer; it has slept [retry_delay]
    after each failure and one second after the answer. *)
Theorem answered_retry_gives_statistics
    w st code fund_type retries retry_delay k data :
  no_code code = false ->
  (k < retries)%nat ->
  (forall i, (i < k)%nat ->
     exists e, In e [ValueError; KeyError; RequestException] /\
               stats_json_at w (clock st + i) (stats_url code) = Raise e) ->
  stats_json_at w (clock st + k) (stats_url code) = Ok data ->
  extract_portfolio_stats code fund_type retries retry_delay w st =
    (Ok (Some (stats_of_response fund_type data)),
     {| clock := clock st + S k;
        trace := trace st
                 ++ List.concat (repeat [Get (stats_url code); Sleep retry_delay] k)
                 ++ [Get (stats_url code); Sleep 1] |}).
Proof.
  intros Hc Hk Hfail Hok. unfold extract_portfolio_stats. rewrite Hc.
  now apply retried_attempts_run.
Qed.

(** X9: an error of another kind is not retried: the first attempt that
    raises one ends the function with that error, after that one request
    and without any sleep. *)
Theorem other_errors_escape_the_retry_loop
    w st code fund_type retries retry_delay e :
  no_code code = false ->
  (0 < retries)%nat ->
  ~ In e [ValueError; KeyError; RequestException] ->
  stats_json_at w (clock st) (stats_url code) = Raise e ->
  extract_portfolio_stats code fund_type retries retry_delay w st =
    (Raise e, {| clock := S (clock st);
                 trace := trace st ++ [Get (stats_url code)] |}).
Proof.
  intros Hc Hr Hn H. unfold extract_portfolio_stats. rewrite Hc.
  destruct retries as [|rest]; [lia|].
  cbn [stats_attempts]. unfold bind, attempt, request. rewrite H.
  assert (C : existsb (exn_eqb e) [ValueError; KeyError; RequestException] = false).
  { destruct e; try reflexivity; exfalso; apply Hn; simpl; auto. }
  now rewrite C.
Qed.

End SeriesFacts.

(** ** Sectors, exit load, returns and scheme codes *)

Section FieldFacts.
Context {F : Type} {PF : PyFloat F}.

Lemma stored_sectors (fund_type : pystr) (data : stats_json (F:=F)) :
  sector_allocation (stats_of_response fund_type data)
    = firstn 4 (sorted_desc (sector_entries data)).
Proof.
  unfold stats_of_response.
  destruct (if str_eqb fund_type "Hybrid" then _ else _). reflexivity.
Qed.

(** X10: the sectors stored are never more than four, and a map of at
    most four sectors is stored whole. *)
Theorem sectors_are_capped_at_four (fund_type : pystr) (data : stats_json (F:=F)) :
  List.length (sector_allocation (stats_of_response fund_type data))
    = Nat.min 4 (List.length (sector_entries data)) /\
  ((List.length (sector_entries data) <= 4)%nat ->
   Permutation (sector_entries data)
               (sector_allocation (stats_of_response fund_type data))).
Proof.
  rewrite stored_sectors. split.
  - now rewrite length_firstn, sorted_desc_length.
  - intros H. rewrite firstn_all2 by (rewrite sorted_desc_length; exact H).
    symmetry. apply sorted_desc_perm.
Qed.

(** X11: when the first paragraph that mentions the exit load contains
    [0%] anywhere (as in [10%]), the exit load is 0, whatever percentage
    the paragraph states and whatever the later paragraphs say. *)
Theorem exit_load_is_zero_when_text_has_0_percent
    (before : list pystr) (text : pystr) (after : list pystr) :
  (forall t, In t before -> contains "Exit load" (strip t) = false) ->
  contains "Exit load" (strip text) = true ->
  contains "0%" (strip text) = true ->
  scan_exit_load (F:=F) (before ++ text :: after) = of_Z 0.
Proof.
  intros Hb He Hz. induction before as [|t before IH].
  - cbn [app scan_exit_load]. rewrite He, Hz, orb_true_r. reflexivity.
  - cbn [app scan_exit_load]. rewrite (Hb t) by now left.
    apply IH. intros t' Ht'. apply Hb. now right.
Qed.

Lemma pad_nan_length n (lst : list (return_value (F:=F))) :
  List.length (pad_nan n lst) = Nat.max (List.length lst) n.
Proof. unfold pad_nan. rewrite length_app, repeat_length. lia. Qed.

Lemma returns_rows_lengths : forall (returns_list : list (list pystr)) a b c,
  returns_rows (F:=F) returns_list = Ok (a, b, c) ->
  List.length a = List.length returns_list /\
  List.length b = List.length returns_list /\
  List.length c = List.length returns_list.
Proof.
  induction returns_list as [|r rest IH]; intros a b c; cbn [returns_rows].
  - intros [= <- <- <-]. auto.
  - destruct (returns_row r) as [[[x y] z]|e]; [|discriminate].
    destruct (returns_rows rest) as [[[one three] five]|e]; [|discriminate].
    intros [= <- <- <-]. destruct (IH one three five eq_refl) as (A & B & C).
    simpl. auto.
Qed.

Lemma returns_row_of_three (r : list pystr) :
  List.length r = 3%nat -> returns_row (F:=F) r <> Raise OtherError.
Proof.
  destruct r as [|r0 [|r1 [|r2 more]]]; try discriminate. intros _.
  unfold returns_row.
  assert (E : forall t, return_entry (F:=F) t <> Raise OtherError).
  { intros t. unfold return_entry.
    destruct (str_eqb t "NA"); [discriminate|].
    destruct (ends_with_percent t); [|discriminate].
    destruct (float_of_str _); discriminate. }
  pose proof (E r0). pose proof (E r1). pose proof (E r2).
  destruct (return_entry r0) as [a|e0]; [|congruence].
  destruct (return_entry r1) as [b|e1]; [|congruence].
  destruct (return_entry r2) as [c|e2]; [discriminate|congruence].
Qed.

Lemma process_returns_lengths
    (returns_list : list (list pystr)) (expected_count : nat)
    one_year three_year five_year :
  process_returns (F:=F) returns_list expected_count
    = Ok (one_year, three_year, five_year) ->
  List.length one_year = Nat.max (List.length returns_list) expected_count /\
  List.length three_year = Nat.max (List.length returns_list) expected_count /\
  List.length five_year = Nat.max (List.length returns_list) expected_count.
Proof.
  unfold process_returns.
  destruct (returns_rows returns_list) as [[[a b] c]|e] eqn:E; [|discriminate].
  intros [= <- <- <-]. destruct (returns_rows_lengths _ _ _ _ E) as (A & B & C).
  rewrite !pad_nan_length. now rewrite A, B, C.
Qed.

(** X12: the three lists that [process_returns] returns have one length,
    the larger of the number of funds and the count expected; and on
    lists of three entries each, as the listing gives them, it raises no
    index error. *)
Theorem process_returns_lists_have_one_length
    (returns_list : list (list pystr)) (expected_count : nat) :
  (forall one_year three_year five_year,
     process_returns (F:=F) returns_list expected_count
       = Ok (one_year, three_year, five_year) ->
     List.length one_year = Nat.max (List.length returns_list) expected_count /\
     List.length three_year = Nat.max (List.length returns_list) expected_count /\
     List.length five_year = Nat.max (List.length returns_list) expected_count) /\
  (Forall (fun r => List.length r = 3%nat) returns_list ->
   process_returns (F:=F) returns_list expected_count <> Raise OtherError).
Proof.
  split.
  - apply process_returns_lengths.
  - intros H. unfold process_returns.
    assert (R : returns_rows (F:=F) returns_list <> Raise OtherError).
    { induction H as [|r rest Hr _ IH]; cbn [returns_rows]; [discriminate|].
      pose proof (returns_row_of_three r Hr) as N.
      destruct (returns_row r) as [[[x y] z]|e]; [|congruence].
      destruct (returns_rows rest) as [[[one three] five]|e];
        [discriminate|congruence]. }
    destruct (returns_rows returns_list) as [[[a b] c]|e];
      [discriminate|congruence].
Qed.

End FieldFacts.

Section CodeFacts.

Lemma span_digits_spec (s : pystr) :
  forallb is_digit (fst (span_digits s)) = true /\
  s = fst (span_digits s) ++ snd (span_digits s).
Proof.
  induction s as [|c s IH]; simpl; [auto|].
  destruct (is_digit c) eqn:D; [|auto].
  destruct (span_digits s) as [d r]. simpl in *.
  destruct IH as [I1 I2]. rewrite D, I1. split; [reflexivity|]. now rewrite <- I2.
Qed.

Lemma span_digits_all (g : pystr) :
  forallb is_digit g = true -> span_digits g = (g, []).
Proof.
  induction g as [|c g IH]; simpl; [reflexivity|].
  intros H. apply andb_prop in H. destruct H as [H1 H2].
  rewrite H1, (IH H2). reflexivity.
Qed.

Lemma digit_not_space (c : ascii) : is_digit c = true -> is_space c = false.
Proof.
  unfold is_digit, is_space. cbv zeta. intros H.
  apply andb_prop in H. destruct H as [H1 H2].
  apply Nat.leb_le in H1. apply Nat.leb_le in H2.
  revert H1 H2. generalize (nat_of_ascii c). intros n H1 H2.
  apply orb_false_iff. split; apply andb_false_iff.
  - right. apply Nat.leb_gt. lia.
  - right. apply Nat.leb_gt. lia.
Qed.

Lemma digit_not_sign (c : ascii) :
  is_digit c = true ->
  Ascii.eqb c "-"%char = false /\ Ascii.eqb c "+"%char = false.
Proof.
  intros H. split; apply Ascii.eqb_neq; intros ->; discriminate H.
Qed.

Lemma lstrip_digits (g : pystr) : forallb is_digit g = true -> lstrip g = g.
Proof.
  destruct g as [|c g]; simpl; [reflexivity|].
  intros H. apply andb_prop in H. destruct H as [H _].
  now rewrite (digit_not_space c H).
Qed.

Lemma strip_digits (g : pystr) : forallb is_digit g = true -> strip g = g.
Proof.
  intros H. unfold strip. rewrite (lstrip_digits g H).
  rewrite lstrip_digits; [apply rev_involutive|].
  rewrite forallb_forall in *. intros c Hc. apply H. now apply in_rev.
Qed.

Lemma digits_val_nonneg : forall (g : pystr) acc,
  forallb is_digit g = true -> (0 <= acc)%Z -> (0 <= digits_val acc g)%Z.
Proof.
  induction g as [|c g IH]; intros acc H Ha; cbn [digits_val forallb] in *;
    [exact Ha|].
  apply andb_prop in H. destruct H as [H1 H2]. apply IH; [exact H2|].
  unfold is_digit in H1. cbv zeta in H1. apply andb_prop in H1.
  destruct H1 as [L _].
  apply Nat.leb_le in L. unfold digit_val.
  revert L. generalize (nat_of_ascii c). intros n L. lia.
Qed.

Lemma int_of_digits (g : pystr) :
  g <> [] -> forallb is_digit g = true ->
  int_of_str g = Some (digits_val 0 g) /\ (0 <= digits_val 0 g)%Z.
Proof.
  intros Hn H. split; [|now apply digits_val_nonneg].
  unfold int_of_str. rewrite (strip_digits g H).
  destruct g as [|c g]; [congruence|].
  assert (Hc : is_digit c = true).
  { simpl in H. now apply andb_prop in H. }
  destruct (digit_not_sign c Hc) as [S1 S2].
  unfold parse_sign. rewrite S1, S2.
  rewrite (span_digits_all (c :: g) H). reflexivity.
Qed.

Lemma match_scheme_code_digits (s g : pystr) :
  match_scheme_code s = Some g -> g <> [] /\ forallb is_digit g = true.
Proof.
  unfold match_scheme_code. destruct (startswith scheme_code_key s); [|discriminate].
  pose proof (span_digits_spec (skipn (List.length scheme_code_key) s)) as [D _].
  destruct (span_digits (skipn (List.length scheme_code_key) s)) as [d r].
  cbn [fst] in D.
  destruct d as [|c d], r as [|q r]; cbn beta iota; try discriminate.
  destruct (Ascii.eqb q "034"%char); [|discriminate].
  intros [= <-]. split; [discriminate|exact D].
Qed.

Lemma search_scheme_code_digits (s g : pystr) :
  search_scheme_code s = Some g -> g <> [] /\ forallb is_digit g = true.
Proof.
  induction s as [|c s IH]; cbn [search_scheme_code].
  - destruct (match_scheme_code []) as [g'|] eqn:E; [|discriminate].
    intros [= <-]. now apply (match_scheme_code_digits []).
  - destruct (match_scheme_code (c :: s)) as [g'|] eqn:E.
    + intros [= <-]. now apply (match_scheme_code_digits (c :: s)).
    + exact IH.
Qed.

Lemma first_scheme_code_digits (scripts : list pystr) (g : pystr) :
  first_scheme_code scripts = Some g -> g <> [] /\ forallb is_digit g = true.
Proof.
  induction scripts as [|script rest IH]; cbn [first_scheme_code]; [discriminate|].
  destruct (search_scheme_code script) as [g'|] eqn:E; [|exact IH].
  intros [= <-]. now apply (search_scheme_code_digits script).
Qed.

Section Fetched.
Context {F : Type} {PF : PyFloat F}.
Variable find_all_script : soup -> list pystr.

(** X13: a scheme code that [extract_scheme_code] finds is a string of
    digits that is not empty: it counts as a code for the lookups, and
    the [int()] of the fallback reads it, as a number that is not
    negative. *)
Theorem scheme_codes_are_digit_strings
    (w : world (F:=F)) (st : state) (url g : pystr) :
  fst (extract_scheme_code find_all_script url w st) = Ok (Some g) ->
  g <> [] /\ forallb is_digit g = true /\
  no_code (Some g) = false /\
  exists z, int_of_str g = Some z /\ (0 <= z)%Z.
Proof.
  unfold extract_scheme_code, bind.
  destruct (fetch_page url w st) as [[[doc|]|e] st1]; cbn [fst ret];
    try discriminate.
  unfold ret. cbn [fst]. intros [= H].
  destruct (first_scheme_code_digits _ _ H) as [Hn Hd].
  split; [exact Hn|]. split; [exact Hd|]. split.
  - destruct g; [congruence|reflexivity].
  - exists (digits_val 0 g). now apply int_of_digits.
Qed.

End Fetched.

End CodeFacts.

(** ** The extraction of the funds found *)

Section MainFacts.
Context {F : Type} {PF : PyFloat F}.
Variable find_all_script : soup -> list pystr.
Implicit Types (w : world (F:=F)) (st : state).

Lemma bind_ok {A B} (m : M world A) (k : A -> M world B) w st b :
  fst (bind m k w st) = Ok b ->
  exists a st1, m w st = (Ok a, st1) /\ fst (k a w st1) = Ok b.
Proof.
  unfold bind. destruct (m w st) as [[a|e] st1]; cbn [fst]; [|discriminate].
  intros H. now exists a, st1.
Qed.

Lemma for_each_length {A B} (f : A -> M world B) : forall (l : list A) w st bs,
  fst (for_each f l w st) = Ok bs -> List.length bs = List.length l.
Proof.
  induction l as [|a l IH]; intros w st bs; cbn [for_each].
  - unfold ret. cbn [fst]. now intros [= <-].
  - intros H. apply bind_ok in H. destruct H as (b & st1 & _ & H).
    apply bind_ok in H. destruct H as (bs' & st2 & Hl & H).
    unfold ret in H. cbn [fst] in H. injection H as <-.
    simpl. f_equal. apply (IH w st1). now rewrite Hl.
Qed.

Lemma stats_column_length (field : portfolio_stats -> F) codes funds w st col :
  fst (stats_column field codes funds w st) = Ok col ->
  List.length col = Nat.min (List.length codes) (List.length funds).
Proof.
  unfold stats_column. intros H. apply bind_ok in H.
  destruct H as (fetched & st1 & Hf & H).
  pose proof (for_each_length _ _ _ _ _ (f_equal fst Hf)) as L.
  rewrite length_combine in L.
  destruct (traverse (option_map field) fetched) as [l|] eqn:T;
    cbn [of_option] in H; [|discriminate].
  unfold ret in H. cbn [fst] in H. injection H as <-.
  rewrite <- L. eapply traverse_length, T.
Qed.

(** X14: when [main] gets as far as its [analysis] dict, the
    twenty-four lists of the dict have one length, the number of funds
    found, which is at most [MAX_FUNDS]. *)
Theorem analysis_lists_have_one_length w st fuel a :
  fst (main_analysis find_all_script fuel w st) = Ok (Some a) ->
  exists n, (n <= MAX_FUNDS)%nat /\ analysis_lengths a = repeat n 24.
Proof.
  unfold main_analysis. intros H.
  apply bind_ok in H. destruct H as (found & st1 & Hd & H).
  destruct found as [all_funds|]; [|discriminate H].
  exists (List.length all_funds). split.
  { apply (discover_bound w st fuel). now rewrite Hd. }
  apply bind_ok in H. destruct H as (yearly & st2 & Hy & H).
  injection Hy as Hy _.
  apply bind_ok in H. destruct H as (rows & st3 & Hr & H).
  pose proof (for_each_length _ _ _ _ _ (f_equal fst Hr)) as Lr.
  assert (Lc : forall field w' st' col,
             fst (stats_column field (map row_code rows) all_funds w' st') = Ok col ->
             List.length col = List.length all_funds).
  { intros field w' st' col Hc. apply stats_column_length in Hc.
    rewrite length_map, Lr in Hc. lia. }
  apply bind_ok in H. destruct H as (c1 & s1 & H1 & H).
  apply bind_ok in H. destruct H as (c2 & s2 & H2 & H).
  apply bind_ok in H. destruct H as (c3 & s3 & H3 & H).
  apply bind_ok in H. destruct H as (c4 & s4 & H4 & H).
  apply bind_ok in H. destruct H as (c5 & s5 & H5 & H).
  apply bind_ok in H. destruct H as (c6 & s6 & H6 & H).
  unfold ret in H. cbn [fst] in H. injection H as <-.
  destruct yearly as [[one three] five].
  destruct (process_returns_lengths
              (map returns all_funds) (List.length all_funds)
              one three five Hy) as (Y1 & Y2 & Y3).
  rewrite length_map, Nat.max_id in Y1, Y2, Y3.
  unfold analysis_lengths. cbn -[List.length repeat].
  rewrite !length_map, Lr, Y1, Y2, Y3.
  rewrite (Lc _ _ _ _ (f_equal fst H1)), (Lc _ _ _ _ (f_equal fst H2)),
          (Lc _ _ _ _ (f_equal fst H3)), (Lc _ _ _ _ (f_equal fst H4)),
          (Lc _ _ _ _ (f_equal fst H5)), (Lc _ _ _ _ (f_equal fst H6)).
  reflexivity.
Qed.

End MainFacts.

Section FundWithoutCode.
Context {F : Type} {PF : PyFloat F}.
Variable find_all_script : soup -> list pystr.
Implicit Types (w : world (F:=F)) (st : state).

Lemma fetch_page_fetchable w st url :
  fetchable (page_at w (clock st) url) ->
  exists page,
    fetch_page url w st =
      (Ok page, {| clock := S (clock st); trace := trace st ++ [Get url] |}) /\
    match page with
    | Some doc => page_at w (clock st) url = Ok doc
    | None => page_at w (clock st) url = Raise RequestException
    end.
Proof.
  unfold fetchable, fetch_page, attempt, request.
  destruct (page_at w (clock st) url) as [doc|e].
  - intros _. exists (Some doc). auto.
  - intros ->. exists None. auto.
Qed.

(** X15: a fund whose page gives no scheme code costs [main] two
    requests, both for the fund's page, and the sleep between funds; its
    row has no NAV, no holding, no sector and the statistics that are
    not available. *)
Theorem fund_without_code_costs_two_requests w st (f : fund) :
  fetchable (page_at w (clock st) (link f)) ->
  fetchable (page_at w (S (clock st)) (link f)) ->
  (forall doc, page_at w (S (clock st)) (link f) = Ok doc ->
     first_scheme_code (find_all_script doc) = None) ->
  exists row,
    extract_fund find_all_script f w st =
      (Ok row,
       {| clock := S (S (clock st));
          trace := trace st
                   ++ [Get (link f); Get (link f); Sleep DELAY_SECONDS] |}) /\
    row_code row = None /\ row_nav row = [] /\ row_holdings row = [] /\
    row_sectors row = [] /\ row_asset row = asset_alloc unavailable_stats /\
    row_equity_aum row = nan.
Proof.
  intros H1 H2 Hn.
  destruct (fetch_page_fetchable w st (link f) H1) as (p1 & E1 & _).
  set (st1 := {| clock := S (clock st); trace := trace st ++ [Get (link f)] |}) in *.
  destruct (fetch_page_fetchable w st1 (link f) H2) as (p2 & E2 & P2).
  assert (C : extract_scheme_code find_all_script (link f) w st1 =
              (Ok None, {| clock := S (clock st1);
                           trace := trace st1 ++ [Get (link f)] |})).
  { unfold extract_scheme_code, bind. rewrite E2.
    destruct p2 as [doc|]; [|reflexivity].
    unfold ret. now rewrite (Hn doc P2). }
  assert (D : exists detail,
              extract_detailed_fund_data (link f) w st = (Ok detail, st1)).
  { unfold extract_detailed_fund_data, bind. rewrite E1.
    destruct p1 as [doc|]; eexists; reflexivity. }
  destruct D as (detail & D).
  eexists. split.
  - unfold extract_fund. unfold bind at 1. rewrite D.
    unfold bind at 1. rewrite C.
    unfold extract_historical_nav, extract_top_holdings, extract_portfolio_stats.
    cbn [no_code orb]. unfold bind, ret, sleep. cbn [clock trace st1].
    rewrite <- !app_assoc. reflexivity.
  - repeat split.
Qed.

End FundWithoutCode.

(** ** The tokens of a slug *)

Section SlugFacts.
Implicit Types (t cur rest s : pystr) (ts : list pystr).

Lemma startswith_dash c s :
  startswith (lit "-") (c :: s) = Ascii.eqb "-"%char c.
Proof. change (Ascii.eqb "-"%char c && true = Ascii.eqb "-"%char c). apply andb_true_r. Qed.

Lemma split_dash_free_token t :
  dash_free t ->
  forall cur rest,
    split_from 0 (lit "-") cur (t ++ rest) = split_from 0 (lit "-") (rev t ++ cur) rest.
Proof.
  induction t as [|c t IH]; intros Ht cur rest; [reflexivity|].
  assert (Hc : Ascii.eqb "-"%char c = false).
  { apply Ascii.eqb_neq. intros E. apply Ht. now left. }
  change ((c :: t) ++ rest) with (c :: (t ++ rest)).
  cbn [split_from]. rewrite startswith_dash, Hc.
  rewrite IH by (intros X; apply Ht; now right).
  simpl. now rewrite <- app_assoc.
Qed.

Lemma split_at_dash cur rest :
  split_from 0 (lit "-") cur ("-"%char :: rest)
    = rev cur :: split_from 0 (lit "-") [] rest.
Proof. cbn [split_from]. now rewrite startswith_dash. Qed.

Lemma split_join_round_trip : forall ts t cur,
  Forall dash_free (t :: ts) ->
  split_from 0 (lit "-") cur (join (lit "-") (t :: ts)) = (rev cur ++ t) :: ts.
Proof.
  induction ts as [|t' ts IH]; intros t cur H.
  - inversion H as [|? ? Ht _]; subst. cbn [join].
    rewrite <- (app_nil_r t) at 1. rewrite split_dash_free_token by exact Ht.
    simpl. now rewrite rev_app_distr, rev_involutive.
  - inversion H as [|? ? Ht Hts]; subst.
    change (join (lit "-") (t :: t' :: ts))
      with (t ++ "-"%char :: join (lit "-") (t' :: ts)).
    rewrite split_dash_free_token by exact Ht.
    rewrite split_at_dash, (IH t' [] Hts).
    simpl. now rewrite rev_app_distr, rev_involutive.
Qed.

Lemma split_pieces_dash_free : forall s cur,
  dash_free cur -> Forall dash_free (split_from 0 (lit "-") cur s).
Proof.
  induction s as [|c s IH]; intros cur Hc.
  - simpl. constructor; [|constructor]. intros X. apply in_rev in X. now apply Hc.
  - cbn [split_from]. rewrite startswith_dash.
    destruct (Ascii.eqb "-"%char c) eqn:E.
    + constructor.
      * intros X. apply in_rev in X. now apply Hc.
      * apply IH. intros [].
    + apply IH. intros [X|X]; [|now apply Hc].
      apply Ascii.eqb_neq in E. congruence.
Qed.

(** X16: a slug is made of tokens that are not empty: cut at its dashes
    it gives back the tokens it was joined from, so it has no dash at
    either end and no two dashes in a row (or it is empty). *)
Theorem slug_has_no_empty_token (link : pystr) :
  normalize_link link = [] \/
  Forall (fun t => t <> [] /\ dash_free t) (split "-" (normalize_link link)).
Proof.
  unfold normalize_link.
  set (slug := strip_suffixes _).
  match goal with
  | |- join _ ?x = [] \/ _ => set (toks := x)
  end.
  assert (D : Forall (fun t => t <> [] /\ dash_free t) toks).
  { apply Forall_forall. intros t Ht. unfold toks in Ht.
    apply filter_In in Ht. destruct Ht as [I N]. split.
    - intros ->. discriminate N.
    - pose proof (split_pieces_dash_free slug [] (fun X => X)) as P.
      rewrite Forall_forall in P. now apply P. }
  clearbody toks. destruct toks as [|t ts]; [left; reflexivity|right].
  change (split "-" (join "-" (t :: ts)))
    with (split_from 0 (lit "-") [] (join (lit "-") (t :: ts))).
  rewrite split_join_round_trip; [exact D|].
  eapply Forall_impl; [|exact D]. now intros a [_ Ha].
Qed.

End SlugFacts.

(** * More of the normalizer *)

Section StoreFacts.
Context {F : Type} {PF : PyFloat F}.
Implicit Types (fr : frame (F:=F)) (st : store (F:=F)).

Lemma nth_error_update_other {A} (l : list A) i j a :
  i <> j -> nth_error (update l i a) j = nth_error l j.
Proof.
  revert i j. induction l as [|x l IH]; intros [|i] [|j] N; simpl; try reflexivity;
    try congruence.
  apply IH. congruence.
Qed.

Lemma update_same {A} (l : list A) i a :
  nth_error l i = Some a -> update l i a = l.
Proof.
  revert i. induction l as [|x l IH]; intros [|i]; simpl; try discriminate.
  - now intros [= ->].
  - intros H. now rewrite IH.
Qed.

Lemma update_update {A} (l : list A) i a b :
  update (update l i a) i b = update l i b.
Proof.
  revert i. induction l as [|x l IH]; intros [|i]; simpl; try reflexivity.
  now rewrite IH.
Qed.

Lemma set_col_same fr col vals :
  lookup_col fr col = Some vals -> set_col fr col vals = fr.
Proof.
  induction fr as [|[c old] fr IH]; simpl; [discriminate|].
  destruct (str_eqb c col).
  - now intros [= ->].
  - intros H. now rewrite IH.
Qed.

Lemma store_eta st : {| frames := frames st; log := log st |} = st.
Proof. now destruct st. Qed.

Lemma clean_columns_values df : forall cols st fr,
  nth_error (frames st) df = Some fr ->
  (forall c, In c cols -> lookup_col fr c <> None) ->
  exists fr',
    clean_columns df cols st =
      (Ok tt, {| frames := update (frames st) df fr';
                 log := log st ++ map InfoReplaced cols |}) /\
    (forall c, shape fr' c = shape fr c) /\
    (forall c, ~ In c cols -> lookup_col fr' c = lookup_col fr c) /\
    (NoDup cols -> forall c, In c cols ->
       lookup_col fr' c = option_map (map fill_missing) (lookup_col fr c)).
Proof.
  induction cols as [|col cols IH]; intros st fr H Hc.
  - exists fr. cbn [clean_columns map]. unfold pret.
    rewrite (update_same _ _ _ H), app_nil_r, store_eta.
    repeat split; auto. intros _ c [].
  - destruct (lookup_col fr col) as [vals|] eqn:L;
      [|exfalso; apply (Hc col); [now left|exact L]].
    rewrite (clean_step _ _ _ _ _ _ H L).
    set (fr1 := set_col fr col (map fill_missing vals)).
    assert (S1 : forall c, shape fr1 c = shape fr c).
    { apply set_col_shape with (vals := vals); [exact L|apply length_map]. }
    destruct (IH {| frames := update (frames st) df fr1;
                    log := log st ++ [InfoReplaced col] |} fr1)
      as (fr' & R & Sh & O & V).
    + simpl. eapply nth_error_update_same, H.
    + intros c Hin E. apply (Hc c); [now right|].
      specialize (S1 c). unfold shape in S1. rewrite E in S1.
      destruct (lookup_col fr c); [discriminate|reflexivity].
    + exists fr'. split; [|split; [|split]].
      * rewrite R. cbn [frames log map]. now rewrite update_update, <- app_assoc.
      * intros c. now rewrite Sh.
      * intros c Hn. rewrite O by (intros X; apply Hn; now right).
        apply lookup_set_other. intros ->. apply Hn. now left.
      * intros ND c [<-|Hin].
        -- inversion ND as [|? ? Nin _]; subst.
           rewrite (O col Nin). unfold fr1. now rewrite lookup_set_same, L.
        -- inversion ND as [|? ? Nin ND']; subst.
           rewrite (V ND' c Hin). unfold fr1.
           rewrite lookup_set_other; [reflexivity|]. intros ->. contradiction.
Qed.

Lemma handle_missing_values_run st df fr :
  nth_error (frames st) df = Some fr ->
  (forall c, In c (lit "type" :: columns_to_clean) -> lookup_col fr c <> None) ->
  exists fr1 types am ytm,
    (forall c, shape fr1 c = shape fr c) /\
    (forall c, ~ In c columns_to_clean -> lookup_col fr1 c = lookup_col fr c) /\
    (forall c, In c columns_to_clean ->
       lookup_col fr1 c = option_map (map fill_missing) (lookup_col fr c)) /\
    lookup_col fr1 "type" = Some types /\
    lookup_col fr1 "average_maturity" = Some am /\
    lookup_col fr1 "yield_to_maturity" = Some ytm /\
    handle_missing_values df st =
      (Ok df,
       {| frames :=
            update (frames st) df
              (set_col
                 (set_col fr1 "average_maturity"
                    (assign_where (map (is_str "Equity") types) NA am))
                 "yield_to_maturity"
                 (assign_where (map (is_str "Equity") types) NA ytm));
          log := log st ++ map InfoReplaced columns_to_clean |}).
Proof.
  intros H Hc.
  destruct (clean_columns_values df columns_to_clean st fr H)
    as (fr1 & R & Sh & O & V).
  { intros c Hin. apply Hc. now right. }
  assert (Hs : forall c, In c (lit "type" :: columns_to_clean) ->
                         exists vals, lookup_col fr1 c = Some vals).
  { intros c Hin. specialize (Hc c Hin). specialize (Sh c). unfold shape in Sh.
    destruct (lookup_col fr1 c) as [v|]; [now exists v|].
    destruct (lookup_col fr c); [discriminate|congruence]. }
  destruct (Hs "type") as (types & Lt); [now left|].
  destruct (Hs "average_maturity") as (am & La); [right; right; right; now left|].
  destruct (Hs "yield_to_maturity") as (ytm & Ly);
    [right; right; right; right; now left|].
  exists fr1, types, am, ytm.
  assert (ND : NoDup columns_to_clean).
  { repeat constructor; intros X; vm_compute in X;
      repeat (destruct X as [X|X]; [discriminate|]); exact X. }
  split; [exact Sh|]. split; [exact O|]. split; [exact (V ND)|].
  split; [exact Lt|]. split; [exact La|]. split; [exact Ly|].
  set (st1 := {| frames := update (frames st) df fr1;
                 log := log st ++ map InfoReplaced columns_to_clean |}) in *.
  assert (N1 : nth_error (frames st1) df = Some fr1).
  { simpl. eapply nth_error_update_same, H. }
  set (mask := map (is_str "Equity") types).
  set (fr2 := set_col fr1 "average_maturity" (assign_where mask NA am)).
  assert (Ly2 : lookup_col fr2 "yield_to_maturity" = Some ytm).
  { unfold fr2. rewrite lookup_set_other; [exact Ly|]. intros X. discriminate X. }
  unfold handle_missing_values. unfold pbind at 1. rewrite R.
  unfold pbind at 1. unfold read at 1. rewrite N1.
  unfold pbind at 1. unfold get_col at 1. rewrite Lt. unfold pret at 1.
  fold mask. unfold pbind.
  rewrite (loc_step _ _ _ _ _ _ _ _ N1 La). fold fr2.
  erewrite loc_step; [| |exact Ly2].
  2:{ simpl. eapply nth_error_update_same, N1. }
  cbn [loc_assign pret frames log st1]. now rewrite !update_update.
Qed.

End StoreFacts.

Section ColumnLoops.
Context {F : Type} {PF : PyFloat F}.
Implicit Types (fr : frame (F:=F)) (st : store (F:=F)).

Lemma columns_present_or_not fr (cols : list pystr) :
  (forall c, In c cols -> lookup_col fr c <> None) \/
  (exists c, In c cols /\ lookup_col fr c = None).
Proof.
  induction cols as [|col cols [IH|(c & Hin & E)]].
  - left. intros c [].
  - destruct (lookup_col fr col) eqn:L.
    + left. intros c [<-|Hin]; [congruence|now apply IH].
    + right. exists col. split; [now left|exact L].
  - right. exists c. split; [now right|exact E].
Qed.

Lemma present_lookup fr (cols : list pystr) c :
  (forall c, In c cols -> lookup_col fr c <> None) -> In c cols ->
  exists vals, lookup_col fr c = Some vals.
Proof.
  intros Hc Hin. specialize (Hc c Hin).
  destruct (lookup_col fr c) as [v|]; [now exists v|congruence].
Qed.

Lemma shape_present fr fr' c :
  shape fr' c = shape fr c -> lookup_col fr c <> None -> lookup_col fr' c <> None.
Proof.
  unfold shape. intros E N X. rewrite X in E.
  destruct (lookup_col fr c); [discriminate|congruence].
Qed.

Lemma shape_absent fr fr' c :
  shape fr' c = shape fr c -> lookup_col fr c = None -> lookup_col fr' c = None.
Proof.
  unfold shape. intros E N. rewrite N in E.
  destruct (lookup_col fr' c); [discriminate|reflexivity].
Qed.

Section Mapped.
Variable f : cell (F:=F) -> cell (F:=F).

Lemma map_columns_step st df fr col vals rest :
  nth_error (frames st) df = Some fr ->
  lookup_col fr col = Some vals ->
  map_columns f df (col :: rest) st =
    map_columns f df rest
      {| frames := update (frames st) df (set_col fr col (map f vals));
         log := log st |}.
Proof.
  intros H L. simpl. unfold pbind, read, get_col. rewrite H, L. reflexivity.
Qed.

Lemma map_columns_values df : forall cols st fr,
  nth_error (frames st) df = Some fr ->
  (forall c, In c cols -> lookup_col fr c <> None) ->
  exists fr',
    map_columns f df cols st =
      (Ok tt, {| frames := update (frames st) df fr'; log := log st |}) /\
    (forall c, shape fr' c = shape fr c) /\
    (forall c, ~ In c cols -> lookup_col fr' c = lookup_col fr c) /\
    (NoDup cols -> forall c, In c cols ->
       lookup_col fr' c = option_map (map f) (lookup_col fr c)).
Proof.
  induction cols as [|col cols IH]; intros st fr H Hc.
  - exists fr. cbn [map_columns]. unfold pret.
    rewrite (update_same _ _ _ H), store_eta.
    repeat split; auto. intros _ c [].
  - destruct (lookup_col fr col) as [vals|] eqn:L;
      [|exfalso; apply (Hc col); [now left|exact L]].
    rewrite (map_columns_step _ _ _ _ _ _ H L).
    set (fr1 := set_col fr col (map f vals)).
    assert (S1 : forall c, shape fr1 c = shape fr c).
    { apply set_col_shape with (vals := vals); [exact L|apply length_map]. }
    destruct (IH {| frames := update (frames st) df fr1; log := log st |} fr1)
      as (fr' & R & Sh & O & V).
    + simpl. eapply nth_error_update_same, H.
    + intros c Hin. apply (shape_present fr), Hc; [apply S1|now right].
    + exists fr'. split; [|split; [|split]].
      * rewrite R. cbn [frames log]. now rewrite update_update.
      * intros c. now rewrite Sh.
      * intros c Hn. rewrite O by (intros X; apply Hn; now right).
        apply lookup_set_other. intros ->. apply Hn. now left.
      * intros ND c [<-|Hin].
        -- inversion ND as [|? ? Nin _]; subst.
           rewrite (O col Nin). unfold fr1. now rewrite lookup_set_same, L.
        -- inversion ND as [|? ? Nin ND']; subst.
           rewrite (V ND' c Hin). unfold fr1.
           rewrite lookup_set_other; [reflexivity|]. intros ->. contradiction.
Qed.

Lemma map_columns_missing df : forall cols st fr,
  nth_error (frames st) df = Some fr ->
  (exists c, In c cols /\ lookup_col fr c = None) ->
  fst (map_columns f df cols st) = Raise KeyError.
Proof.
  induction cols as [|col cols IH]; intros st fr H (c & Hin & E).
  - destruct Hin.
  - destruct (lookup_col fr col) as [vals|] eqn:L.
    + rewrite (map_columns_step _ _ _ _ _ _ H L).
      destruct Hin as [<-|Hin]; [congruence|].
      eapply IH.
      * simpl. eapply nth_error_update_same, H.
      * exists c. split; [exact Hin|].
        rewrite lookup_set_other; [exact E|]. intros ->. congruence.
    + simpl. unfold pbind, read, get_col. now rewrite H, L.
Qed.

Lemma map_columns_fixed df : forall cols st fr,
  nth_error (frames st) df = Some fr ->
  (forall c, In c cols ->
     exists vals, lookup_col fr c = Some vals /\ map f vals = vals) ->
  map_columns f df cols st = (Ok tt, st).
Proof.
  induction cols as [|col cols IH]; intros st fr H Hc; [reflexivity|].
  destruct (Hc col (or_introl eq_refl)) as (vals & L & E).
  rewrite (map_columns_step _ _ _ _ _ _ H L), E, (set_col_same _ _ _ L),
    (update_same _ _ _ H), store_eta.
  apply (IH st fr H). intros c Hin. apply Hc. now right.
Qed.

Lemma map_columns_reads df col rest st st' :
  map_columns f df (col :: rest) st = (Ok tt, st') ->
  exists fr, nth_error (frames st) df = Some fr.
Proof.
  simpl. unfold pbind at 1. unfold read.
  destruct (nth_error (frames st) df) as [fr|]; [|discriminate].
  intros _. now exists fr.
Qed.

End Mapped.

(** [clean_columns] is the loop of [map_columns] with a log line for each
    column. *)
Lemma clean_columns_as_map df : forall cols st st0,
  frames st = frames st0 ->
  fst (clean_columns df cols st) = fst (map_columns fill_missing df cols st0) /\
  frames (snd (clean_columns df cols st)) =
    frames (snd (map_columns fill_missing df cols st0)).
Proof.
  induction cols as [|col cols IH]; intros st st0 E; [now split|].
  destruct (nth_error (frames st0) df) as [fr|] eqn:H.
  - destruct (lookup_col fr col) as [vals|] eqn:L.
    + assert (H' : nth_error (frames st) df = Some fr) by now rewrite E.
      rewrite (clean_step _ _ _ _ _ _ H' L), (map_columns_step _ _ _ _ _ _ _ H L).
      apply IH. simpl. now rewrite E.
    + simpl. unfold pbind, read, get_col. rewrite E, H, L. now split.
  - simpl. unfold pbind, read. rewrite E, H. now split.
Qed.

Lemma loc_assign_fixed df mask v : forall cols st fr,
  nth_error (frames st) df = Some fr ->
  (forall c, In c cols ->
     exists vals, lookup_col fr c = Some vals /\ assign_where mask v vals = vals) ->
  loc_assign df mask cols v st = (Ok tt, st).
Proof.
  induction cols as [|col cols IH]; intros st fr H Hc; [reflexivity|].
  destruct (Hc col (or_introl eq_refl)) as (vals & L & E).
  rewrite (loc_step _ _ _ _ _ _ _ _ H L), E, (set_col_same _ _ _ L),
    (update_same _ _ _ H), store_eta.
  apply (IH st fr H). intros c Hin. apply Hc. now right.
Qed.

End ColumnLoops.

Section MissingValues.
Context {F : Type} {PF : PyFloat F}.
Implicit Types (fr : frame (F:=F)) (st : store (F:=F)).

Lemma na_not_missing : missing (F:=F) NA = false.
Proof. reflexivity. Qed.

Lemma fill_missing_not_missing (c : cell (F:=F)) : missing (fill_missing c) = false.
Proof.
  destruct c as [x|s|]; simpl; [| |reflexivity].
  - destruct (isnan x) eqn:E; [reflexivity|exact E].
  - destruct (is_nil s) eqn:E; [reflexivity|exact E].
Qed.

Lemma fill_missing_fixed (c : cell (F:=F)) : missing c = false -> fill_missing c = c.
Proof. destruct c as [x|s|]; simpl; intros E; [now rewrite E..|discriminate]. Qed.

Lemma fill_missing_filled (vals : list (cell (F:=F))) :
  existsb missing vals = false -> map fill_missing vals = vals.
Proof.
  induction vals as [|c vals IH]; simpl; [reflexivity|].
  intros H. apply orb_false_iff in H. destruct H as (H1 & H2).
  now rewrite fill_missing_fixed, IH.
Qed.

Lemma filled_map (vals : list (cell (F:=F))) :
  existsb missing (map fill_missing vals) = false.
Proof.
  induction vals as [|c vals IH]; simpl; [reflexivity|].
  now rewrite fill_missing_not_missing, IH.
Qed.

Lemma filled_assign mask (vals : list (cell (F:=F))) :
  existsb missing vals = false ->
  existsb missing (assign_where mask NA vals) = false.
Proof.
  revert vals. induction mask as [|b mask IH]; intros [|c vals]; simpl; auto.
  intros H. apply orb_false_iff in H. destruct H as (H1 & H2).
  rewrite (IH _ H2). destruct b; [reflexivity|now rewrite H1].
Qed.

Lemma assign_where_twice mask v (vals : list (cell (F:=F))) :
  assign_where mask v (assign_where mask v vals) = assign_where mask v vals.
Proof.
  revert vals. induction mask as [|b mask IH]; intros [|c vals]; simpl; auto.
  rewrite IH. now destruct b.
Qed.

Lemma assign_where_miss mask v (vals : list (cell (F:=F))) i :
  nth_error mask i = Some false ->
  nth_error (assign_where mask v vals) i = nth_error vals i.
Proof.
  revert mask vals. induction i as [|i IH]; intros [|b mask] [|x vals];
    simpl; try discriminate; try reflexivity.
  - now intros [= ->].
  - apply IH.
Qed.

Lemma columns_to_clean_apart : NoDup columns_to_clean.
Proof.
  repeat constructor; intros X; vm_compute in X;
    repeat (destruct X as [X|X]; [discriminate|]); exact X.
Qed.

(** The table [handle_missing_values] leaves, column by column. *)
Lemma handle_missing_values_result st df fr :
  nth_error (frames st) df = Some fr ->
  (forall c, In c (lit "type" :: columns_to_clean) -> lookup_col fr c <> None) ->
  exists fr' types,
    handle_missing_values df st =
      (Ok df, {| frames := update (frames st) df fr';
                 log := log st ++ map InfoReplaced columns_to_clean |}) /\
    lookup_col fr "type" = Some types /\
    (forall c, shape fr' c = shape fr c) /\
    (forall c, ~ In c columns_to_clean -> lookup_col fr' c = lookup_col fr c) /\
    (forall c, In c [lit "exit_load"; lit "rating"] ->
       lookup_col fr' c = option_map (map fill_missing) (lookup_col fr c)) /\
    (forall c, In c [lit "average_maturity"; lit "yield_to_maturity"] ->
       lookup_col fr' c =
         option_map (fun vals =>
                       assign_where (map (is_str "Equity") types) NA
                         (map fill_missing vals))
           (lookup_col fr c)).
Proof.
  intros H Hc.
  destruct (handle_missing_values_run st df fr H Hc)
    as (fr1 & types & am & ytm & Sh & O & V & Lt & La & Ly & R).
  set (mask := map (is_str "Equity") types) in *.
  set (fr2 := set_col fr1 "average_maturity" (assign_where mask NA am)) in *.
  assert (Ly2 : lookup_col fr2 "yield_to_maturity" = Some ytm).
  { unfold fr2. rewrite lookup_set_other; [exact Ly|]. intros X. discriminate X. }
  assert (Lt0 : lookup_col fr "type" = Some types).
  { rewrite <- Lt. symmetry. apply O. intros X. vm_compute in X.
    repeat (destruct X as [X|X]; [discriminate|]). exact X. }
  exists (set_col fr2 "yield_to_maturity" (assign_where mask NA ytm)), types.
  split; [exact R|]. split; [exact Lt0|].
  split; [|split; [|split]].
  - intros c.
    rewrite (set_col_shape _ _ _ _ Ly2 (assign_where_length _ _ _)).
    unfold fr2. rewrite (set_col_shape _ _ _ _ La (assign_where_length _ _ _)).
    apply Sh.
  - intros c Hn. unfold fr2.
    rewrite lookup_set_other
      by (intros ->; apply Hn; right; right; right; now left).
    rewrite lookup_set_other by (intros ->; apply Hn; right; right; now left).
    now apply O.
  - intros c Hin. unfold fr2.
    rewrite lookup_set_other
      by (intros ->; destruct Hin as [X|[X|[]]]; discriminate X).
    rewrite lookup_set_other
      by (intros ->; destruct Hin as [X|[X|[]]]; discriminate X).
    apply V. destruct Hin as [<-|[<-|[]]]; [now left|right; now left].
  - intros c [<-|[<-|[]]].
    + rewrite lookup_set_other by (intros X; discriminate X).
      unfold fr2. rewrite lookup_set_same.
      assert (E := V "average_maturity" (or_intror (or_intror (or_introl eq_refl)))).
      rewrite La in E. destruct (lookup_col fr "average_maturity"); [|discriminate].
      simpl in E. injection E as ->. reflexivity.
    + rewrite lookup_set_same.
      assert (E := V "yield_to_maturity"
                     (or_intror (or_intror (or_intror (or_introl eq_refl))))).
      rewrite Ly in E. destruct (lookup_col fr "yield_to_maturity"); [|discriminate].
      simpl in E. injection E as ->. reflexivity.
Qed.

(** X17: [handle_missing_values] rewrites four columns of one table and
    nothing else: on a table that has [type] and the four columns it
    returns the table it was given, the other tables of the program and
    every other column are what they were, no column changes its number
    of rows, the log gets one line for each of the four columns, and
    [exit_load] and [rating] are the old columns with 'N/A' in the place
    of every [nan], empty string and [None]. *)
Theorem handle_missing_values_rewrites_four_columns st df fr :
  nth_error (frames st) df = Some fr ->
  (forall c, In c (lit "type" :: columns_to_clean) -> lookup_col fr c <> None) ->
  exists st' fr',
    handle_missing_values df st = (Ok df, st') /\
    nth_error (frames st') df = Some fr' /\
    (forall j, j <> df -> nth_error (frames st') j = nth_error (frames st) j) /\
    log st' = log st ++ map InfoReplaced columns_to_clean /\
    (forall c, shape fr' c = shape fr c) /\
    (forall c, ~ In c columns_to_clean -> lookup_col fr' c = lookup_col fr c) /\
    (forall c, In c [lit "exit_load"; lit "rating"] ->
       lookup_col fr' c = option_map (map fill_missing) (lookup_col fr c)).
Proof.
  intros H Hc.
  destruct (handle_missing_values_result st df fr H Hc)
    as (fr' & types & R & _ & Sh & O & V & _).
  eexists. exists fr'. split; [exact R|]. cbn [frames log].
  split; [eapply nth_error_update_same, H|].
  split; [intros j N; apply nth_error_update_other; congruence|].
  repeat split; assumption.
Qed.

(** X18: after [handle_missing_values] none of the four columns holds a
    [nan], an empty string or a [None]; and in a row whose type is not
    'Equity' the two maturity columns hold what they held, 'N/A' if that
    was missing. *)
Theorem cleaned_columns_hold_no_missing_cell st df fr :
  nth_error (frames st) df = Some fr ->
  (forall c, In c (lit "type" :: columns_to_clean) -> lookup_col fr c <> None) ->
  exists st' fr',
    handle_missing_values df st = (Ok df, st') /\
    nth_error (frames st') df = Some fr' /\
    (forall c vals, In c columns_to_clean -> lookup_col fr' c = Some vals ->
       existsb missing vals = false) /\
    (forall c types old new i t x,
       In c [lit "average_maturity"; lit "yield_to_maturity"] ->
       lookup_col fr "type" = Some types ->
       lookup_col fr c = Some old ->
       lookup_col fr' c = Some new ->
       nth_error types i = Some t -> is_str "Equity" t = false ->
       nth_error old i = Some x ->
       nth_error new i = Some (fill_missing x)).
Proof.
  intros H Hc.
  destruct (handle_missing_values_result st df fr H Hc)
    as (fr' & types & R & Lt & Sh & O & V & W).
  eexists. exists fr'. split; [exact R|]. cbn [frames].
  split; [eapply nth_error_update_same, H|]. split.
  - intros c vals Hin L.
    assert (Hin' : In c [lit "exit_load"; lit "rating"] \/
                   In c [lit "average_maturity"; lit "yield_to_maturity"]).
    { destruct Hin as [<-|[<-|[<-|[<-|[]]]]];
        [left; now left|left; right; now left|right; now left|right; right; now left]. }
    destruct Hin' as [Hin'|Hin'].
    + rewrite (V c Hin') in L. destruct (lookup_col fr c); [|discriminate].
      simpl in L. injection L as <-. apply filled_map.
    + rewrite (W c Hin') in L. destruct (lookup_col fr c); [|discriminate].
      simpl in L. injection L as <-. apply filled_assign, filled_map.
  - intros c types' old new i t x Hin Lt' Lo Ln Ht Hne Hx.
    rewrite Lt in Lt'. injection Lt' as <-.
    rewrite (W c Hin), Lo in Ln. simpl in Ln. injection Ln as <-.
    rewrite assign_where_miss.
    + now rewrite nth_error_map, Hx.
    + now rewrite nth_error_map, Ht; simpl; rewrite Hne.
Qed.

(** X19: [handle_missing_values] is idempotent on the tables: a second
    call on its own result returns again and leaves every table as the
    first call left it. *)
Theorem handle_missing_values_is_idempotent st df fr :
  nth_error (frames st) df = Some fr ->
  (forall c, In c (lit "type" :: columns_to_clean) -> lookup_col fr c <> None) ->
  exists st1 st2,
    handle_missing_values df st = (Ok df, st1) /\
    handle_missing_values df st1 = (Ok df, st2) /\
    frames st2 = frames st1.
Proof.
  intros H Hc.
  destruct (handle_missing_values_result st df fr H Hc)
    as (fr' & types & R & Lt & Sh & O & V & W).
  set (st1 := {| frames := update (frames st) df fr';
                 log := log st ++ map InfoReplaced columns_to_clean |}) in *.
  set (mask := map (is_str "Equity") types) in *.
  assert (N1 : nth_error (frames st1) df = Some fr').
  { simpl. eapply nth_error_update_same, H. }
  assert (Lt1 : lookup_col fr' "type" = Some types).
  { rewrite <- Lt. apply O. intros X. vm_compute in X.
    repeat (destruct X as [X|X]; [discriminate|]). exact X. }
  assert (Wm : forall c, In c [lit "average_maturity"; lit "yield_to_maturity"] ->
                 exists vals, lookup_col fr' c = Some vals /\
                              map fill_missing vals = vals /\
                              assign_where mask NA vals = vals).
  { intros c Hin. rewrite (W c Hin).
    destruct (present_lookup fr (lit "type" :: columns_to_clean) c Hc) as (v & ->).
    { right. destruct Hin as [<-|[<-|[]]];
        [right; right; now left|right; right; right; now left]. }
    simpl. eexists. split; [reflexivity|]. split.
    - apply fill_missing_filled, filled_assign, filled_map.
    - apply assign_where_twice. }
  assert (Wf : forall c, In c columns_to_clean ->
                 exists vals, lookup_col fr' c = Some vals /\
                              map fill_missing vals = vals).
  { intros c Hin.
    assert (Hin' : In c [lit "exit_load"; lit "rating"] \/
                   In c [lit "average_maturity"; lit "yield_to_maturity"]).
    { destruct Hin as [<-|[<-|[<-|[<-|[]]]]];
        [left; now left|left; right; now left|right; now left|right; right; now left]. }
    destruct Hin' as [Hin'|Hin'].
    - rewrite (V c Hin').
      destruct (present_lookup fr (lit "type" :: columns_to_clean) c Hc) as (v & ->);
        [now right|].
      simpl. eexists. split; [reflexivity|].
      apply fill_missing_filled, filled_map.
    - destruct (Wm c Hin') as (vals & L & E & _). now exists vals. }
  exists st1. 
  destruct (clean_columns_as_map df columns_to_clean st1 st1 eq_refl) as (E1 & E2).
  rewrite (map_columns_fixed fill_missing df columns_to_clean st1 fr' N1 Wf) in E1, E2.
  cbn [fst snd] in E1, E2.
  destruct (clean_columns df columns_to_clean st1) as [r s] eqn:C.
  cbn [fst snd] in E1, E2. subst r.
  exists s. split; [exact R|]. split; [|exact E2].
  assert (Ns : nth_error (frames s) df = Some fr') by now rewrite E2.
  unfold handle_missing_values. unfold pbind at 1. rewrite C.
  unfold pbind at 1. unfold read at 1. rewrite Ns.
  unfold pbind at 1. unfold get_col at 1. rewrite Lt1. unfold pret at 1.
  fold mask. unfold pbind.
  rewrite (loc_assign_fixed df mask NA _ s fr' Ns); [reflexivity|].
  intros c Hin. destruct (Wm c Hin) as (vals & L & _ & E). now exists vals.
Qed.

(** X20: a table without [type] or without one of the four columns makes
    [handle_missing_values] raise [KeyError]. *)
Theorem handle_missing_values_needs_its_columns st df fr c :
  nth_error (frames st) df = Some fr ->
  In c (lit "type" :: columns_to_clean) ->
  lookup_col fr c = None ->
  fst (handle_missing_values df st) = Raise KeyError.
Proof.
  intros H Hin E.
  assert (K : (exists c, In c columns_to_clean /\ lookup_col fr c = None) ->
              fst (handle_missing_values df st) = Raise KeyError).
  { intros M.
    destruct (clean_columns_as_map df columns_to_clean st st eq_refl) as (E1 & _).
    rewrite (map_columns_missing fill_missing df columns_to_clean st fr H M) in E1.
    unfold handle_missing_values. unfold pbind at 1.
    destruct (clean_columns df columns_to_clean st) as [[u|e] s]; simpl in E1;
      [discriminate|]. simpl. congruence. }
  destruct Hin as [<-|Hin]; [|apply K; now exists c].
  destruct (columns_present_or_not fr columns_to_clean) as [Hp|M]; [|now apply K].
  destruct (clean_columns_values df columns_to_clean st fr H Hp)
    as (fr1 & R & _ & O & _).
  unfold handle_missing_values. unfold pbind at 1. rewrite R.
  unfold pbind at 1. unfold read at 1. cbn [frames].
  rewrite (nth_error_update_same _ _ _ _ H).
  unfold pbind at 1. unfold get_col at 1.
  rewrite O, E; [reflexivity|].
  intros X. vm_compute in X.
  repeat (destruct X as [X|X]; [discriminate|]). exact X.
Qed.

End MissingValues.

Section ValidationFacts.
Context {F : Type} {PF : PyFloat F}.
Implicit Types (fr : frame (F:=F)) (st : store (F:=F)).

Lemma check_returns_raises fr cols : forall st e s,
  check_returns fr cols st = (Raise e, s) -> e = KeyError.
Proof.
  induction cols as [|col cols IH]; intros st e s; simpl; [discriminate|].
  unfold pbind at 1.
  destruct (lookup_col fr col) as [vals|]; [|simpl; apply IH].
  destruct (existsb _ _); [|simpl; apply IH].
  unfold pbind at 1. unfold get_col.
  destruct (lookup_col fr "name"); simpl; [apply IH|congruence].
Qed.

Lemma validate_data_returns st df fr :
  nth_error (frames st) df = Some fr ->
  (forall c, In c [lit "equity_aum"; lit "aum"; lit "debt_per";
                   lit "equity_per"; lit "name"] ->
             lookup_col fr c <> None) ->
  fst (validate_data df st) = Ok df.
Proof.
  intros H Hc.
  destruct (present_lookup fr _ "equity_aum" Hc) as (ea & Lea); [now left|].
  destruct (present_lookup fr _ "aum" Hc) as (au & Lau); [right; now left|].
  destruct (present_lookup fr _ "debt_per" Hc) as (dp & Ldp);
    [right; right; now left|].
  destruct (present_lookup fr _ "equity_per" Hc) as (ep & Lep);
    [right; right; right; now left|].
  destruct (present_lookup fr _ "name" Hc) as (nm & Lnm);
    [right; right; right; right; now left|].
  unfold validate_data. unfold pbind at 1. unfold read. rewrite H.
  unfold pbind at 1.
  destruct (check_negative_ok fr
              [lit "aum"; lit "nav"; lit "minimum_investment";
               lit "minimum_sip_investment"; lit "equity_aum"] st) as (s1 & ->).
  unfold get_col. rewrite Lea, Lau, Ldp, Lep, Lnm.
  unfold pbind at 1. unfold pret at 1. unfold pbind at 1. unfold pret at 1.
  unfold pbind at 1.
  destruct (pwhen_ok (existsb (fun p => fltb (snd p) (fst p)) (valid_rows ea au))
              (emit WarnEquityAumExceeds) s1 (emit_ok _ _)) as (s2 & ->).
  unfold pbind at 1.
  destruct (check_returns_ok fr
              [lit "one_year_return"; lit "three_year_return";
               lit "five_year_return"] s2 nm Lnm) as (s3 & ->).
  unfold pbind at 1. unfold pret at 1. unfold pbind at 1. unfold pret at 1.
  unfold pbind at 1.
  match goal with
  | |- context [pwhen ?b ?m s3] =>
      destruct (pwhen_ok b m s3 (emit_ok _ _)) as (s4 & ->)
  end.
  unfold pbind at 1. unfold pret at 1. unfold pbind at 1.
  match goal with
  | |- context [pwhen ?b ?m s4] =>
      destruct (pwhen_ok b m s4 (emit_ok _ _)) as (s5 & ->)
  end.
  reflexivity.
Qed.

(** X21: a table without [equity_aum], [aum], [debt_per], [equity_per]
    or [name] makes [validate_data] raise [KeyError]; the columns of the
    two loops may be missing, these five may not. *)
Theorem validate_data_needs_five_columns st df fr c :
  nth_error (frames st) df = Some fr ->
  In c [lit "equity_aum"; lit "aum"; lit "debt_per"; lit "equity_per";
        lit "name"] ->
  lookup_col fr c = None ->
  fst (validate_data df st) = Raise KeyError.
Proof.
  intros H Hin E.
  unfold validate_data. unfold pbind at 1. unfold read. rewrite H.
  unfold pbind at 1.
  destruct (check_negative_ok fr
              [lit "aum"; lit "nav"; lit "minimum_investment";
               lit "minimum_sip_investment"; lit "equity_aum"] st) as (s1 & ->).
  unfold pbind at 1. unfold get_col at 1.
  destruct (lookup_col fr "equity_aum") as [ea|] eqn:Lea; [|reflexivity].
  unfold pret at 1. unfold pbind at 1. unfold get_col at 1.
  destruct (lookup_col fr "aum") as [au|] eqn:Lau; [|reflexivity].
  unfold pret at 1. unfold pbind at 1.
  destruct (pwhen_ok (existsb (fun p => fltb (snd p) (fst p)) (valid_rows ea au))
              (emit WarnEquityAumExceeds) s1 (emit_ok _ _)) as (s2 & ->).
  unfold pbind at 1.
  destruct (check_returns fr
              [lit "one_year_return"; lit "three_year_return";
               lit "five_year_return"] s2) as [[u|e] s3] eqn:CR;
    [|apply check_returns_raises in CR; now subst e].
  unfold pbind at 1. unfold get_col at 1.
  destruct (lookup_col fr "debt_per") as [dp|] eqn:Ldp; [|reflexivity].
  unfold pret at 1. unfold pbind at 1. unfold get_col at 1.
  destruct (lookup_col fr "equity_per") as [ep|] eqn:Lep; [|reflexivity].
  unfold pret at 1. unfold pbind at 1.
  match goal with
  | |- context [pwhen ?b ?m s3] =>
      destruct (pwhen_ok b m s3 (emit_ok _ _)) as (s4 & ->)
  end.
  unfold pbind at 1. unfold get_col at 1.
  destruct (lookup_col fr "name") as [nm|] eqn:Lnm; [|reflexivity].
  exfalso. destruct Hin as [<-|[<-|[<-|[<-|[<-|[]]]]]]; congruence.
Qed.

End ValidationFacts.

Section StandardizeFacts.
Context {F : Type} {PF : PyFloat F}.
Implicit Types (fr : frame (F:=F)) (st : store (F:=F)).
Variable to_numeric_text : pystr -> option F.
Variable str_of_number : F -> pystr.

Local Abbreviation coerce := (coerce_numeric to_numeric_text).
Local Abbreviation standardize :=
  (standardize_data_types to_numeric_text str_of_number).

Lemma coerce_numeric_number_or_na (c : cell (F:=F)) : number_or_na (coerce c).
Proof.
  unfold coerce_numeric.
  match goal with |- context [isnan ?x] => destruct (isnan x) eqn:E end.
  - now left.
  - right. eexists. split; [reflexivity|exact E].
Qed.

Lemma as_str_is_text (c : cell (F:=F)) : is_text (as_str str_of_number c).
Proof. destruct c; simpl; eexists; reflexivity. Qed.

Lemma as_str_fixed (c : cell (F:=F)) : is_text c -> as_str str_of_number c = c.
Proof. now intros (s & ->). Qed.

Lemma coerce_numeric_fixed {L : @NanLaw F PF} (c : cell (F:=F)) :
  to_numeric_text "N/A" = None -> number_or_na c -> coerce c = c.
Proof.
  intros Hna [->|(x & -> & E)]; unfold coerce_numeric.
  - unfold NA at 1. rewrite Hna. now rewrite isnan_nan.
  - now rewrite E.
Qed.

Lemma map_fixed {A} (f : A -> A) (P : A -> Prop) (l : list A) :
  (forall a, P a -> f a = a) -> Forall P l -> map f l = l.
Proof.
  intros Hf H. induction H as [|a l Ha _ IH]; simpl; [reflexivity|].
  now rewrite Hf, IH.
Qed.

Lemma forall_map {A} (f : A -> A) (P : A -> Prop) (l : list A) :
  (forall a, P (f a)) -> Forall P (map f l).
Proof. intros Hf. induction l; simpl; constructor; auto. Qed.

Lemma apart_by_check (a b : list pystr) :
  forallb (fun c => negb (existsb (str_eqb c) b)) a = true ->
  forall c, In c a -> ~ In c b.
Proof.
  intros H c Ha Hb. rewrite forallb_forall in H. specialize (H c Ha).
  apply negb_true_iff in H.
  assert (X : existsb (str_eqb c) b = true).
  { apply existsb_exists. exists c. split; [exact Hb|apply str_eqb_refl]. }
  congruence.
Qed.

Lemma nodup_by_check (l : list pystr) : nodupb l = true -> NoDup l.
Proof.
  induction l as [|c l IH]; simpl; [constructor|].
  intros H. apply andb_true_iff in H. destruct H as (H1 & H2).
  constructor; [|now apply IH].
  intros Hin. apply negb_true_iff in H1.
  assert (X : existsb (str_eqb c) l = true).
  { apply existsb_exists. exists c. split; [exact Hin|apply str_eqb_refl]. }
  congruence.
Qed.

Lemma map_columns_pass (f : cell (F:=F) -> cell (F:=F)) df cols st fr :
  nth_error (frames st) df = Some fr ->
  (fst (map_columns f df cols st) = Raise KeyError /\
   exists c, In c cols /\ lookup_col fr c = None) \/
  (exists fr',
     map_columns f df cols st =
       (Ok tt, {| frames := update (frames st) df fr'; log := log st |}) /\
     (forall c, In c cols -> lookup_col fr c <> None) /\
     (forall c, shape fr' c = shape fr c) /\
     (forall c, ~ In c cols -> lookup_col fr' c = lookup_col fr c) /\
     (NoDup cols -> forall c, In c cols ->
        lookup_col fr' c = option_map (map f) (lookup_col fr c))).
Proof.
  intros H. destruct (columns_present_or_not fr cols) as [Hp|M].
  - right. destruct (map_columns_values f df cols st fr H Hp) as (fr' & R & X).
    exists fr'. split; [exact R|]. split; [exact Hp|exact X].
  - left. split; [|exact M]. now apply map_columns_missing with (fr := fr).
Qed.

Lemma raise_passes {A B} (m : @P F A) (k : A -> @P F B) st e :
  fst (m st) = Raise e -> fst (pbind m k st) = Raise e.
Proof.
  unfold pbind. destruct (m st) as [[a|e'] s]; simpl; [discriminate|congruence].
Qed.

Lemma pbind_run {A B} (m : @P F A) (k : A -> @P F B) st a s :
  m st = (Ok a, s) -> pbind m k st = k a s.
Proof. unfold pbind. now intros ->. Qed.

(** Every run of [standardize_data_types] on a table: either a column is
    missing and it raises [KeyError], or it returns and the table is the
    old one converted column by column. *)
Lemma standardize_data_types_cases st df fr :
  nth_error (frames st) df = Some fr ->
  (fst (standardize df st) = Raise KeyError /\
   exists c, In c (numeric_cols ++ string_cols ++ [lit "exit_load"; lit "rating"]) /\
             lookup_col fr c = None) \/
  (exists fr',
     standardize df st =
       (Ok df, {| frames := update (frames st) df fr'; log := log st |}) /\
     (forall c, In c (numeric_cols ++ string_cols ++ [lit "exit_load"; lit "rating"]) ->
        lookup_col fr c <> None) /\
     (forall c, shape fr' c = shape fr c) /\
     (forall c, ~ In c (numeric_cols ++ string_cols ++ [lit "exit_load"; lit "rating"]) ->
        lookup_col fr' c = lookup_col fr c) /\
     (forall c, In c (numeric_cols ++ [lit "exit_load"; lit "rating"]) ->
        lookup_col fr' c = option_map (map coerce) (lookup_col fr c)) /\
     (forall c, In c string_cols ->
        lookup_col fr' c = option_map (map (as_str str_of_number)) (lookup_col fr c))).
Proof.
  intros H. unfold standardize_data_types.
  destruct (map_columns_pass coerce df numeric_cols st fr H)
    as [(R & c & Hin & E)|(fr1 & R1 & P1 & S1 & O1 & V1)].
  { left. split; [now apply raise_passes|].
    exists c. split; [|exact E]. apply in_or_app. now left. }
  rewrite (pbind_run _ _ _ _ _ R1). cbv beta.
  set (st1 := {| frames := update (frames st) df fr1; log := log st |}).
  assert (N1 : nth_error (frames st1) df = Some fr1).
  { simpl. eapply nth_error_update_same, H. }
  destruct (map_columns_pass (as_str str_of_number) df string_cols st1 fr1 N1)
    as [(R & c & Hin & E)|(fr2 & R2 & P2 & S2 & O2 & V2)].
  { left. split; [now apply raise_passes|].
    exists c. split; [|apply (shape_absent fr1); [now rewrite S1|exact E]].
    apply in_or_app. right. apply in_or_app. now left. }
  rewrite (pbind_run _ _ _ _ _ R2). cbv beta.
  set (st2 := {| frames := update (frames st1) df fr2; log := log st1 |}).
  assert (N2 : nth_error (frames st2) df = Some fr2).
  { simpl. eapply nth_error_update_same, N1. }
  destruct (map_columns_pass coerce df [lit "exit_load"] st2 fr2 N2)
    as [(R & c & Hin & E)|(fr3 & R3 & P3 & S3 & O3 & V3)].
  { left. split; [now apply raise_passes|].
    exists c. split.
    - apply in_or_app. right. apply in_or_app. right.
      destruct Hin as [<-|[]]. now left.
    - apply (shape_absent fr1); [now rewrite S1|].
      apply (shape_absent fr2); [now rewrite S2|exact E]. }
  rewrite (pbind_run _ _ _ _ _ R3). cbv beta.
  set (st3 := {| frames := update (frames st2) df fr3; log := log st2 |}).
  assert (N3 : nth_error (frames st3) df = Some fr3).
  { simpl. eapply nth_error_update_same, N2. }
  destruct (map_columns_pass coerce df [lit "rating"] st3 fr3 N3)
    as [(R & c & Hin & E)|(fr4 & R4 & P4 & S4 & O4 & V4)].
  { left. split; [now apply raise_passes|].
    exists c. split.
    - apply in_or_app. right. apply in_or_app. right.
      destruct Hin as [<-|[]]. right. now left.
    - apply (shape_absent fr1); [now rewrite S1|].
      apply (shape_absent fr2); [now rewrite S2|].
      apply (shape_absent fr3); [now rewrite S3|exact E]. }
  rewrite (pbind_run _ _ _ _ _ R4). cbv beta.
  unfold pret.
  right. exists fr4.
  assert (A12 : forall c, In c numeric_cols -> ~ In c string_cols)
    by (apply apart_by_check; reflexivity).
  assert (A13 : forall c, In c numeric_cols -> ~ In c [lit "exit_load"])
    by (apply apart_by_check; reflexivity).
  assert (A14 : forall c, In c numeric_cols -> ~ In c [lit "rating"])
    by (apply apart_by_check; reflexivity).
  assert (A21 : forall c, In c string_cols -> ~ In c numeric_cols)
    by (apply apart_by_check; reflexivity).
  assert (A23 : forall c, In c string_cols -> ~ In c [lit "exit_load"])
    by (apply apart_by_check; reflexivity).
  assert (A24 : forall c, In c string_cols -> ~ In c [lit "rating"])
    by (apply apart_by_check; reflexivity).
  assert (A3 : forall c, In c [lit "exit_load"; lit "rating"] ->
                         ~ In c (numeric_cols ++ string_cols))
    by (apply apart_by_check; reflexivity).
  assert (D1 : NoDup numeric_cols) by (apply nodup_by_check; reflexivity).
  assert (D2 : NoDup string_cols) by (apply nodup_by_check; reflexivity).
  assert (D3 : NoDup [lit "exit_load"]) by (apply nodup_by_check; reflexivity).
  assert (D4 : NoDup [lit "rating"]) by (apply nodup_by_check; reflexivity).
  split; [|split; [|split; [|split; [|split]]]].
  - unfold st3, st2, st1. cbn [frames log]. now rewrite !update_update.
  - intros c Hin. apply in_app_or in Hin. destruct Hin as [Hin|Hin];
      [now apply P1|].
    apply in_app_or in Hin. destruct Hin as [Hin|Hin].
    + apply (shape_present fr1); [now rewrite S1|now apply P2].
    + apply (shape_present fr1); [now rewrite S1|].
      apply (shape_present fr2); [now rewrite S2|].
      destruct Hin as [<-|[<-|[]]]; [apply P3; now left|].
      apply (shape_present fr3); [now rewrite S3|apply P4; now left].
  - intros c. now rewrite S4, S3, S2, S1.
  - intros c Hn.
    rewrite O4, O3, O2, O1; try reflexivity; intros X; apply Hn;
      apply in_or_app.
    + now left.
    + right. apply in_or_app. now left.
    + right. apply in_or_app. right. destruct X as [<-|[]]. now left.
    + right. apply in_or_app. right. destruct X as [<-|[]]. right. now left.
  - intros c Hin. apply in_app_or in Hin. destruct Hin as [Hin|Hin].
    + rewrite O4, O3, O2 by auto. now apply V1.
    + assert (Hn := A3 c Hin).
      assert (Hn1 : ~ In c numeric_cols)
        by (intros X; apply Hn, in_or_app; now left).
      assert (Hn2 : ~ In c string_cols)
        by (intros X; apply Hn, in_or_app; now right).
      destruct Hin as [<-|[<-|[]]].
      * rewrite O4 by (intros [X|[]]; discriminate X).
        rewrite (V3 D3) by now left. now rewrite O2, O1.
      * rewrite (V4 D4) by now left.
        rewrite O3 by (intros [X|[]]; discriminate X). now rewrite O2, O1.
  - intros c Hin. rewrite O4, O3 by auto. rewrite (V2 D2 c Hin).
    now rewrite O1 by auto.
Qed.

Lemma standardize_data_types_inv st df r st' :
  standardize df st = (Ok r, st') ->
  r = df /\
  exists fr fr',
    nth_error (frames st) df = Some fr /\
    st' = {| frames := update (frames st) df fr'; log := log st |} /\
    (forall c, In c (numeric_cols ++ string_cols ++ [lit "exit_load"; lit "rating"]) ->
       lookup_col fr c <> None) /\
    (forall c, shape fr' c = shape fr c) /\
    (forall c, In c (numeric_cols ++ [lit "exit_load"; lit "rating"]) ->
       lookup_col fr' c = option_map (map coerce) (lookup_col fr c)) /\
    (forall c, In c string_cols ->
       lookup_col fr' c = option_map (map (as_str str_of_number)) (lookup_col fr c)).
Proof.
  intros E. destruct (nth_error (frames st) df) as [fr|] eqn:H.
  - destruct (standardize_data_types_cases st df fr H)
      as [(R & _)|(fr' & R & Hp & Sh & _ & V & W)].
    + rewrite E in R. discriminate R.
    + rewrite E in R. injection R as -> ->.
      split; [reflexivity|]. exists fr, fr'. repeat split; assumption.
  - exfalso.
    assert (R : fst (standardize df st) = Raise OtherError).
    { unfold standardize_data_types, numeric_cols. cbn [map_columns].
      apply raise_passes, raise_passes. unfold read. now rewrite H. }
    rewrite E in R. discriminate R.
Qed.

(** X22: on a table that has the eighteen columns it converts,
    [standardize_data_types] returns the table it was given; the twelve
    numeric columns, [exit_load] and [rating] are the old columns read as
    numbers, with 'N/A' wherever no number was read, the four string
    columns are the old ones written as text, every other column and
    every other table of the program is what it was, and no column
    changes its number of rows. *)
Theorem standardize_data_types_converts_columns st df fr :
  nth_error (frames st) df = Some fr ->
  (forall c, In c (numeric_cols ++ string_cols ++ [lit "exit_load"; lit "rating"]) ->
     lookup_col fr c <> None) ->
  exists st' fr',
    standardize df st = (Ok df, st') /\
    nth_error (frames st') df = Some fr' /\
    (forall j, j <> df -> nth_error (frames st') j = nth_error (frames st) j) /\
    (forall c, shape fr' c = shape fr c) /\
    (forall c, ~ In c (numeric_cols ++ string_cols ++ [lit "exit_load"; lit "rating"]) ->
       lookup_col fr' c = lookup_col fr c) /\
    (forall c, In c (numeric_cols ++ [lit "exit_load"; lit "rating"]) ->
       lookup_col fr' c = option_map (map coerce) (lookup_col fr c)) /\
    (forall c, In c string_cols ->
       lookup_col fr' c = option_map (map (as_str str_of_number)) (lookup_col fr c)).
Proof.
  intros H Hp.
  destruct (standardize_data_types_cases st df fr H)
    as [(_ & c & Hin & E)|(fr' & R & _ & Sh & O & V & W)].
  { exfalso. now apply (Hp c Hin). }
  eexists. exists fr'. split; [exact R|]. cbn [frames].
  split; [eapply nth_error_update_same, H|].
  split; [intros j N; apply nth_error_update_other; congruence|].
  repeat split; assumption.
Qed.

(** X23: whenever [standardize_data_types] returns, every cell of the
    twelve numeric columns, of [exit_load] and of [rating] is a number
    that is not [nan] or the text 'N/A', and every cell of [name],
    [risk], [type] and [link] is a text. *)
Theorem standardized_cells_are_numbers_or_text st df r st' :
  standardize df st = (Ok r, st') ->
  r = df /\
  exists fr',
    nth_error (frames st') df = Some fr' /\
    (forall c vals, In c (numeric_cols ++ [lit "exit_load"; lit "rating"]) ->
       lookup_col fr' c = Some vals -> Forall number_or_na vals) /\
    (forall c vals, In c string_cols ->
       lookup_col fr' c = Some vals -> Forall is_text vals).
Proof.
  intros E. destruct (standardize_data_types_inv st df r st' E)
    as (-> & fr & fr' & H & -> & _ & _ & V & W).
  split; [reflexivity|]. exists fr'. cbn [frames].
  split; [eapply nth_error_update_same, H|]. split.
  - intros c vals Hin L. rewrite (V c Hin) in L.
    destruct (lookup_col fr c); [|discriminate]. simpl in L. injection L as <-.
    apply forall_map, coerce_numeric_number_or_na.
  - intros c vals Hin L. rewrite (W c Hin) in L.
    destruct (lookup_col fr c); [|discriminate]. simpl in L. injection L as <-.
    apply forall_map, as_str_is_text.
Qed.

(** X24: [standardize_data_types] is idempotent: when 'N/A' is no number
    to [pd.to_numeric], a second call on the result of the first returns
    again and changes nothing. *)
Theorem standardize_data_types_is_idempotent {L : @NanLaw F PF} st df r st' :
  to_numeric_text "N/A" = None ->
  standardize df st = (Ok r, st') ->
  standardize r st' = (Ok r, st').
Proof.
  intros Hna E. destruct (standardize_data_types_inv st df r st' E)
    as (-> & fr & fr' & H & -> & Hp & _ & V & W).
  set (st1 := {| frames := update (frames st) df fr'; log := log st |}).
  assert (N1 : nth_error (frames st1) df = Some fr').
  { simpl. eapply nth_error_update_same, H. }
  assert (Fn : forall cols,
             (forall c, In c cols ->
                        In c (numeric_cols ++ [lit "exit_load"; lit "rating"])) ->
             map_columns coerce df cols st1 = (Ok tt, st1)).
  { intros cols Hsub. apply map_columns_fixed with (fr := fr'); [exact N1|].
    intros c Hin. specialize (Hsub c Hin). rewrite (V c Hsub).
    destruct (present_lookup fr _ c Hp) as (v & ->).
    { apply in_app_or in Hsub. apply in_or_app.
      destruct Hsub as [X|X]; [now left|]. right. apply in_or_app. now right. }
    simpl. eexists. split; [reflexivity|].
    apply map_fixed with (P := number_or_na).
    - intros a. now apply coerce_numeric_fixed.
    - apply forall_map, coerce_numeric_number_or_na. }
  assert (Fs : map_columns (as_str str_of_number) df string_cols st1 = (Ok tt, st1)).
  { apply map_columns_fixed with (fr := fr'); [exact N1|].
    intros c Hin. rewrite (W c Hin).
    destruct (present_lookup fr _ c Hp) as (v & ->).
    { apply in_or_app. right. apply in_or_app. now left. }
    simpl. eexists. split; [reflexivity|].
    apply map_fixed with (P := is_text).
    - apply as_str_fixed.
    - apply forall_map, as_str_is_text. }
  unfold standardize_data_types.
  assert (Fe := Fn [lit "exit_load"]). assert (Fr := Fn [lit "rating"]).
  rewrite (pbind_run _ _ _ _ _ (Fn numeric_cols
             (fun c X => in_or_app _ _ c (or_introl X)))). cbv beta.
  rewrite (pbind_run _ _ _ _ _ Fs). cbv beta.
  rewrite (pbind_run _ _ _ _ _ (Fe ltac:(intros c [<-|[]]; apply in_or_app; right; now left))).
  cbv beta.
  rewrite (pbind_run _ _ _ _ _ (Fr ltac:(intros c [<-|[]]; apply in_or_app; right; right; now left))).
  reflexivity.
Qed.

(** X25: after [standardize_data_types] the table always passes through
    [validate_data]: the five columns that function cannot do without are
    among those the conversion has just read. *)
Theorem validation_follows_standardization st df r st' :
  standardize df st = (Ok r, st') ->
  fst (validate_data r st') = Ok r.
Proof.
  intros E. destruct (standardize_data_types_inv st df r st' E)
    as (-> & fr & fr' & H & -> & Hp & Sh & _).
  apply validate_data_returns with (fr := fr').
  - simpl. eapply nth_error_update_same, H.
  - intros c Hin. apply (shape_present fr); [apply Sh|]. apply Hp.
    vm_compute in Hin |- *.
    destruct Hin as [<-|[<-|[<-|[<-|[<-|[]]]]]]; auto 20.
Qed.

(** X26: a table without one of the eighteen columns makes
    [standardize_data_types] raise [KeyError]. *)
Theorem standardize_data_types_needs_its_columns st df fr c :
  nth_error (frames st) df = Some fr ->
  In c (numeric_cols ++ string_cols ++ [lit "exit_load"; lit "rating"]) ->
  lookup_col fr c = None ->
  fst (standardize df st) = Raise KeyError.
Proof.
  intros H Hin E.
  destruct (standardize_data_types_cases st df fr H)
    as [(R & _)|(fr' & _ & Hp & _)]; [exact R|].
  exfalso. now apply (Hp c Hin).
Qed.

End StandardizeFacts.

Section RecordFacts.
Context {F : Type} {PF : PyFloat F}.
Implicit Types (fr : frame (F:=F)) (st : store (F:=F)).
Variable json_loads : pystr -> option (value (F:=F)).

Section Rows.
Context {A : Type}.
Variable conv : value (F:=F) -> option A.
Variables k1 k2 : pystr.

Local Abbreviation records_of := (rows_records json_loads conv k1 k2).

Lemma rows_records_app names1 cells1 names2 cells2 :
  List.length names1 = List.length cells1 ->
  records_of (names1 ++ names2) (cells1 ++ cells2) =
    records_of names1 cells1 ++ records_of names2 cells2.
Proof.
  revert cells1. induction names1 as [|n names1 IH]; intros [|c cells1]; simpl;
    try discriminate; [reflexivity|].
  intros [= E]. now rewrite IH, app_assoc.
Qed.

Lemma entry_records_cut name good bad rest recs :
  Forall2 (fun e r => entry_record conv k1 k2 name e = Some r) good recs ->
  entry_record conv k1 k2 name bad = None ->
  entry_records conv k1 k2 name (good ++ bad :: rest) = recs.
Proof.
  intros H B. induction H as [|e r good recs E _ IH]; simpl.
  - now rewrite B.
  - now rewrite E, IH.
Qed.

Lemma rows_without_entries names cells :
  (forall c, In (Some c) cells ->
     cell_entries json_loads c = None \/ cell_entries json_loads c = Some []) ->
  records_of names cells = [].
Proof.
  revert cells. induction names as [|n names IH]; intros [|c cells] H; simpl;
    try reflexivity.
  rewrite IH by (intros c' Hin; apply H; now right).
  rewrite app_nil_r. destruct c as [c|]; simpl; [|reflexivity].
  destruct (H c (or_introl eq_refl)) as [-> | ->]; reflexivity.
Qed.

Lemma column_without_entries fr col names :
  (forall vals c, lookup_col fr col = Some vals -> In c vals ->
     cell_entries json_loads c = None \/ cell_entries json_loads c = Some []) ->
  records_of names (column_cells fr col names) = [].
Proof.
  intros H. apply rows_without_entries. intros c Hin.
  unfold column_cells in Hin. destruct (lookup_col fr col) as [vals|].
  - apply in_map_iff in Hin. destruct Hin as (c' & [= ->] & Hin).
    now apply (H vals).
  - apply in_map_iff in Hin. destruct Hin as (? & X & _). discriminate X.
Qed.

End Rows.

Lemma not_nil_app {A} (a b c : list A) : b <> [] -> is_nil (a ++ b ++ c) = false.
Proof. intros N. destruct a; [|reflexivity]. destruct b; [congruence|reflexivity]. Qed.

(** X27: when no list of the column holds an entry (every cell is an
    empty list, is not a list or cannot be parsed, or the table has no
    row or not the column at all), the function does not return an
    empty table: the table made of no record has no column, and reading
    its number column raises [KeyError] out of the function.  This holds
    for [process_historical_nav], [process_top_holdings] and
    [process_sector_allocation] alike. *)
Theorem tables_without_entries_raise_key_error
    (timestamp : Type) (to_datetime : value (F:=F) -> option timestamp)
    (sort_values : list (row_record timestamp) -> result (list (row_record timestamp)))
    st df fr :
  nth_error (frames st) df = Some fr ->
  (no_entries json_loads fr "historical_nav" ->
   fst (process_historical_nav json_loads to_datetime sort_values df st)
     = Raise KeyError) /\
  (no_entries json_loads fr "top_holdings" ->
   fst (process_top_holdings json_loads df st) = Raise KeyError) /\
  (no_entries json_loads fr "sector_allocation" ->
   fst (process_sector_allocation json_loads df st) = Raise KeyError).
Proof.
  intros H.
  unfold process_historical_nav, process_top_holdings, process_sector_allocation.
  repeat split; intros N; unfold pbind, read, get_col; rewrite H;
    (destruct (lookup_col fr "name") as [names|]; [|reflexivity]);
    unfold pret at 1; rewrite (column_without_entries _ _ _ _ _ _ N);
    reflexivity.
Qed.

(** X28: an entry of a holdings list that cannot be made into a record
    ends the work on its row only: the records of the entries before it
    stay in the table, the entries after it give none, and the rows
    before and after give the records they give on their own. *)
Theorem malformed_holding_cuts_its_row st df fr
    names_before name names_after cells_before c cells_after good bad rest recs :
  nth_error (frames st) df = Some fr ->
  lookup_col fr "name" = Some (names_before ++ name :: names_after) ->
  lookup_col fr "top_holdings" = Some (cells_before ++ c :: cells_after) ->
  List.length names_before = List.length cells_before ->
  cell_entries json_loads c = Some (good ++ bad :: rest) ->
  Forall2 (fun e r => entry_record Some "company" "percentage" name e = Some r)
    good recs ->
  entry_record Some "company" "percentage" name bad = None ->
  recs <> [] ->
  process_top_holdings json_loads df st =
    (Ok (rows_records json_loads Some "company" "percentage"
           names_before (map Some cells_before)
         ++ recs
         ++ rows_records json_loads Some "company" "percentage"
              names_after (map Some cells_after)),
     st).
Proof.
  intros H Ln Lc El Ec Hg Hb Hr.
  unfold process_top_holdings, pbind, read, get_col. rewrite H, Ln.
  unfold pret at 1. unfold column_cells. rewrite Lc, map_app.
  rewrite rows_records_app by now rewrite length_map.
  cbn [map rows_records row_records]. rewrite Ec.
  rewrite (entry_records_cut _ _ _ _ _ _ _ _ Hg Hb).
  unfold DataFrame. now rewrite not_nil_app.
Qed.

End RecordFacts.

(** * The further properties on sample inputs *)

Lemma discover_bound_witness :
  exists funds,
    fst (discover 5%nat 0%nat [] [] (listing_once (F:=b64) two_cards_doc) started)
      = Ok (Some funds) /\
    (List.length funds <= MAX_FUNDS)%nat.
Proof.
  assert (E : {funds | fst (discover 5%nat 0%nat [] []
                              (listing_once (F:=b64) two_cards_doc) started)
                       = Ok (Some funds)}).
  { vm_compute. eexists. reflexivity. }
  destruct E as [funds E]. exists funds. split; [exact E|].
  exact (discover_returns_at_most_max_funds _ _ _ _ E).
Defined.

(** The two funds of the page are found, with absolute links. *)
Example two_funds_discovered :
  fst (discover 5%nat 0%nat [] [] (listing_once (F:=b64) two_cards_doc) started)
    = Ok (Some [ listed "Fund A" "https://groww.in/mutual-funds/abc";
                 listed "Fund B" "https://groww.in/mutual-funds/xyz" ]).
Proof. vm_compute. reflexivity. Qed.

Lemma add_funds_witness :
  add_funds [ listed "Fund A" plain_link; listed "Fund A" suffixed_link;
              listed "Fund B" queried_link ] [] []
    = (rev (map key_of
              (firstn (MAX_FUNDS - List.length (@nil fund))
                 (first_seen []
                    [ listed "Fund A" plain_link; listed "Fund A" suffixed_link;
                      listed "Fund B" queried_link ]))) ++ [],
       [] ++ firstn (MAX_FUNDS - List.length (@nil fund))
               (first_seen []
                  [ listed "Fund A" plain_link; listed "Fund A" suffixed_link;
                    listed "Fund B" queried_link ])).
Proof.
  apply (add_funds_appends_first_seen
           [ listed "Fund A" plain_link; listed "Fund A" suffixed_link;
             listed "Fund B" queried_link ] [] []).
  unfold MAX_FUNDS. simpl. lia.
Defined.

(** Of three entries, the second is the first under another link. *)
Example second_entry_is_dropped :
  snd (add_funds [ listed "Fund A" plain_link; listed "Fund A" suffixed_link;
                   listed "Fund B" queried_link ] [] [])
    = [ listed "Fund A" plain_link; listed "Fund B" queried_link ].
Proof. vm_compute. reflexivity. Qed.

Lemma discovered_funds_witness :
  exists funds,
    fst (discover 5%nat 0%nat [] [] (listing_once (F:=b64) two_cards_doc) started)
      = Ok (Some funds) /\
    Forall well_formed_fund funds.
Proof.
  assert (E : {funds | fst (discover 5%nat 0%nat [] []
                              (listing_once (F:=b64) two_cards_doc) started)
                       = Ok (Some funds)}).
  { vm_compute. eexists. reflexivity. }
  destruct E as [funds E]. exists funds. split; [exact E|].
  exact (discovered_funds_are_well_formed _ _ _ _ E).
Defined.

Lemma top_holdings_witness :
  exists top_holdings,
    fst (extract_top_holdings code_12345 fund_page
           (serving_page (F:=b64) seven_holdings_doc) started) = Ok top_holdings /\
    (List.length top_holdings <= 5)%nat.
Proof.
  assert (E : {h | fst (extract_top_holdings code_12345 fund_page
                          (serving_page (F:=b64) seven_holdings_doc) started)
                   = Ok h}).
  { vm_compute. eexists. reflexivity. }
  destruct E as [h E]. exists h. split; [exact E|].
  exact (at_most_five_top_holdings _ _ _ _ _ E).
Defined.

(** Seven rows in the table, five holdings kept. *)
Example five_of_seven_holdings :
  option_map (fun h => map company h)
    (match fst (extract_top_holdings code_12345 fund_page
                  (serving_page (F:=b64) seven_holdings_doc) started) with
     | Ok h => Some h
     | Raise _ => None
     end)
    = Some [lit "A"; lit "B"; lit "C"; lit "D"; lit "E"].
Proof. vm_compute. reflexivity. Qed.

Lemma amfi_window_witness :
  exists navs,
    fst (fetch_amfi_nav code_12345 default_start_date default_end_date
           (serving_nav (F:=b64) (Raise RequestException)) started) = Ok navs /\
    (forall p, In p navs ->
       str_leb default_start_date (date p) = true /\
       str_leb (date p) default_end_date = true) /\
    (forall df wanted,
       csv_at (serving_nav (F:=b64) (Raise RequestException)) (clock started) amfi_url
         = Ok df ->
       match code_12345 with Some s => int_of_str s | None => None end = Some wanted ->
       (List.length navs <= List.length (filter (code_is wanted) df))%nat).
Proof.
  assert (E : {navs | fst (fetch_amfi_nav code_12345 default_start_date
                             default_end_date
                             (serving_nav (F:=b64) (Raise RequestException)) started)
                      = Ok navs}).
  { vm_compute. eexists. reflexivity. }
  destruct E as [navs E]. exists navs. split; [exact E|].
  exact (amfi_navs_lie_in_the_window _ _ _ _ _ _ E).
Defined.

(** The one row of scheme 12345 is returned, dated as the feed dates it. *)
Example one_nav_from_the_feed :
  option_map (map date)
    (match fst (fetch_amfi_nav code_12345 default_start_date default_end_date
                  (serving_nav (F:=b64) (Raise RequestException)) started) with
     | Ok navs => Some navs
     | Raise _ => None
     end)
    = Some [lit "2025-01-06"].
Proof. vm_compute. reflexivity. Qed.

Lemma amfi_fallback_witness :
  fst (fetch_amfi_nav code_12345 default_start_date default_end_date
         (empty_feed (F:=b64)) started) = Ok [] /\
  fst (fetch_amfi_nav (Some (lit "12a45")) default_start_date default_end_date
         (serving_nav (F:=b64) (Raise RequestException)) started) = Ok [].
Proof.
  split.
  - apply (proj1 (amfi_fallback_degrades_to_empty
                    (empty_feed (F:=b64)) started code_12345
                    default_start_date default_end_date) EmptyDataError).
    + simpl. left. reflexivity.
    + reflexivity.
  - apply (proj2 (amfi_fallback_degrades_to_empty
                    (serving_nav (F:=b64) (Raise RequestException)) started
                    (Some (lit "12a45")) default_start_date default_end_date) feed).
    + reflexivity.
    + reflexivity.
Defined.

Lemma answered_primary_call_witness :
  snd (extract_historical_nav code_12345 12
         (serving_nav (F:=b64)
            (Ok {| folio_data := [NavOther; NavPair (JStr "x") JNull] |})) started)
    = {| clock := S (clock started);
         trace := trace started ++ [Get (nav_url code_12345 12)] |} /\
  forall navs,
    fst (extract_historical_nav code_12345 12
           (serving_nav (F:=b64)
              (Ok {| folio_data := [NavOther; NavPair (JStr "x") JNull] |})) started)
      = Ok navs ->
    (List.length navs
     <= List.length (folio_data
                       {| folio_data := [NavOther; NavPair (F:=b64) (JStr "x") JNull] |}))%nat.
Proof.
  apply (answered_primary_call_is_final
           (serving_nav (F:=b64)
              (Ok {| folio_data := [NavOther; NavPair (JStr "x") JNull] |}))
           started code_12345 12
           {| folio_data := [NavOther; NavPair (JStr "x") JNull] |}).
  - reflexivity.
  - reflexivity.
  - intros t e [= <-]. split; discriminate.
Defined.

Lemma answered_retry_witness :
  extract_portfolio_stats code_12345 "Equity" default_retries default_retry_delay
    (stats_after (F:=b64) 2 (stats_with 0 100 three_sectors)) started
  = (Ok (Some (stats_of_response "Equity" (stats_with 0 100 three_sectors))),
     {| clock := clock started + 3;
        trace := trace started
                 ++ List.concat
                      (repeat [Get (stats_url code_12345); Sleep default_retry_delay] 2)
                 ++ [Get (stats_url code_12345); Sleep 1] |}).
Proof.
  apply (answered_retry_gives_statistics
           (stats_after (F:=b64) 2 (stats_with 0 100 three_sectors)) started
           code_12345 "Equity" default_retries default_retry_delay 2%nat
           (stats_with 0 100 three_sectors)).
  - reflexivity.
  - unfold default_retries. lia.
  - intros i Hi. exists RequestException. split.
    + simpl. right. right. left. reflexivity.
    + destruct i as [|[|i]]; [reflexivity|reflexivity|lia].
  - reflexivity.
Defined.

Lemma other_errors_witness :
  extract_portfolio_stats code_12345 "Equity" default_retries default_retry_delay
    (stats_broken (F:=b64)) started
  = (Raise AttributeError,
     {| clock := S (clock started);
        trace := trace started ++ [Get (stats_url code_12345)] |}).
Proof.
  apply (other_errors_escape_the_retry_loop
           (stats_broken (F:=b64)) started code_12345 "Equity"
           default_retries default_retry_delay AttributeError).
  - reflexivity.
  - unfold default_retries. lia.
  - simpl. intros [X|[X|[X|[]]]]; discriminate X.
  - reflexivity.
Defined.

Lemma sectors_cap_witness :
  List.length (sector_allocation
                 (stats_of_response "Equity" (stats_with (F:=b64) 0 100 three_sectors)))
    = Nat.min 4 (List.length (sector_entries (stats_with (F:=b64) 0 100 three_sectors))) /\
  Permutation (sector_entries (stats_with (F:=b64) 0 100 three_sectors))
    (sector_allocation
       (stats_of_response "Equity" (stats_with (F:=b64) 0 100 three_sectors))).
Proof.
  destruct (sectors_are_capped_at_four (F:=b64) "Equity"
              (stats_with 0 100 three_sectors)) as [L P].
  split; [exact L|]. apply P. simpl. lia.
Defined.

Lemma exit_load_witness :
  scan_exit_load (F:=b64)
    ([lit "Expense ratio: 0.5%"]
     ++ lit "Exit load of 1% if redeemed within 10% of the period"
     :: [lit "Exit load: 2%"])
  = of_Z 0.
Proof.
  apply (exit_load_is_zero_when_text_has_0_percent (F:=b64)
           [lit "Expense ratio: 0.5%"]
           (lit "Exit load of 1% if redeemed within 10% of the period")
           [lit "Exit load: 2%"]).
  - intros t [<-|[]]. reflexivity.
  - reflexivity.
  - reflexivity.
Defined.

Lemma process_returns_witness :
  (forall one_year three_year five_year,
     process_returns (F:=b64)
       [[lit "12.5%"; lit "NA"; lit "8%"]; [lit "NA"; lit "NA"; lit "NA"]] 2
       = Ok (one_year, three_year, five_year) ->
     List.length one_year = Nat.max 2 2 /\
     List.length three_year = Nat.max 2 2 /\
     List.length five_year = Nat.max 2 2) /\
  process_returns (F:=b64)
    [[lit "12.5%"; lit "NA"; lit "8%"]; [lit "NA"; lit "NA"; lit "NA"]] 2
    <> Raise OtherError.
Proof.
  destruct (process_returns_lists_have_one_length (F:=b64)
              [[lit "12.5%"; lit "NA"; lit "8%"]; [lit "NA"; lit "NA"; lit "NA"]]
              2%nat) as [L N].
  split; [exact L|]. apply N. repeat constructor.
Defined.

Lemma scheme_code_witness :
  exists g,
    fst (extract_scheme_code scripts_with_code fund_page
           (serving_page (F:=b64) empty_doc) started) = Ok (Some g) /\
    g <> [] /\ forallb is_digit g = true /\
    no_code (Some g) = false /\
    exists z, int_of_str g = Some z /\ (0 <= z)%Z.
Proof.
  assert (E : {g | fst (extract_scheme_code scripts_with_code fund_page
                          (serving_page (F:=b64) empty_doc) started)
                   = Ok (Some g)}).
  { vm_compute. eexists. reflexivity. }
  destruct E as [g E]. exists g. split; [exact E|].
  exact (scheme_codes_are_digit_strings scripts_with_code _ _ _ _ E).
Defined.

(** The code is read out of the second script. *)
Example code_120503_is_found :
  fst (extract_scheme_code scripts_with_code fund_page
         (serving_page (F:=b64) empty_doc) started) = Ok (Some (lit "120503")).
Proof. vm_compute. reflexivity. Qed.

Lemma analysis_witness :
  exists a,
    fst (main_analysis no_scripts 5%nat
           (listing_once (F:=b64) two_cards_doc) started) = Ok (Some a) /\
    exists n, (n <= MAX_FUNDS)%nat /\ analysis_lengths a = repeat n 24.
Proof.
  assert (E : {a | fst (main_analysis no_scripts 5%nat
                          (listing_once (F:=b64) two_cards_doc) started)
                   = Ok (Some a)}).
  { vm_compute. eexists. reflexivity. }
  destruct E as [a E]. exists a. split; [exact E|].
  exact (analysis_lists_have_one_length no_scripts _ _ _ _ E).
Defined.

Lemma fund_without_code_witness :
  exists row,
    extract_fund no_scripts (listed "Fund A" plain_link)
      (serving_page (F:=b64) sip_only_doc) started =
      (Ok row,
       {| clock := S (S (clock started));
          trace := trace started
                   ++ [Get (link (listed "Fund A" plain_link));
                       Get (link (listed "Fund A" plain_link));
                       Sleep DELAY_SECONDS] |}) /\
    row_code row = None /\ row_nav row = [] /\ row_holdings row = [] /\
    row_sectors row = [] /\ row_asset row = asset_alloc unavailable_stats /\
    row_equity_aum row = nan.
Proof.
  apply (fund_without_code_costs_two_requests no_scripts
           (serving_page (F:=b64) sip_only_doc) started
           (listed "Fund A" plain_link)).
  - exact I.
  - exact I.
  - reflexivity.
Defined.

Ltac listed_column H :=
  vm_compute in H; repeat (destruct H as [<-|H]; [vm_compute; discriminate|]);
  destruct H.

Lemma four_columns_witness :
  exists st' fr',
    handle_missing_values 0%nat (raw_store (F:=b64)) = (Ok 0%nat, st') /\
    nth_error (frames st') 0%nat = Some fr' /\
    (forall j, j <> 0%nat ->
       nth_error (frames st') j = nth_error (frames (raw_store (F:=b64))) j) /\
    log st' = log (raw_store (F:=b64)) ++ map InfoReplaced columns_to_clean /\
    (forall c, shape fr' c = shape (raw_table (F:=b64)) c) /\
    (forall c, ~ In c columns_to_clean -> lookup_col fr' c = lookup_col (raw_table (F:=b64)) c) /\
    (forall c, In c [lit "exit_load"; lit "rating"] ->
       lookup_col fr' c = option_map (map fill_missing) (lookup_col (raw_table (F:=b64)) c)).
Proof.
  apply (handle_missing_values_rewrites_four_columns
           (raw_store (F:=b64)) 0%nat raw_table).
  - reflexivity.
  - intros c H. listed_column H.
Defined.

Lemma no_missing_cell_witness :
  exists st' fr',
    handle_missing_values 0%nat (raw_store (F:=b64)) = (Ok 0%nat, st') /\
    nth_error (frames st') 0%nat = Some fr' /\
    (forall c vals, In c columns_to_clean -> lookup_col fr' c = Some vals ->
       existsb missing vals = false) /\
    (forall c types old new i t x,
       In c [lit "average_maturity"; lit "yield_to_maturity"] ->
       lookup_col (raw_table (F:=b64)) "type" = Some types ->
       lookup_col (raw_table (F:=b64)) c = Some old ->
       lookup_col fr' c = Some new ->
       nth_error types i = Some t -> is_str "Equity" t = false ->
       nth_error old i = Some x ->
       nth_error new i = Some (fill_missing x)).
Proof.
  apply (cleaned_columns_hold_no_missing_cell
           (raw_store (F:=b64)) 0%nat raw_table).
  - reflexivity.
  - intros c H. listed_column H.
Defined.

Lemma idempotent_cleaning_witness :
  exists st1 st2,
    handle_missing_values 0%nat (raw_store (F:=b64)) = (Ok 0%nat, st1) /\
    handle_missing_values 0%nat st1 = (Ok 0%nat, st2) /\
    frames st2 = frames st1.
Proof.
  apply (handle_missing_values_is_idempotent
           (raw_store (F:=b64)) 0%nat raw_table).
  - reflexivity.
  - intros c H. listed_column H.
Defined.

Lemma cleaning_key_error_witness :
  fst (handle_missing_values 0%nat
         {| frames := [names_only (F:=b64)]; log := [] |}) = Raise KeyError.
Proof.
  apply (handle_missing_values_needs_its_columns
           {| frames := [names_only (F:=b64)]; log := [] |} 0%nat names_only
           "rating").
  - reflexivity.
  - right. right. left. reflexivity.
  - reflexivity.
Defined.

Lemma validation_key_error_witness :
  fst (validate_data 0%nat
         {| frames := [names_only (F:=b64)]; log := [] |}) = Raise KeyError.
Proof.
  apply (validate_data_needs_five_columns
           {| frames := [names_only (F:=b64)]; log := [] |} 0%nat names_only
           "debt_per").
  - reflexivity.
  - right. right. left. reflexivity.
  - reflexivity.
Defined.

Lemma converted_columns_witness :
  exists st' fr',
    standardize_data_types float_of_str number_text 0%nat (full_store (F:=b64))
      = (Ok 0%nat, st') /\
    nth_error (frames st') 0%nat = Some fr' /\
    (forall j, j <> 0%nat ->
       nth_error (frames st') j = nth_error (frames (full_store (F:=b64))) j) /\
    (forall c, shape fr' c = shape (full_table (F:=b64)) c) /\
    (forall c, ~ In c (numeric_cols ++ string_cols ++ [lit "exit_load"; lit "rating"]) ->
       lookup_col fr' c = lookup_col (full_table (F:=b64)) c) /\
    (forall c, In c (numeric_cols ++ [lit "exit_load"; lit "rating"]) ->
       lookup_col fr' c
       = option_map (map (coerce_numeric float_of_str)) (lookup_col (full_table (F:=b64)) c)) /\
    (forall c, In c string_cols ->
       lookup_col fr' c
       = option_map (map (as_str number_text)) (lookup_col (full_table (F:=b64)) c)).
Proof.
  apply (standardize_data_types_converts_columns float_of_str number_text
           (full_store (F:=b64)) 0%nat full_table).
  - reflexivity.
  - intros c H. listed_column H.
Defined.

(** The second fund: its name, a number, becomes a text; its [aum], a
    text, becomes a number; what is no number becomes 'N/A'. *)
Example full_table_standardized :
  match standardize_data_types float_of_str number_text 0%nat
          (full_store (F:=b64)) with
  | (Ok _, st') =>
      match nth_error (frames st') 0%nat with
      | Some fr' =>
          lookup_col fr' "name" = Some [Str "Fund A"; Str "7"] /\
          lookup_col fr' "aum" = Some [Num (of_Z 1200); Num (of_Z 900)] /\
          lookup_col fr' "one_year_return" = Some [Num (of_Z 12); NA] /\
          lookup_col fr' "rating" = Some [Num (of_Z 4); NA] /\
          lookup_col fr' "link"
            = Some [Str "https://groww.in/mutual-funds/abc"; Str "None"]
      | None => False
      end
  | _ => False
  end.
Proof. vm_compute. repeat split; reflexivity. Qed.

Lemma standardized_cells_witness :
  exists st',
    standardize_data_types float_of_str number_text 0%nat (full_store (F:=b64))
      = (Ok 0%nat, st') /\
    exists fr',
      nth_error (frames st') 0%nat = Some fr' /\
      (forall c vals, In c (numeric_cols ++ [lit "exit_load"; lit "rating"]) ->
         lookup_col fr' c = Some vals -> Forall number_or_na vals) /\
      (forall c vals, In c string_cols ->
         lookup_col fr' c = Some vals -> Forall is_text vals).
Proof.
  assert (E : {st' | standardize_data_types float_of_str number_text 0%nat
                       (full_store (F:=b64)) = (Ok 0%nat, st')}).
  { vm_compute. eexists. reflexivity. }
  destruct E as [st' E]. exists st'. split; [exact E|].
  exact (proj2 (standardized_cells_are_numbers_or_text float_of_str number_text
                  _ _ _ _ E)).
Defined.

Lemma idempotent_conversion_witness :
  exists st',
    standardize_data_types float_of_str number_text 0%nat (full_store (F:=b64))
      = (Ok 0%nat, st') /\
    standardize_data_types float_of_str number_text 0%nat st' = (Ok 0%nat, st').
Proof.
  assert (E : {st' | standardize_data_types float_of_str number_text 0%nat
                       (full_store (F:=b64)) = (Ok 0%nat, st')}).
  { vm_compute. eexists. reflexivity. }
  destruct E as [st' E]. exists st'. split; [exact E|].
  apply (standardize_data_types_is_idempotent float_of_str number_text
           (full_store (F:=b64)) 0%nat 0%nat st').
  - vm_compute. reflexivity.
  - exact E.
Defined.

Lemma validation_follows_witness :
  exists st',
    standardize_data_types float_of_str number_text 0%nat (full_store (F:=b64))
      = (Ok 0%nat, st') /\
    fst (validate_data 0%nat st') = Ok 0%nat.
Proof.
  assert (E : {st' | standardize_data_types float_of_str number_text 0%nat
                       (full_store (F:=b64)) = (Ok 0%nat, st')}).
  { vm_compute. eexists. reflexivity. }
  destruct E as [st' E]. exists st'. split; [exact E|].
  exact (validation_follows_standardization float_of_str number_text _ _ _ _ E).
Defined.

Lemma conversion_key_error_witness :
  fst (standardize_data_types float_of_str number_text 0%nat
         {| frames := [names_only (F:=b64)]; log := [] |}) = Raise KeyError.
Proof.
  apply (standardize_data_types_needs_its_columns float_of_str number_text
           {| frames := [names_only (F:=b64)]; log := [] |} 0%nat names_only
           "risk").
  - reflexivity.
  - vm_compute. do 13 right. left. reflexivity.
  - reflexivity.
Defined.

Ltac no_entry_in H Hin :=
  vm_compute in H; injection H as <-;
  repeat (destruct Hin as [<-|Hin];
          [vm_compute; first [left; reflexivity|right; reflexivity]|]);
  destruct Hin.

Lemma tables_without_entries_witness :
  fst (process_historical_nav sample_loads
         (fun v => match v with VStr s => Some s | _ => None end)
         (fun records => Ok records) 0%nat
         {| frames := [bare_table (F:=b64)]; log := [] |}) = Raise KeyError /\
  fst (process_top_holdings sample_loads 0%nat
         {| frames := [bare_table (F:=b64)]; log := [] |}) = Raise KeyError /\
  fst (process_sector_allocation sample_loads 0%nat
         {| frames := [bare_table (F:=b64)]; log := [] |}) = Raise KeyError.
Proof.
  destruct (tables_without_entries_raise_key_error sample_loads pystr
              (fun v => match v with VStr s => Some s | _ => None end)
              (fun records => Ok records)
              {| frames := [bare_table (F:=b64)]; log := [] |} 0%nat bare_table
              eq_refl) as (N & H & S).
  split; [|split].
  - apply N. intros vals c L Hin. no_entry_in L Hin.
  - apply H. intros vals c L Hin. no_entry_in L Hin.
  - apply S. intros vals c L Hin. no_entry_in L Hin.
Defined.

Lemma malformed_holding_witness :
  process_top_holdings sample_loads 0%nat
    {| frames := [holdings_table_sample (F:=b64)]; log := [] |}
  = (Ok (rows_records sample_loads Some "company" "percentage"
           [Str "Fund A"] (map Some [Str "[]"])
         ++ [ {| fund_name := Str "Fund B"; field := VStr "A"; number := of_Z 9 |} ]
         ++ rows_records sample_loads Some "company" "percentage"
              [Str "Fund C"] (map Some [Num nan])),
     {| frames := [holdings_table_sample (F:=b64)]; log := [] |}).
Proof.
  apply (malformed_holding_cuts_its_row sample_loads
           {| frames := [holdings_table_sample (F:=b64)]; log := [] |} 0%nat
           holdings_table_sample
           [Str "Fund A"] (Str "Fund B") [Str "Fund C"]
           [Str "[]"] (Str holdings_text) [Num nan]
           [VDict [(lit "company", VStr "A"); (lit "percentage", VNum (of_Z 9))]]
           (VDict [(lit "company", VStr "B")])
           [VDict [(lit "company", VStr "C"); (lit "percentage", VNum (of_Z 1))]]).
  - reflexivity.
  - reflexivity.
  - reflexivity.
  - reflexivity.
  - vm_compute. reflexivity.
  - constructor; [reflexivity|constructor].
  - reflexivity.
  - discriminate.
Defined.

(** The table of holdings: one record, of the entry before the one
    without a percentage. *)
Example one_holding_record :
  fst (process_top_holdings sample_loads 0%nat
         {| frames := [holdings_table_sample (F:=b64)]; log := [] |})
  = Ok [ {| fund_name := Str "Fund B"; field := VStr "A"; number := of_Z 9 |} ].
Proof. vm_compute. reflexivity. Qed.
